(** * Keyword classification of marketing statements

    A shallow embedding of the classification code of the three Streamlit
    scripts

      - [pages/1_claude_dictionary.py]   ([classify_statement],
        [process_data], the dictionary import and the tactic breakdown),
      - [pages/codex_project_dictionary.py] ([_detect_statement_column]),
      - [streamlit_app.py]               (the ["Statement"] gate of [main]),

    followed by the properties of the specification proved, or refuted,
    on it.

    Conventions of the embedding.
      - A Python [str] is a [string], the bytes of its UTF-8 form.
        [PyStr.lower], [Codex.is_space] and [PyText.is_linebreak] are
        the ASCII parts of [str.lower], of white space and of the line
        boundaries, exact on ASCII text: a statement that needs more
        of them than that is made of ASCII text, or of any case
        mapping, which the functions named [_with] take as a
        parameter.
      - A Python [dict] is an association list in insertion order whose
        keys are pairwise distinct; [d[k] = v] is [dict_set].
      - A Python [int] is a [Z]; [len] is [Z.of_nat (length _)].
      - An exception is a value of [exn] carried by [result]; the frame
        or session a function mutates is passed and returned. *)

From Stdlib Require Import String Ascii List ZArith QArith Bool Lia.
From Stdlib Require Import Numbers.DecimalString.
Import ListNotations.

Local Open Scope string_scope.
Local Open Scope list_scope.
Local Open Scope Z_scope.

(* ================================================================== *)
(** ** Python strings *)
(* ================================================================== *)

Module PyStr.

(** [c.lower()] for one ASCII character. *)
Definition lower_char (c : ascii) : ascii :=
  let n := nat_of_ascii c in
  if ((65 <=? n)%nat && (n <=? 90)%nat)%bool
  then ascii_of_nat (n + 32) else c.

(** [s.lower()]. *)
Fixpoint lower (s : string) : string :=
  match s with
  | EmptyString => EmptyString
  | String c r => String (lower_char c) (lower r)
  end.

(** [hay.startswith(needle)]. *)
Fixpoint startswith (needle hay : string) : bool :=
  match needle, hay with
  | EmptyString, _ => true
  | String _ _, EmptyString => false
  | String a n, String b h => Ascii.eqb a b && startswith n h
  end.

(** [needle in hay]: the needle starts at some position of [hay]. *)
Fixpoint contains (needle hay : string) : bool :=
  startswith needle hay ||
  match hay with
  | EmptyString => false
  | String _ h => contains needle h
  end.

(** [sep.join(parts)]. *)
Fixpoint join (sep : string) (parts : list string) : string :=
  match parts with
  | [] => ""
  | [p] => p
  | p :: rest => p ++ sep ++ join sep rest
  end.

End PyStr.
Import PyStr.

(* ================================================================== *)
(** ** Python dictionaries *)
(* ================================================================== *)

Section Dict.
Context {V : Type}.

Definition dict := list (string * V).

Definition dict_keys (d : dict) : list string := map fst d.

(** [d.get(k)]. *)
Fixpoint dict_get (d : dict) (k : string) : option V :=
  match d with
  | [] => None
  | (k', v) :: r => if String.eqb k' k then Some v else dict_get r k
  end.

(** [d[k] = v]: an existing key keeps its place, a new one goes last. *)
Fixpoint dict_set (d : dict) (k : string) (v : V) : dict :=
  match d with
  | [] => [(k, v)]
  | (k', v') :: r =>
      if String.eqb k' k then (k', v) :: r else (k', v') :: dict_set r k v
  end.

End Dict.
Arguments dict V : clear implicits.

(* ================================================================== *)
(** ** Cell values and match results *)
(* ================================================================== *)

(** What a cell read from a CSV file holds: a missing value ([NaN], or
    [None]), text, an integer or a boolean. *)
Inductive value :=
| VNone
| VNaN
| VStr (s : string)
| VInt (z : Z)
| VBool (b : bool).

(** [pd.isna(text)]. *)
Definition isna (text : value) : bool :=
  match text with
  | VNone | VNaN => true
  | _ => false
  end.

(** [bool(text)], the truth value that [not text] negates. *)
Definition truthy (text : value) : bool :=
  match text with
  | VNone => false
  | VNaN => true
  | VStr s => negb (String.eqb s "")
  | VInt z => negb (z =? 0)
  | VBool b => b
  end.

(** [str(text)]. *)
Definition str (text : value) : string :=
  match text with
  | VNone => "None"
  | VNaN => "nan"
  | VStr s => s
  | VInt z => NilZero.string_of_int (Z.to_int z)
  | VBool true => "True"
  | VBool false => "False"
  end.

(** The dictionary [{'present': _, 'count': _, 'matches': _}] built for
    one tactic. *)
Record MatchResult := mkMatch {
  present : bool;
  count : Z;
  matches : list string
}.

Definition dictionaries := dict (list string).
Definition results := dict MatchResult.

(* ================================================================== *)
(** ** [classify_statement] of [pages/1_claude_dictionary.py] *)
(* ================================================================== *)

(** The inner loop: [matches = []], then one [append] per keyword whose
    lower-cased form occurs in [text_lower]. *)
Definition collect_matches (text_lower : string) (keywords : list string)
  : list string :=
  fold_left
    (fun matches keyword =>
       if contains (lower keyword) text_lower
       then matches ++ [keyword] else matches)
    keywords [].

Definition len {A} (l : list A) : Z := Z.of_nat (length l).

Definition classify_statement (text : value) (dicts : dictionaries)
  : results :=
  if (isna text || negb (truthy text))%bool then []
  else
    let text_lower := lower (str text) in
    fold_left
      (fun results '(tactic, keywords) =>
         let matches := collect_matches text_lower keywords in
         dict_set results tactic
           {| present := 0 <? len matches;
              count := len matches;
              matches := matches |})
      dicts [].

(** The three readers of [process_data]:
    [x.get(tactic, {}).get('present', False)] and its two siblings. *)
Definition get_present (x : results) (tactic : string) : bool :=
  match dict_get x tactic with Some r => present r | None => false end.

Definition get_count (x : results) (tactic : string) : Z :=
  match dict_get x tactic with Some r => count r | None => 0 end.

Definition get_matches (x : results) (tactic : string) : list string :=
  match dict_get x tactic with Some r => matches r | None => [] end.

(** The dictionaries the session starts with. *)
Definition default_dictionaries : dictionaries :=
  [("urgency_marketing",
    ["limited"; "limited time"; "limited run"; "limited edition";
     "order now"; "last chance"; "hurry"; "while supplies last";
     "before they're gone"; "selling out"; "selling fast"; "act now";
     "don't wait"; "today only"; "expires soon"; "final hours";
     "almost gone"]);
   ("exclusive_marketing",
    ["exclusive"; "exclusively"; "exclusive offer"; "exclusive deal";
     "members only"; "vip"; "special access"; "invitation only";
     "premium"; "privileged"; "limited access"; "select customers";
     "insider"; "private sale"; "early access"])].

(** The statements that [classify_statement] classifies at all: neither
    missing nor falsy. *)
Definition classified (text : value) : bool :=
  (negb (isna text) && truthy text)%bool.

(** The keywords of one tactic that a lower-cased statement holds, as a
    filter of the keyword list, and the result record built from them. *)
Definition matching (text_lower : string) (keywords : list string)
  : list string :=
  filter (fun keyword => contains (lower keyword) text_lower) keywords.

Definition match_result (text_lower : string) (keywords : list string)
  : MatchResult :=
  {| present := 0 <? len (matching text_lower keywords);
     count := len (matching text_lower keywords);
     matches := matching text_lower keywords |}.

(* ================================================================== *)
(** ** Exceptions *)
(* ================================================================== *)

Inductive exn :=
| IndexError
| KeyError
| AttributeError
| TypeError
| ZeroDivisionError
| JSONDecodeError
| UnicodeDecodeError
| RecursionError.

Inductive result (A : Type) :=
| Ok (a : A)
| Raise (e : exn).
Arguments Ok {A} a.
Arguments Raise {A} e.

Definition bind {A B} (m : result A) (k : A -> result B) : result B :=
  match m with
  | Ok a => k a
  | Raise e => Raise e
  end.

Notation "x <- m ;; k" := (bind m (fun x => k))
  (at level 61, m at next level, right associativity).

(** A loop whose body may raise: the first exception ends it. *)
Fixpoint for_each {A S} (body : S -> A -> result S) (l : list A) (s : S)
  : result S :=
  match l with
  | [] => Ok s
  | a :: r => s' <- body s a ;; for_each body r s'
  end.

Fixpoint map_result {A B} (f : A -> result B) (l : list A)
  : result (list B) :=
  match l with
  | [] => Ok []
  | a :: r => b <- f a ;; bs <- map_result f r ;; Ok (b :: bs)
  end.

(* ================================================================== *)
(** ** Data frames *)
(* ================================================================== *)

(** A frame: the length of its index and its columns, in order, each a
    name and one cell per row. *)
Record Frame (C : Type) := mkFrame {
  nrows : nat;
  cols : dict (list C)
}.
Arguments mkFrame {C} nrows cols.
Arguments nrows {C} f.
Arguments cols {C} f.

(** A cell of the classified frame: a value of the input, or the
    dictionary that [classify_statement] returned for the row. *)
Inductive cell :=
| CVal (v : value)
| CResults (x : results).

Section FrameOps.
Context {C : Type}.

(** [df.columns]. *)
Definition columns (df : Frame C) : list string := dict_keys (cols df).

(** [df[name]]. *)
Definition df_get (df : Frame C) (name : string) : result (list C) :=
  match dict_get (cols df) name with
  | Some series => Ok series
  | None => Raise KeyError
  end.

(** [df[name] = series]. *)
Definition df_set (df : Frame C) (name : string) (series : list C)
  : Frame C :=
  mkFrame (nrows df) (dict_set (cols df) name series).

(** [df[names]]: the listed columns, in the order listed. *)
Definition df_select (df : Frame C) (names : list string)
  : result (Frame C) :=
  cs <- map_result (fun n => s <- df_get df n ;; Ok (n, s)) names ;;
  Ok (mkFrame (nrows df) cs).

End FrameOps.

(** The frame as [process_data] first sees it: the cells of the file. *)
Definition frame_of_input (df : Frame value) : Frame cell :=
  mkFrame (nrows df) (map (fun c => (fst c, map CVal (snd c))) (cols df)).
Arguments frame_of_input : simpl never.

(** [seq[i]] for a non-negative literal index. *)
Definition index {A} (l : list A) (i : nat) : result A :=
  match nth_error l i with
  | Some a => Ok a
  | None => Raise IndexError
  end.

(* ================================================================== *)
(** ** [process_data] of [pages/1_claude_dictionary.py] *)
(* ================================================================== *)

(** The test of the search loop:
    ['statement' in col.lower() or 'text' in col.lower()]. *)
Definition names_statement (col : string) : bool :=
  (contains "statement" (lower col) || contains "text" (lower col))%bool.

(** The search loop with its [break], then the positional default. *)
Definition find_statement_col (columns : list string) : result string :=
  match find names_statement columns with
  | Some col => Ok col
  | None =>
      if (1 <? len columns) then index columns 1 else index columns 0
  end.

(** [df['classification'].apply(lambda x: f(x))] where [f] calls
    [x.get]: a cell that is not a dictionary has no such method. *)
Definition apply_classification (df : Frame cell) (f : results -> value)
  : result (list cell) :=
  series <- df_get df "classification" ;;
  map_result
    (fun c => match c with
              | CResults x => Ok (CVal (f x))
              | CVal _ => Raise AttributeError
              end)
    series.

(** The body of the loop over [dictionaries.keys()]. *)
Definition extract_tactic (df : Frame cell) (tactic : string)
  : result (Frame cell) :=
  p <- apply_classification df (fun x => VBool (get_present x tactic)) ;;
  let df := df_set df (tactic ++ "_present") p in
  c <- apply_classification df (fun x => VInt (get_count x tactic)) ;;
  let df := df_set df (tactic ++ "_count") c in
  m <- apply_classification df
         (fun x => VStr (join ", " (get_matches x tactic))) ;;
  Ok (df_set df (tactic ++ "_matches") m).

Definition process_data (df : Frame value) (dicts : dictionaries)
  : result (Frame cell * string) :=
  statement_col <- find_statement_col (columns df) ;;
  statements <- df_get df statement_col ;;
  let classification :=
    map (fun x => CResults (classify_statement x dicts)) statements in
  let df := df_set (frame_of_input df) "classification" classification in
  df <- for_each extract_tactic (dict_keys dicts) df ;;
  Ok (df, statement_col).

(** The columns shown and exported by the results tab:
    [[col for col in df.columns if col not in ['classification']]]. *)
Definition is_shown (col : string) : bool :=
  negb (existsb (String.eqb col) ["classification"]).

Definition display_cols (df : Frame cell) : list string :=
  filter is_shown (columns df).

Definition exported (df : Frame cell) : result (Frame cell) :=
  df_select df (display_cols df).

(** The three derived column names of one tactic, in the order in which
    [extract_tactic] writes them. *)
Definition derived_names (tactic : string) : list string :=
  [(tactic ++ "_present")%string; (tactic ++ "_count")%string;
   (tactic ++ "_matches")%string].

(** The three derived columns of one tactic, computed from the results
    of the rows, and a run of column assignments. *)
Definition derived_columns (xs : list results) (tactic : string)
  : dict (list cell) :=
  [((tactic ++ "_present")%string,
    map (fun x => CVal (VBool (get_present x tactic))) xs);
   ((tactic ++ "_count")%string,
    map (fun x => CVal (VInt (get_count x tactic))) xs);
   ((tactic ++ "_matches")%string,
    map (fun x => CVal (VStr (join ", " (get_matches x tactic)))) xs)].

Definition set_columns (df : Frame cell) (cs : dict (list cell))
  : Frame cell :=
  fold_left (fun df c => df_set df (fst c) (snd c)) cs df.

(** The frames in which the [classification] column holds the results
    [xs] of the rows. *)
Definition classification_is (df : Frame cell) (xs : list results) : Prop :=
  dict_get (cols df) "classification" = Some (map CResults xs).

(** The input frames whose column names are distinct and are none of the
    names that [process_data] writes. *)
Definition no_name_clash (df : Frame value) (dicts : dictionaries) : Prop :=
  NoDup (columns df) /\
  ~ In "classification" (columns df) /\
  forall tactic name,
    In tactic (dict_keys dicts) -> In name (derived_names tactic) ->
    ~ In name (columns df).

(* ================================================================== *)
(** ** The tactic breakdown of the results tab *)
(* ================================================================== *)

(** [series.sum()] over a column of flags: [True] counts for one. *)
Definition cell_number (c : cell) : result Z :=
  match c with
  | CVal (VBool b) => Ok (if b then 1 else 0)
  | CVal (VInt z) => Ok z
  | _ => Raise TypeError
  end.

Definition series_sum (series : list cell) : result Z :=
  for_each (fun acc c => n <- cell_number c ;; Ok (acc + n)) series 0.

(** [a / b] on numbers; the quotient is kept exact, where Python rounds
    it to a float. A zero divisor raises (on a numpy scalar the quotient
    would be [NaN]: not a number either way). *)
Definition truediv (a b : Z) : result Q :=
  if b =? 0 then Raise ZeroDivisionError
  else Ok (inject_Z a / inject_Z b)%Q.

(** [total_present = df[f'{tactic}_present'].sum()] and
    [percentage = (total_present / len(df) * 100)]. *)
Definition total_present (df : Frame cell) (tactic : string) : result Z :=
  series <- df_get df (tactic ++ "_present") ;;
  series_sum series.

Definition percentage (df : Frame cell) (tactic : string) : result Q :=
  total <- total_present df tactic ;;
  q <- truediv total (Z.of_nat (nrows df)) ;;
  Ok (q * 100)%Q.

(** The number of rows that a column of flags marks present. *)
Definition present_count (flags : list bool) : Z :=
  len (filter (fun b => b) flags).

Definition flag_cells (flags : list bool) : list cell :=
  map (fun b => CVal (VBool b)) flags.

(* ================================================================== *)
(** ** The session of [pages/1_claude_dictionary.py] *)
(* ================================================================== *)

#[local] Set Warnings "-register-all".

(** A parsed JSON document (numbers are kept to the integers). *)
Inductive json :=
| JNull
| JBool (b : bool)
| JNumber (z : Z)
| JString (s : string)
| JArray (items : list json)
| JObject (members : list (string * json)).



Definition json_of_keywords (keywords : list string) : json :=
  JArray (map JString keywords).

(** The store as the session holds it. *)
Definition json_of_dictionaries (d : dictionaries) : json :=
  JObject (map (fun kv => (fst kv, json_of_keywords (snd kv))) d).

Record session := mkSession {
  st_dictionaries : json;
  st_classified_data : option (Frame cell);
  st_statement_col : option string
}.

(** What a rerun of the script leaves behind: the session, and the
    exception that ended the run, if one did. *)
Definition rerun := (session * option exn)%type.


(** The [Classify Data] button. *)
Definition classify_data (df : Frame value) (dicts : dictionaries)
  (st : session) : rerun :=
  match process_data df dicts with
  | Raise e => (st, Some e)
  | Ok (classified_df, statement_col) =>
      (mkSession (st_dictionaries st) (Some classified_df)
                 (Some statement_col), None)
  end.

(* ================================================================== *)
(** ** [pages/codex_project_dictionary.py] *)
(* ================================================================== *)

Module Codex.

Definition _detect_statement_column (columns : list string)
  : option string :=
  find (fun col => String.eqb (lower col) "statement") columns.

(** ASCII white space, which [str.strip] removes. *)
Definition is_space (c : ascii) : bool :=
  let n := nat_of_ascii c in
  ((n =? 32)%nat || ((9 <=? n)%nat && (n <=? 13)%nat)
   || ((28 <=? n)%nat && (n <=? 31)%nat))%bool.

(** [bool(word.strip())]: some character is not white space. *)
Fixpoint has_text (word : string) : bool :=
  match word with
  | EmptyString => false
  | String c r => (negb (is_space c) || has_text r)%bool
  end.

(** [fillna("")]. *)
Definition fillna (v : value) : value :=
  if isna v then VStr "" else v.

Definition has_match (lowered_keywords : list string) (text : string)
  : Z :=
  let text_lower := lower text in
  if existsb (fun keyword => contains keyword text_lower)
             lowered_keywords
  then 1 else 0.

Definition _apply_classification (df : Frame value) (column : string)
  (keyword_map : dictionaries) : result (Frame value) :=
  series <- df_get df column ;;
  let statements := map (fun v => str (fillna v)) series in
  Ok (fold_left
        (fun working_df '(tactic, words) =>
           let lowered_keywords := map lower (filter has_text words) in
           df_set working_df (tactic ++ "_flag")
             (map (fun text => VInt (has_match lowered_keywords text))
                  statements))
        keyword_map df).

Record session := mkSession {
  classified_df : option (Frame value);
  statement_column : string
}.

(** What the run shows: a message of [st.sidebar.error], a message of
    [st.success], or the exception that ended it. *)
Inductive feedback :=
| SidebarError (msg : string)
| Success (msg : string)
| Uncaught (e : exn).

(** The [Run classification] button, once the file has been read. *)
Definition run_classification (input_df : Frame value)
  (keywords : dictionaries) (st : session) : session * feedback :=
  match _detect_statement_column (columns input_df) with
  | None =>
      (st, SidebarError
             "No `Statement` column found. Please add one to your CSV.")
  | Some statement_col =>
      match _apply_classification input_df statement_col keywords with
      | Raise e => (st, Uncaught e)
      | Ok classified =>
          (mkSession (Some classified) statement_col,
           Success "Classification complete! See the results below.")
      end
  end.

End Codex.

(* ================================================================== *)
(** ** [streamlit_app.py] *)
(* ================================================================== *)

Module App.

(** A cell of the frame of [main]: a value of the file, or the list
    of labels of the row. *)
Inductive cell :=
| CVal (v : value)
| CLabels (labels : list string).

(** The keywords of a label are a set; [any] does not depend on the
    order in which it is walked. *)
Definition classify_statement (text : string) (dicts : dictionaries)
  : list string :=
  let text_lower := lower text in
  fold_left
    (fun matched '(label, keywords) =>
       if existsb (fun kw => contains kw text_lower) keywords
       then matched ++ [label] else matched)
    dicts [].

(** [df["labels"].apply(lambda cats, lbl=label: lbl in cats)]. *)
Definition one_hot (df : Frame cell) (label : string)
  : result (Frame cell) :=
  series <- df_get df "labels" ;;
  flags <- map_result
             (fun c => match c with
                       | CLabels cats =>
                           Ok (CVal (VBool (existsb (String.eqb label)
                                                    cats)))
                       | CVal _ => Raise TypeError
                       end)
             series ;;
  Ok (df_set df label flags).

(** What [main] puts on the page for an uploaded file. *)
Inductive page :=
| ErrorShown (msg : string)
| Classified (df : Frame cell)
| Uncaught (e : exn).

(** [astype(str)] is taken cell by cell; a missing statement becomes the
    text [nan] there, as pandas did before it kept missing values
    through [astype(str)]: what is stated of this function is stated of
    frames without missing statements. *)
Definition classify_frame (df : Frame value) (dicts : dictionaries)
  : result (Frame cell) :=
  statements <- df_get df "Statement" ;;
  let labels :=
    map (fun v => CLabels (classify_statement (str v) dicts))
        statements in
  let df :=
    df_set (mkFrame (nrows df)
              (map (fun c => (fst c, map CVal (snd c))) (cols df)))
           "labels" labels in
  for_each one_hot (dict_keys dicts) df.

(** The part of [main] that follows the upload. *)
Definition main (df : Frame value) (dicts : dictionaries) : page :=
  if negb (existsb (String.eqb "Statement") (columns df))
  then ErrorShown
         "The uploaded CSV must contain a column named **'Statement'**."
  else
    match classify_frame df dicts with
    | Ok classified => Classified classified
    | Raise e => Uncaught e
    end.

End App.

(* ================================================================== *)
(** ** The wording of the specification *)
(* ================================================================== *)

Module Spec.

(** The resolution chain as the specification words it: an exact
    case-insensitive match on ["statement"], else a column whose name
    contains ["statement"] or ["text"], else the second column, or the
    first when there is only one. *)
Definition resolve_statement_field (columns : list string)
  : result string :=
  match find (fun col => String.eqb (lower col) "statement") columns with
  | Some col => Ok col
  | None =>
      match find names_statement columns with
      | Some col => Ok col
      | None =>
          match columns with
          | _ :: second :: _ => Ok second
          | [only] => Ok only
          | [] => Raise IndexError
          end
      end
  end.




(** The columns the specification gives the output: those of the
    input, then three per category. *)
Definition output_columns (input : list string) (dicts : dictionaries)
  : list string :=
  input ++ flat_map derived_names (dict_keys dicts).

End Spec.

(* ================================================================== *)
(** ** The dictionary tab of [pages/1_claude_dictionary.py] *)
(* ================================================================== *)

(** [k in d]. *)
Definition key_in {V} (k : string) (d : dict V) : bool :=
  existsb (String.eqb k) (dict_keys d).

(** [d[k]]. *)
Definition lookup {V} (d : dict V) (k : string) : result V :=
  match dict_get d k with
  | Some v => Ok v
  | None => Raise KeyError
  end.

(** [del d[k]], for a key that is there. *)
Fixpoint dict_remove {V} (d : dict V) (k : string) : dict V :=
  match d with
  | [] => []
  | (k', v) :: r =>
      if String.eqb k' k then r else (k', v) :: dict_remove r k
  end.

(** [l.remove(x)]: the first occurrence goes. The delete button passes
    a member of the list, so the [ValueError] of a missing member does
    not arise there. *)
Fixpoint list_remove (x : string) (l : list string) : list string :=
  match l with
  | [] => []
  | y :: r => if String.eqb y x then r else y :: list_remove x r
  end.

(** What a button shows. *)
Inductive notice :=
| Quiet
| ShowSuccess (msg : string)
| ShowError (msg : string).

(** The [Add Tactic] button. *)
Definition add_tactic (new_tactic : string) (d : dictionaries)
  : dictionaries * notice :=
  if (negb (String.eqb new_tactic "") && negb (key_in new_tactic d))%bool
  then (dict_set d new_tactic [],
        ShowSuccess ("Added tactic: " ++ new_tactic))
  else if key_in new_tactic d
       then (d, ShowError "Tactic already exists!")
       else (d, Quiet).

(** The [Add] button of a tactic: the keyword list is read only when the
    keyword typed is not empty. *)
Definition add_keyword (tactic new_keyword : string) (d : dictionaries)
  : result dictionaries :=
  if String.eqb new_keyword "" then Ok d
  else
    keywords <- lookup d tactic ;;
    if existsb (String.eqb new_keyword) keywords then Ok d
    else Ok (dict_set d tactic (keywords ++ [new_keyword])).

(** The delete button of the keyword shown at position [i], one of the
    positions of the list, for which alone there is a button:
    [keyword = keywords[i]], then
    [dictionaries[tactic].remove(keyword)]. *)
Definition delete_keyword (tactic : string) (i : nat) (d : dictionaries)
  : result dictionaries :=
  keywords <- lookup d tactic ;;
  keyword <- index keywords i ;;
  Ok (dict_set d tactic (list_remove keyword keywords)).

(** The [Delete tactic] button: [del dictionaries[tactic]]. *)
Definition delete_tactic (tactic : string) (d : dictionaries)
  : result dictionaries :=
  if key_in tactic d then Ok (dict_remove d tactic) else Raise KeyError.

(* ================================================================== *)
(** ** The results tab of [pages/1_claude_dictionary.py] *)
(* ================================================================== *)

(** A cell used as one entry of a boolean mask; a cell that is not a
    boolean makes no mask, and the exception pandas has for it is not
    told apart here. *)
Definition cell_flag (c : cell) : result bool :=
  match c with
  | CVal (VBool b) => Ok b
  | _ => Raise TypeError
  end.

(** [series[mask]]: the entries at which the mask holds. *)
Fixpoint mask_filter {A} (mask : list bool) (l : list A) : list A :=
  match mask, l with
  | m :: ms, a :: r =>
      if m then a :: mask_filter ms r else mask_filter ms r
  | _, _ => []
  end.

(** [df[mask]]: the rows at which the mask holds. *)
Definition df_mask (df : Frame cell) (mask : list bool) : Frame cell :=
  mkFrame (length (filter (fun b => b) mask))
          (map (fun c => (fst c, mask_filter mask (snd c))) (cols df)).

(** The [Filter by tactic] select box: ["All"] shows every row,
    a tactic the rows of
    [display_df[display_df[f'{filter_tactic}_present']]]. *)
Definition filter_rows (df : Frame cell) (filter_tactic : string)
  : result (Frame cell) :=
  if negb (String.eqb filter_tactic "All")
  then
    flags <- df_get df (filter_tactic ++ "_present") ;;
    mask <- map_result cell_flag flags ;;
    Ok (df_mask df mask)
  else Ok df.

(** Python's truth of a cell, with a missing value counted false as
    [any] skips it. *)
Definition cell_truth (c : cell) : bool :=
  match c with
  | CVal v => (negb (isna v) && truthy v)%bool
  | CResults x => negb (Nat.eqb (length x) 0)
  end.

(** [frame.any(axis=1)]: row by row, whether some column holds a true
    cell. *)
Definition row_any (columns : list (list cell)) (i : nat) : bool :=
  existsb (fun column =>
             match nth_error column i with
             | Some c => cell_truth c
             | None => false
             end)
          columns.

(** [df[[f'{t}_present' for t in dictionaries.keys()]].any(axis=1).sum()],
    the number of statements with any tactic. *)
Definition any_tactic (df : Frame cell) (tactics : list string)
  : result Z :=
  selected <- df_select df (map (fun t => t ++ "_present")%string tactics) ;;
  Ok (len (filter (row_any (map snd (cols selected)))
                  (seq 0 (nrows df)))).

(* ================================================================== *)
(** ** Keyword text areas *)
(* ================================================================== *)

Module PyText.

(** [s.lstrip()], [s.rstrip()] and [s.strip()]. *)
Fixpoint lstrip (s : string) : string :=
  match s with
  | EmptyString => EmptyString
  | String c r => if Codex.is_space c then lstrip r else s
  end.

Fixpoint rstrip (s : string) : string :=
  match s with
  | EmptyString => EmptyString
  | String c r =>
      match rstrip r with
      | EmptyString => if Codex.is_space c then EmptyString
                       else String c EmptyString
      | kept => String c kept
      end
  end.

Definition strip (s : string) : string := rstrip (lstrip s).

(** [s.split(sep)] for a separator of one character. *)
Fixpoint split (sep : ascii) (s : string) : list string :=
  match s with
  | EmptyString => [EmptyString]
  | String c r =>
      if Ascii.eqb c sep then EmptyString :: split sep r
      else match split sep r with
           | [] => [String c EmptyString]
           | piece :: pieces => String c piece :: pieces
           end
  end.

(** The ASCII line boundaries of [str.splitlines]: line feed, vertical
    tab, form feed, carriage return and the three separators. *)
Definition is_linebreak (c : ascii) : bool :=
  let n := nat_of_ascii c in
  (((10 <=? n)%nat && (n <=? 13)%nat)
   || ((28 <=? n)%nat && (n <=? 30)%nat))%bool.

(** The pieces between line boundaries; [after_cr] says that the
    character before was a carriage return, which takes a line feed
    that follows it into the same boundary. *)
Fixpoint line_pieces (after_cr : bool) (s : string) : list string :=
  match s with
  | EmptyString => [EmptyString]
  | String c r =>
      if (after_cr && Ascii.eqb c "010"%char)%bool then line_pieces false r
      else if is_linebreak c
      then EmptyString :: line_pieces (Ascii.eqb c "013"%char) r
      else match line_pieces false r with
           | [] => [String c EmptyString]
           | piece :: pieces => String c piece :: pieces
           end
  end.

(** A boundary at the very end opens no further line. *)
Fixpoint drop_last_empty (pieces : list string) : list string :=
  match pieces with
  | [] => []
  | [last] => if String.eqb last "" then [] else [last]
  | piece :: rest => piece :: drop_last_empty rest
  end.

(** [s.splitlines()]. *)
Definition splitlines (s : string) : list string :=
  drop_last_empty (line_pieces false s).

(** No character of the string is [c], or a line boundary. *)
Fixpoint lacks (c : ascii) (s : string) : bool :=
  match s with
  | EmptyString => true
  | String a r => (negb (Ascii.eqb a c) && lacks c r)%bool
  end.

Fixpoint one_line (s : string) : bool :=
  match s with
  | EmptyString => true
  | String a r => (negb (is_linebreak a) && one_line r)%bool
  end.

End PyText.

(* ================================================================== *)
(** ** The keyword text areas of [pages/codex_project_dictionary.py] *)
(* ================================================================== *)

Module CodexPage.
Import PyText.

Definition DEFAULT_URGENCY : list string :=
  ["limited time"; "last chance"; "hurry"; "act now"; "today only";
   "expires soon"; "final hours"].

Definition DEFAULT_EXCLUSIVE : list string :=
  ["exclusive"; "members only"; "vip"; "special access";
   "invitation only"; "early access"].

(** The keywords of a text area, one per line. *)
Definition _parse_keywords (block : string) : list string :=
  if String.eqb block "" then []
  else map strip
           (filter (fun line => negb (String.eqb (strip line) ""))
                   (splitlines block)).

(** The text a keyword list is shown as: ["\n".join(keywords)]. *)
Definition shown (keywords : list string) : string :=
  join (String "010"%char EmptyString) keywords.

(** The dictionary that [Run classification] builds from the two text
    areas. *)
Definition keyword_map (urgency_keywords_raw exclusive_keywords_raw : string)
  : dictionaries :=
  [("urgency_marketing", _parse_keywords urgency_keywords_raw);
   ("exclusive_marketing", _parse_keywords exclusive_keywords_raw)].

End CodexPage.

(* ================================================================== *)
(** ** The sidebar of [streamlit_app.py] *)
(* ================================================================== *)

Module AppSidebar.
Import PyText.

(** [[kw.strip() for kw in keywords_text.split("\n") if kw.strip()]]. *)
Definition parse_keywords (keywords_text : string) : list string :=
  map strip
      (filter (fun kw => negb (String.eqb (strip kw) ""))
              (split "010"%char keywords_text)).

(** The value the text area of a label is given:
    ["\n".join(dictionaries[label])]. *)
Definition text_area_value (label : string) (d : dictionaries)
  : result string :=
  keywords <- lookup d label ;;
  Ok (join (String "010"%char EmptyString) keywords).

(** Saving the text of the area of a label back to the session. *)
Definition save_keywords (label keywords_text : string) (d : dictionaries)
  : dictionaries :=
  dict_set d label (parse_keywords keywords_text).

(** The [Add category] button; [true] stands for the warning
    [Category already exists or name is empty.] *)
Definition add_category (new_cat : string) (d : dictionaries)
  : dictionaries * bool :=
  if (negb (String.eqb new_cat "") && negb (key_in new_cat d))%bool
  then (dict_set d new_cat [], false)
  else (d, true).

End AppSidebar.

(* ================================================================== *)
(** ** Columns written by the other two pages *)
(* ================================================================== *)

(** The name and the cells of the column that [_apply_classification]
    writes for one tactic, given the statements of the rows. *)
Definition flag_name (tactic : string) : string := tactic ++ "_flag".

Definition flag_series (series : list value) (words : list string)
  : list value :=
  map (fun v =>
         VInt (Codex.has_match (map lower (filter Codex.has_text words))
                               (str (Codex.fillna v))))
      series.

(** The strings that do not begin with white space. *)
Definition starts_clean (s : string) : bool :=
  match s with
  | EmptyString => true
  | String c _ => negb (Codex.is_space c)
  end.

(** The texts whose only line boundary is the line feed. *)
Fixpoint only_lf (s : string) : bool :=
  match s with
  | EmptyString => true
  | String c r =>
      ((negb (PyText.is_linebreak c) || Ascii.eqb c "010"%char)
       && only_lf r)%bool
  end.

(** The line feed, as a separator. *)
Definition newline : string := String "010"%char EmptyString.

(** The frames of [main] in which the [labels] column holds the label
    lists [ls] of the rows, and the flags of one label over them. *)
Definition labels_is (df : Frame App.cell) (ls : list (list string)) : Prop :=
  dict_get (cols df) "labels" = Some (map App.CLabels ls).

Definition one_hot_series (ls : list (list string)) (label : string)
  : list App.cell :=
  map (fun cats => App.CVal (VBool (existsb (String.eqb label) cats))) ls.

(** The frame [main] starts from: the cells of the file. *)
Definition app_frame_of_input (df : Frame value) : Frame App.cell :=
  mkFrame (nrows df) (map (fun c => (fst c, map App.CVal (snd c))) (cols df)).

(* ================================================================== *)
(** ** Any case mapping *)
(* ================================================================== *)

(** The texts made of ASCII characters only. *)
Fixpoint is_ascii (s : string) : bool :=
  match s with
  | EmptyString => true
  | String c r => ((nat_of_ascii c <? 128)%nat && is_ascii r)%bool
  end.

(** A case mapping that does to ASCII text what [PyStr.lower] does, as
    [str.lower] does. *)
Definition agrees_on_ascii (str_lower : string -> string) : Prop :=
  forall s, is_ascii s = true -> str_lower s = lower s.

Section WithLower.

(** [str.lower], whatever it does to the text. *)
Variable str_lower : string -> string.

Definition collect_matches_with (text_lower : string)
  (keywords : list string) : list string :=
  fold_left
    (fun matches keyword =>
       if contains (str_lower keyword) text_lower
       then matches ++ [keyword] else matches)
    keywords [].

(** [classify_statement] of [pages/1_claude_dictionary.py], with the case
    mapping it calls. *)
Definition classify_statement_with (text : value) (dicts : dictionaries)
  : results :=
  if (isna text || negb (truthy text))%bool then []
  else
    let text_lower := str_lower (str text) in
    fold_left
      (fun results '(tactic, keywords) =>
         let matches := collect_matches_with text_lower keywords in
         dict_set results tactic
           {| present := 0 <? len matches;
              count := len matches;
              matches := matches |})
      dicts [].

(** The keywords of a list found in a lower-cased statement, and the
    result built from them. *)
Definition matching_with (text_lower : string) (keywords : list string)
  : list string :=
  filter (fun keyword => contains (str_lower keyword) text_lower) keywords.

Definition match_result_with (text_lower : string) (keywords : list string)
  : MatchResult :=
  {| present := 0 <? len (matching_with text_lower keywords);
     count := len (matching_with text_lower keywords);
     matches := matching_with text_lower keywords |}.

End WithLower.

(* ================================================================== *)
(** * Properties *)
(* ================================================================== *)

(** ** Strings *)

Lemma startswith_app (n post : string) : startswith n (n ++ post) = true.
Proof.
  induction n as [|a n IH]; simpl; [reflexivity|].
  now rewrite Ascii.eqb_refl, IH.
Qed.

Lemma startswith_inv (n h : string) :
  startswith n h = true -> exists post, h = (n ++ post)%string.
Proof.
  revert h; induction n as [|a n IH]; intros h H.
  - now exists h.
  - destruct h as [|b h]; simpl in H; [discriminate|].
    apply andb_true_iff in H as [Hab Hn].
    apply Ascii.eqb_eq in Hab; subst b.
    destruct (IH _ Hn) as [post ->].
    now exists post.
Qed.

Lemma startswith_contains (n h : string) :
  startswith n h = true -> contains n h = true.
Proof. intros H; destruct h; simpl; now rewrite H. Qed.

(** [needle in hay] holds exactly when [hay] splits around [needle]. *)
Lemma contains_iff (n h : string) :
  contains n h = true <->
  exists pre post, h = (pre ++ n ++ post)%string.
Proof.
  split.
  - induction h as [|b h IH]; simpl; intros H.
    + apply orb_true_iff in H as [H|H]; [|discriminate].
      apply startswith_inv in H as [post Hp].
      now exists "", post.
    + apply orb_true_iff in H as [H|H].
      * apply startswith_inv in H as [post Hp].
        now exists "", post.
      * destruct (IH H) as (pre & post & ->).
        now exists (String b pre), post.
  - intros (pre & post & ->).
    induction pre as [|c pre IH]; simpl.
    + apply startswith_contains, startswith_app.
    + rewrite IH; apply orb_true_r.
Qed.

Lemma lower_length (s : string) : String.length (lower s) = String.length s.
Proof. induction s; simpl; congruence. Qed.

Lemma append_length (a b : string) :
  String.length (a ++ b) = (String.length a + String.length b)%nat.
Proof. induction a; simpl; congruence. Qed.

Lemma contains_length (n h : string) :
  contains n h = true -> (String.length n <= String.length h)%nat.
Proof.
  intros H; apply contains_iff in H as (pre & post & ->).
  rewrite !append_length; lia.
Qed.

(** A statement that holds a non-empty keyword is not empty. *)
Lemma contains_lower_nonempty (kw s : string) :
  kw <> "" -> contains (lower kw) (lower s) = true -> s <> "".
Proof.
  intros Hkw H ->.
  apply contains_length in H.
  rewrite lower_length in H; simpl in H.
  destruct kw; [congruence | simpl in H; lia].
Qed.

(** ** Dictionaries *)

Section DictFacts.
Context {V : Type}.
Implicit Types (d : dict V) (k : string) (v : V).

Lemma dict_set_fresh d k v :
  ~ In k (dict_keys d) -> dict_set d k v = d ++ [(k, v)].
Proof.
  induction d as [|[k' v'] d IH]; simpl; intros H; [reflexivity|].
  destruct (String.eqb_spec k' k) as [->|_]; [tauto|].
  rewrite IH; tauto.
Qed.

Lemma dict_keys_app d1 d2 :
  dict_keys (d1 ++ d2) = dict_keys d1 ++ dict_keys d2.
Proof. apply map_app. Qed.

Lemma dict_keys_set d k v :
  dict_keys (dict_set d k v) =
  if existsb (String.eqb k) (dict_keys d) then dict_keys d
  else dict_keys d ++ [k].
Proof.
  induction d as [|[k' v'] d IH]; simpl; [reflexivity|].
  rewrite (String.eqb_sym k k').
  destruct (String.eqb_spec k' k) as [->|_]; simpl; [reflexivity|].
  rewrite IH. now destruct (existsb _ _).
Qed.

Lemma dict_get_In d k v :
  NoDup (dict_keys d) -> In (k, v) d -> dict_get d k = Some v.
Proof.
  induction d as [|[k' v'] d IH]; simpl; intros Hnd Hin; [tauto|].
  inversion Hnd as [|? ? Hk Hd]; subst.
  destruct Hin as [E|Hin].
  - inversion E; subst. now rewrite String.eqb_refl.
  - destruct (String.eqb_spec k' k) as [->|_].
    + exfalso; apply Hk. now apply (in_map fst) in Hin.
    + now apply IH.
Qed.

Lemma dict_get_Some_In d k v : dict_get d k = Some v -> In (k, v) d.
Proof.
  induction d as [|[k' v'] d IH]; simpl; [discriminate|].
  destruct (String.eqb_spec k' k) as [->|_].
  - intros [= ->]; now left.
  - intros H; right; now apply IH.
Qed.

Lemma dict_get_None d k : ~ In k (dict_keys d) -> dict_get d k = None.
Proof.
  induction d as [|[k' v'] d IH]; simpl; intros H; [reflexivity|].
  destruct (String.eqb_spec k' k) as [->|_]; [tauto|].
  apply IH; tauto.
Qed.

Lemma dict_get_set_same d k v : dict_get (dict_set d k v) k = Some v.
Proof.
  induction d as [|[k' v'] d IH]; simpl.
  - now rewrite String.eqb_refl.
  - destruct (String.eqb_spec k' k) as [->|Hne]; simpl.
    + now rewrite String.eqb_refl.
    + destruct (String.eqb_spec k' k); [contradiction | exact IH].
Qed.

Lemma dict_get_set_other d k k' v :
  k' <> k -> dict_get (dict_set d k v) k' = dict_get d k'.
Proof.
  intros Hne.
  induction d as [|[k0 v0] d IH]; simpl.
  - destruct (String.eqb_spec k k'); [congruence | reflexivity].
  - destruct (String.eqb_spec k0 k) as [->|_]; simpl.
    + destruct (String.eqb_spec k k'); [congruence | reflexivity].
    + now rewrite IH.
Qed.

(** What [dict_set] leaves in the dictionary was there before, or is
    the entry just stored. *)
Lemma dict_set_In d k v k' v' :
  In (k', v') (dict_set d k v) -> In (k', v') d \/ (k' = k /\ v' = v).
Proof.
  induction d as [|[k0 v0] d IH]; simpl.
  - intros [[= <- <-]|[]]; now right.
  - destruct (String.eqb_spec k0 k) as [->|_]; simpl.
    + intros [[= <- <-]|H]; [now right | left; now right].
    + intros [E|H]; [left; now left|].
      destruct (IH H); [left; now right | now right].
Qed.

End DictFacts.

(** A loop that stores one computed value per entry of a dictionary
    rebuilds the dictionary entry by entry, in order. *)
Lemma fold_dict_set {V W : Type} (f : V -> W) (d : dict V) (acc : dict W) :
  NoDup (dict_keys acc ++ dict_keys d) ->
  fold_left (fun r '(k, v) => dict_set r k (f v)) d acc =
  acc ++ map (fun kv => (fst kv, f (snd kv))) d.
Proof.
  revert acc; induction d as [|[k v] d IH]; simpl; intros acc Hnd.
  - now rewrite app_nil_r.
  - rewrite dict_set_fresh.
    + rewrite IH.
      * now rewrite <- app_assoc.
      * rewrite dict_keys_app; simpl. now rewrite <- app_assoc.
    + apply NoDup_remove_2 in Hnd.
      intros Hin; apply Hnd, in_or_app; now left.
Qed.

(** ** [classify_statement] *)

Lemma collect_matches_acc text_lower keywords acc :
  fold_left
    (fun matches keyword =>
       if contains (lower keyword) text_lower
       then matches ++ [keyword] else matches)
    keywords acc
  = acc ++ matching text_lower keywords.
Proof.
  revert acc; induction keywords as [|kw kws IH]; intros acc; simpl.
  - now rewrite app_nil_r.
  - rewrite IH. destruct (contains _ _); [|reflexivity].
    now rewrite <- app_assoc.
Qed.

Lemma collect_matches_filter text_lower keywords :
  collect_matches text_lower keywords = matching text_lower keywords.
Proof. apply collect_matches_acc. Qed.

Lemma fold_left_agree {A B} (f g : A -> B -> A) (l : list B) (a : A) :
  (forall x y, f x y = g x y) -> fold_left f l a = fold_left g l a.
Proof.
  intros E; revert a; induction l as [|b l IH]; intros a; simpl;
    [reflexivity | now rewrite E, IH].
Qed.

Lemma classify_statement_skipped text dicts :
  classified text = false -> classify_statement text dicts = [].
Proof.
  unfold classified, classify_statement.
  destruct (isna text), (truthy text); simpl; congruence.
Qed.

Lemma classify_statement_fold text dicts :
  classified text = true ->
  classify_statement text dicts =
  fold_left
    (fun results '(tactic, keywords) =>
       dict_set results tactic (match_result (lower (str text)) keywords))
    dicts [].
Proof.
  unfold classified, classify_statement.
  destruct (isna text), (truthy text); simpl; try discriminate.
  intros _. apply fold_left_agree.
  intros results [tactic keywords].
  unfold match_result. now rewrite collect_matches_filter.
Qed.

Lemma classify_statement_map text dicts :
  NoDup (dict_keys dicts) ->
  classified text = true ->
  classify_statement text dicts =
  map (fun kv => (fst kv, match_result (lower (str text)) (snd kv))) dicts.
Proof.
  intros Hnd Hc.
  rewrite (classify_statement_fold _ _ Hc).
  now rewrite (fold_dict_set (match_result (lower (str text))) dicts []).
Qed.

(** Every entry of the result comes from an entry of the dictionary. *)
Lemma classify_statement_entry text dicts tactic r :
  In (tactic, r) (classify_statement text dicts) ->
  classified text = true /\
  exists keywords,
    In (tactic, keywords) dicts /\
    r = match_result (lower (str text)) keywords.
Proof.
  destruct (classified text) eqn:Hc.
  2:{ rewrite (classify_statement_skipped _ _ Hc). intros []. }
  rewrite (classify_statement_fold _ _ Hc).
  intros H; split; [reflexivity|].
  assert (G : forall acc,
    In (tactic, r)
       (fold_left
          (fun results '(tactic, keywords) =>
             dict_set results tactic
               (match_result (lower (str text)) keywords)) dicts acc) ->
    In (tactic, r) acc \/
    exists keywords, In (tactic, keywords) dicts /\
                     r = match_result (lower (str text)) keywords).
  { clear. induction dicts as [|[t kws] d IH]; simpl; intros acc Hin.
    - now left.
    - destruct (IH _ Hin) as [Hacc|(k & Hk & ->)].
      + apply dict_set_In in Hacc as [Hacc|[-> ->]]; [now left|].
        right; exists kws; split; [now left | reflexivity].
      + right; exists k; split; [now right | reflexivity]. }
  destruct (G [] H) as [[]|E]; exact E.
Qed.

Ltac nodup :=
  repeat (apply NoDup_cons; [simpl; intuition discriminate|]);
  apply NoDup_nil.

(** ** [classify_statement], whatever the case mapping *)

Section WithLowerFacts.
Variable str_lower : string -> string.

Lemma collect_matches_with_filter text_lower keywords :
  collect_matches_with str_lower text_lower keywords
  = matching_with str_lower text_lower keywords.
Proof.
  unfold collect_matches_with, matching_with.
  assert (G : forall acc,
    fold_left
      (fun matches keyword =>
         if contains (str_lower keyword) text_lower
         then matches ++ [keyword] else matches)
      keywords acc
    = acc ++ filter (fun keyword => contains (str_lower keyword) text_lower)
                    keywords).
  { induction keywords as [|kw kws IH]; intros acc; simpl.
    - now rewrite app_nil_r.
    - rewrite IH. destruct (contains _ _); [|reflexivity].
      now rewrite <- app_assoc. }
  apply G.
Qed.

Lemma classify_with_skipped text dicts :
  classified text = false -> classify_statement_with str_lower text dicts = [].
Proof.
  unfold classified, classify_statement_with.
  destruct (isna text), (truthy text); simpl; congruence.
Qed.

Lemma classify_with_fold text dicts :
  classified text = true ->
  classify_statement_with str_lower text dicts =
  fold_left
    (fun results '(tactic, keywords) =>
       dict_set results tactic
         (match_result_with str_lower (str_lower (str text)) keywords))
    dicts [].
Proof.
  unfold classified, classify_statement_with.
  destruct (isna text), (truthy text); simpl; try discriminate.
  intros _. apply fold_left_agree.
  intros results [tactic keywords].
  unfold match_result_with. now rewrite collect_matches_with_filter.
Qed.

Lemma classify_with_map text dicts :
  NoDup (dict_keys dicts) ->
  classified text = true ->
  classify_statement_with str_lower text dicts =
  map (fun kv => (fst kv,
                  match_result_with str_lower (str_lower (str text))
                                    (snd kv)))
      dicts.
Proof.
  intros Hnd Hc.
  rewrite (classify_with_fold _ _ Hc).
  now rewrite (fold_dict_set
                 (match_result_with str_lower (str_lower (str text)))
                 dicts []).
Qed.

(** Every entry of the result comes from an entry of the dictionary. *)
Lemma classify_with_entry text dicts tactic r :
  In (tactic, r) (classify_statement_with str_lower text dicts) ->
  classified text = true /\
  exists keywords,
    In (tactic, keywords) dicts /\
    r = match_result_with str_lower (str_lower (str text)) keywords.
Proof.
  destruct (classified text) eqn:Hc.
  2:{ rewrite (classify_with_skipped _ _ Hc). intros []. }
  rewrite (classify_with_fold _ _ Hc).
  intros H; split; [reflexivity|].
  assert (G : forall acc,
    In (tactic, r)
       (fold_left
          (fun results '(tactic, keywords) =>
             dict_set results tactic
               (match_result_with str_lower (str_lower (str text))
                                  keywords)) dicts acc) ->
    In (tactic, r) acc \/
    exists keywords,
      In (tactic, keywords) dicts /\
      r = match_result_with str_lower (str_lower (str text)) keywords).
  { clear. induction dicts as [|[t kws] d IH]; simpl; intros acc Hin.
    - now left.
    - destruct (IH _ Hin) as [Hacc|(k & Hk & ->)].
      + apply dict_set_In in Hacc as [Hacc|[-> ->]]; [now left|].
        right; exists kws; split; [now left | reflexivity].
      + right; exists k; split; [now right | reflexivity]. }
  destruct (G [] H) as [[]|E]; exact E.
Qed.

Lemma get_matches_classify_with text dicts tactic :
  NoDup (dict_keys dicts) ->
  get_matches (classify_statement_with str_lower text dicts) tactic =
  match dict_get dicts tactic with
  | Some keywords =>
      if classified text
      then matching_with str_lower (str_lower (str text)) keywords
      else []
  | None => []
  end.
Proof.
  intros Hnd. unfold get_matches.
  destruct (classified text) eqn:Hc.
  - rewrite (classify_with_map _ _ Hnd Hc).
    assert (E : forall d : dictionaries,
      dict_get
        (map (fun kv => (fst kv,
                         match_result_with str_lower
                           (str_lower (str text)) (snd kv))) d) tactic
      = option_map (match_result_with str_lower (str_lower (str text)))
                   (dict_get d tactic)).
    { induction d as [|[k v] d IH]; simpl; [reflexivity|].
      destruct (String.eqb k tactic); [reflexivity | exact IH]. }
    rewrite E. now destruct (dict_get dicts tactic).
  - rewrite (classify_with_skipped _ _ Hc). simpl.
    now destruct (dict_get dicts tactic).
Qed.

Lemma get_count_matches_with text dicts tactic :
  get_count (classify_statement_with str_lower text dicts) tactic =
  len (get_matches (classify_statement_with str_lower text dicts) tactic).
Proof.
  unfold get_count, get_matches.
  destruct (dict_get (classify_statement_with str_lower text dicts) tactic)
    as [r|] eqn:E; [|reflexivity].
  apply dict_get_Some_In, classify_with_entry in E as (_ & kws & _ & ->).
  reflexivity.
Qed.

Lemma get_present_matches_with text dicts tactic :
  get_present (classify_statement_with str_lower text dicts) tactic =
  (0 <? len (get_matches (classify_statement_with str_lower text dicts)
                         tactic)).
Proof.
  unfold get_present, get_matches.
  destruct (dict_get (classify_statement_with str_lower text dicts) tactic)
    as [r|] eqn:E; [|reflexivity].
  apply dict_get_Some_In, classify_with_entry in E as (_ & kws & _ & ->).
  reflexivity.
Qed.

End WithLowerFacts.

(** With the ASCII case mapping the function is [classify_statement]. *)
Lemma classify_statement_with_lower (text : value) (dicts : dictionaries) :
  classify_statement_with lower text dicts = classify_statement text dicts.
Proof. reflexivity. Qed.

Lemma agrees_on_ascii_lower : agrees_on_ascii lower.
Proof. intros s _. reflexivity. Qed.

Ltac ascii_lower H := repeat rewrite H by reflexivity.

(** C1. A statement that is neither missing nor empty is lower-cased and,
    tactic by tactic in dictionary order, the keywords whose lower-cased
    form occurs in it are collected in dictionary order into [matches];
    [count] is their number and [present] says whether there is one;
    this whatever [str.lower] does to the text. Scenario 1: both
    keywords of [urgency_marketing] are found in
    ["Hurry! Limited time offer"], in dictionary order; a keyword that
    occurs three times in the text counts once. *)
Theorem classify_collects_matches :
  (forall (str_lower : string -> string) (text : value)
          (dicts : dictionaries),
      NoDup (dict_keys dicts) ->
      isna text = false ->
      truthy text = true ->
      classify_statement_with str_lower text dicts =
      map (fun kv =>
             let found :=
               filter (fun keyword =>
                         contains (str_lower keyword)
                                  (str_lower (str text)))
                      (snd kv) in
             (fst kv,
              {| present := 0 <? len found;
                 count := len found;
                 matches := found |}))
          dicts)
  /\ (forall str_lower : string -> string,
         agrees_on_ascii str_lower ->
         classify_statement_with str_lower
           (VStr "Hurry! Limited time offer")
           [("urgency_marketing", ["limited time"; "hurry"])]
         = [("urgency_marketing",
             {| present := true; count := 2;
                matches := ["limited time"; "hurry"] |})]
         /\ classify_statement_with str_lower
              (VStr "hurry, hurry, hurry")
              [("urgency_marketing", ["limited time"; "hurry"])]
            = [("urgency_marketing",
                {| present := true; count := 1; matches := ["hurry"] |})]).
Proof.
  assert (G : forall (str_lower : string -> string) (text : value)
                     (dicts : dictionaries),
      NoDup (dict_keys dicts) ->
      isna text = false ->
      truthy text = true ->
      classify_statement_with str_lower text dicts =
      map (fun kv =>
             let found :=
               filter (fun keyword =>
                         contains (str_lower keyword)
                                  (str_lower (str text)))
                      (snd kv) in
             (fst kv,
              {| present := 0 <? len found;
                 count := len found;
                 matches := found |}))
          dicts).
  { intros str_lower text dicts Hnd Hna Htr.
    apply classify_with_map; [assumption|].
    unfold classified. now rewrite Hna, Htr. }
  split; [exact G|].
  intros str_lower H. split.
  - rewrite G by (nodup || reflexivity). simpl.
    ascii_lower H. reflexivity.
  - rewrite G by (nodup || reflexivity). simpl.
    ascii_lower H. reflexivity.
Qed.

Lemma classify_collects_matches_witness :
  classify_statement_with lower (VStr "Act NOW, VIP!")
    [("urgency_marketing", ["hurry"; "act now"]);
     ("exclusive_marketing", ["vip"])]
  = [("urgency_marketing",
      {| present := true; count := 1; matches := ["act now"] |});
     ("exclusive_marketing",
      {| present := true; count := 1; matches := ["vip"] |})].
Proof.
  apply (proj1 classify_collects_matches lower (VStr "Act NOW, VIP!")
           [("urgency_marketing", ["hurry"; "act now"]);
            ("exclusive_marketing", ["vip"])]).
  - nodup.
  - reflexivity.
  - reflexivity.
Defined.

(** C2. In every result that [classify_statement] builds, and in every
    triple that [process_data] reads out of what it returned, [present]
    holds exactly when [count] is positive, exactly when [matches] is
    not empty. *)
Theorem match_result_consistent (text : value) (dicts : dictionaries) :
  (forall tactic r,
      In (tactic, r) (classify_statement text dicts) ->
      (present r = true <-> 0 < count r) /\
      (0 < count r <-> 0 < len (matches r)) /\
      (0 < len (matches r) <-> matches r <> []))
  /\ (forall tactic,
         let x := classify_statement text dicts in
         (get_present x tactic = true <-> 0 < get_count x tactic) /\
         (0 < get_count x tactic <-> 0 < len (get_matches x tactic)) /\
         (0 < len (get_matches x tactic) <-> get_matches x tactic <> [])).
Proof.
  assert (R : forall r, (exists t, In (t, r) (classify_statement text dicts)) ->
      (present r = true <-> 0 < count r) /\
      (0 < count r <-> 0 < len (matches r)) /\
      (0 < len (matches r) <-> matches r <> [])).
  { intros r [t Hin].
    apply classify_statement_entry in Hin as (_ & kws & _ & ->).
    unfold match_result; simpl.
    split; [apply Z.ltb_lt|]. split; [reflexivity|].
    unfold len; destruct (matching _ kws); simpl; split;
      intros; try lia; congruence. }
  split.
  - intros tactic r Hin. apply R. now exists tactic.
  - intros tactic x. unfold get_present, get_count, get_matches.
    destruct (dict_get x tactic) as [r|] eqn:E.
    + apply R. exists tactic. now apply dict_get_Some_In.
    + unfold len; simpl. repeat split; intros; try lia; congruence.
Qed.

Lemma match_result_consistent_witness :
  let r := {| present := true; count := 1; matches := ["hurry"] |} in
  (present r = true <-> 0 < count r) /\
  (0 < count r <-> 0 < len (matches r)) /\
  (0 < len (matches r) <-> matches r <> []).
Proof.
  apply (proj1 (match_result_consistent (VStr "Hurry up")
                  [("urgency_marketing", ["limited time"; "hurry"])])
               "urgency_marketing").
  simpl. left. reflexivity.
Defined.

(** C3. For a missing ([None], [NaN]) or empty statement,
    [classify_statement] returns (it is a total function: nothing is raised)
    the empty dictionary, whatever the keyword dictionary is, and
    [process_data] reads out of it, for every tactic of the dictionary,
    [present = False], [count = 0] and no match, written [""] in the
    [_matches] column. *)
Theorem missing_statement_all_false (text : value) (dicts : dictionaries) :
  text = VNone \/ text = VNaN \/ text = VStr "" ->
  classify_statement text dicts = [] /\
  forall tactic,
    In tactic (dict_keys dicts) ->
    get_present (classify_statement text dicts) tactic = false /\
    get_count (classify_statement text dicts) tactic = 0 /\
    get_matches (classify_statement text dicts) tactic = [] /\
    join ", " (get_matches (classify_statement text dicts) tactic) = "".
Proof.
  intros H.
  assert (E : classify_statement text dicts = []).
  { destruct H as [->|[->| ->]]; reflexivity. }
  rewrite E. split; [reflexivity|].
  intros tactic _. repeat split.
Qed.

Lemma missing_statement_all_false_witness :
  get_present (classify_statement VNaN [("urgency_marketing", ["hurry"])])
              "urgency_marketing" = false.
Proof.
  apply (proj2 (missing_statement_all_false VNaN
                  [("urgency_marketing", ["hurry"])]
                  (or_intror (or_introl eq_refl)))
               "urgency_marketing").
  simpl. left. reflexivity.
Defined.

(** C4, as the specification has it, fails on its scenario: ["vip"] does
    not occur in ["pavilion tour"] (the word has [v], [i], [l], not
    [v], [i], [p]), so nothing matches. *)
Lemma pavilion_has_no_vip :
  classify_statement (VStr "pavilion tour")
    [("exclusive_marketing", ["vip"])]
  = [("exclusive_marketing",
      {| present := false; count := 0; matches := [] |})]
  /\ classify_statement (VStr "pavilion tour")
       [("exclusive_marketing", ["vip"])]
     <> [("exclusive_marketing",
          {| present := true; count := 1; matches := ["vip"] |})].
Proof. split; [reflexivity | discriminate]. Qed.

(** C4, amended. Matching is substring containment, not word matching:
    whenever the lower-cased form of a keyword of a tactic is a
    substring of the lower-cased form of a statement that is not empty,
    wherever it starts and ends, the tactic is reported present and the
    keyword is among its matches; this whatever [str.lower] does to the
    text. ["vip"] is found inside ["viper tour"]; it is not found in
    ["pavilion tour"], which holds no such substring. *)
Theorem substring_match_reported :
  (forall (str_lower : string -> string) (s : string)
          (dicts : dictionaries) tactic keywords keyword
          (pre post : string),
      NoDup (dict_keys dicts) ->
      In (tactic, keywords) dicts ->
      In keyword keywords ->
      s <> "" ->
      str_lower s = (pre ++ str_lower keyword ++ post)%string ->
      exists r,
        dict_get (classify_statement_with str_lower (VStr s) dicts) tactic
        = Some r /\
        present r = true /\
        0 < count r /\
        In keyword (matches r))
  /\ (forall str_lower : string -> string,
         agrees_on_ascii str_lower ->
         classify_statement_with str_lower (VStr "viper tour")
           [("exclusive_marketing", ["vip"])]
         = [("exclusive_marketing",
             {| present := true; count := 1; matches := ["vip"] |})]
         /\ classify_statement_with str_lower (VStr "pavilion tour")
              [("exclusive_marketing", ["vip"])]
            = [("exclusive_marketing",
                {| present := false; count := 0; matches := [] |})]).
Proof.
  split.
  - intros str_lower s dicts tactic keywords keyword pre post
           Hnd Ht Hk Hne Hsub.
    assert (Hc : contains (str_lower keyword) (str_lower s) = true).
    { apply contains_iff. now exists pre, post. }
    assert (Hs : classified (VStr s) = true).
    { unfold classified; simpl. now destruct (String.eqb_spec s ""). }
    exists (match_result_with str_lower (str_lower s) keywords).
    assert (Hin : In keyword (matching_with str_lower (str_lower s)
                                            keywords)).
    { apply filter_In. now split. }
    assert (Hpos : 0 < len (matching_with str_lower (str_lower s)
                                          keywords)).
    { unfold len. destruct (matching_with str_lower (str_lower s) keywords);
        [destruct Hin | simpl; lia]. }
    split; [|split; [|split]]; simpl; try assumption.
    + apply dict_get_In.
      * rewrite (classify_with_map _ _ _ Hnd Hs).
        unfold dict_keys in *. rewrite map_map. exact Hnd.
      * rewrite (classify_with_map _ _ _ Hnd Hs).
        apply (in_map (fun kv =>
                         (fst kv,
                          match_result_with str_lower
                            (str_lower (str (VStr s))) (snd kv)))) in Ht.
        exact Ht.
    + now apply Z.ltb_lt.
  - intros str_lower H. split.
    + rewrite classify_with_map by (nodup || reflexivity).
      unfold match_result_with, matching_with. simpl.
      ascii_lower H. reflexivity.
    + rewrite classify_with_map by (nodup || reflexivity).
      unfold match_result_with, matching_with. simpl.
      ascii_lower H. reflexivity.
Qed.

Lemma substring_match_reported_witness :
  exists r,
    dict_get (classify_statement_with lower (VStr "Our VIPs only")
                [("exclusive_marketing", ["members only"; "vip"])])
             "exclusive_marketing" = Some r /\
    present r = true /\ 0 < count r /\ In "vip" (matches r).
Proof.
  apply (proj1 substring_match_reported lower "Our VIPs only"
           [("exclusive_marketing", ["members only"; "vip"])]
           "exclusive_marketing" ["members only"; "vip"] "vip"
           "our " "s only").
  - nodup.
  - simpl. left. reflexivity.
  - simpl. right. left. reflexivity.
  - discriminate.
  - reflexivity.
Defined.

(** C10. A keyword is reported as the dictionary spells it: each member
    of [matches] is an entry of the tactic's keyword list, while the test
    that admitted it compared its lower-cased form with the lower-cased
    statement; this whatever [str.lower] does to the text. The entry
    ["VIP"] comes back as ["VIP"]. *)
Theorem matches_keep_spelling :
  (forall (str_lower : string -> string) (text : value)
          (dicts : dictionaries) tactic r keyword,
      In (tactic, r) (classify_statement_with str_lower text dicts) ->
      In keyword (matches r) ->
      exists keywords,
        In (tactic, keywords) dicts /\
        In keyword keywords /\
        contains (str_lower keyword) (str_lower (str text)) = true)
  /\ (forall str_lower : string -> string,
         agrees_on_ascii str_lower ->
         classify_statement_with str_lower (VStr "vip lounge access")
           [("exclusive_marketing", ["VIP"; "Members Only"])]
         = [("exclusive_marketing",
             {| present := true; count := 1; matches := ["VIP"] |})]).
Proof.
  split.
  - intros str_lower text dicts tactic r keyword Hin Hk.
    apply classify_with_entry in Hin as (_ & kws & Hd & ->).
    simpl in Hk. apply filter_In in Hk as [Hk Hc].
    exists kws. now repeat split.
  - intros str_lower H.
    rewrite classify_with_map by (nodup || reflexivity).
    unfold match_result_with, matching_with. simpl.
    ascii_lower H. reflexivity.
Qed.

Lemma matches_keep_spelling_witness :
  exists keywords,
    In ("exclusive_marketing", keywords)
       [("exclusive_marketing", ["VIP"; "Members Only"])] /\
    In "Members Only" keywords /\
    contains (lower "Members Only") (lower "for members only") = true.
Proof.
  apply (proj1 matches_keep_spelling lower (VStr "for members only")
           [("exclusive_marketing", ["VIP"; "Members Only"])]
           "exclusive_marketing"
           {| present := true; count := 1; matches := ["Members Only"] |}).
  - simpl. left. reflexivity.
  - simpl. left. reflexivity.
Defined.

(** ** Resolution of the statement column *)

Lemma find_first {A} (p : A -> bool) (before after : list A) (a : A) :
  Forall (fun x => p x = false) before -> p a = true ->
  find p (before ++ a :: after) = Some a.
Proof.
  induction 1 as [|x l Hx _ IH]; simpl; intros Ha.
  - now rewrite Ha.
  - rewrite Hx. now apply IH.
Qed.

Lemma find_none {A} (p : A -> bool) (l : list A) :
  Forall (fun x => p x = false) l -> find p l = None.
Proof. induction 1 as [|x l Hx _ IH]; simpl; [|rewrite Hx]; auto. Qed.

Lemma find_statement_col_default (columns : list string) :
  find names_statement columns = None ->
  find_statement_col columns =
  match columns with
  | _ :: second :: _ => Ok second
  | [only] => Ok only
  | [] => Raise IndexError
  end.
Proof.
  unfold find_statement_col; intros ->.
  destruct columns as [|a [|b l]]; try reflexivity.
  unfold len.
  replace (1 <? Z.of_nat (length (a :: b :: l))) with true; [reflexivity|].
  symmetry; apply Z.ltb_lt. simpl length. lia.
Qed.

Lemma process_data_reports (df : Frame value) (dicts : dictionaries)
  (out : Frame cell) (col : string) :
  process_data df dicts = Ok (out, col) ->
  find_statement_col (columns df) = Ok col.
Proof.
  unfold process_data.
  destruct (find_statement_col (columns df)) as [c|e]; simpl;
    [|discriminate].
  destruct (df_get df c); simpl; [|discriminate].
  destruct (for_each _ _ _); simpl; [|discriminate].
  now intros [= _ ->].
Qed.

(** C5, as the specification has it, fails: in a file whose columns are
    [context] and [Statement] the chain of the specification takes the
    exactly named column, [process_data] takes [context], the first
    name that contains ["text"]; and where no name fits,
    [_detect_statement_column] has no positional default. *)
Lemma exact_name_has_no_priority :
  Spec.resolve_statement_field ["context"; "Statement"] = Ok "Statement"
  /\ find_statement_col ["context"; "Statement"] = Ok "context"
  /\ (exists out,
         process_data
           (mkFrame 1 [("context", [VStr "web"]);
                       ("Statement", [VStr "Hurry"])])
           [("urgency_marketing", ["hurry"])]
         = Ok (out, "context"))
  /\ Spec.resolve_statement_field ["id"; "body"] = Ok "body"
  /\ Codex._detect_statement_column ["id"; "body"] = None.
Proof.
  repeat split; try reflexivity.
  eexists; reflexivity.
Qed.

(** C5, amended. [process_data] resolves the statement column in one
    deterministic way and returns the name it resolved: the first column
    whose lower-cased name contains ["statement"] or ["text"]; when no
    name does, the second column, or the first when there is only one
    (a frame without columns raises [IndexError]). A column named
    exactly ["statement"] has no priority of its own: the outcome is
    that of the chain of the specification whenever no column is so
    named, or the column so named is the first to contain either word.
    [_detect_statement_column] is the exact, case-insensitive step
    alone: the first column so named, or [None]. *)
Theorem statement_column_resolution :
  (forall before col after,
      Forall (fun c => names_statement c = false) before ->
      names_statement col = true ->
      find_statement_col (before ++ col :: after) = Ok col)
  /\ (forall columns,
         Forall (fun c => names_statement c = false) columns ->
         find_statement_col columns =
         match columns with
         | _ :: second :: _ => Ok second
         | [only] => Ok only
         | [] => Raise IndexError
         end)
  /\ (forall df dicts out col,
         process_data df dicts = Ok (out, col) ->
         find_statement_col (columns df) = Ok col)
  /\ (forall columns,
         let exact := find (fun c => String.eqb (lower c) "statement")
                           columns in
         exact = None \/ exact = find names_statement columns ->
         find_statement_col columns = Spec.resolve_statement_field columns)
  /\ (forall before col after,
         Forall (fun c => lower c <> "statement") before ->
         lower col = "statement" ->
         Codex._detect_statement_column (before ++ col :: after) = Some col)
  /\ (forall columns,
         Forall (fun c => lower c <> "statement") columns ->
         Codex._detect_statement_column columns = None).
Proof.
  repeat apply conj.
  - intros before col after Hb Hc.
    unfold find_statement_col. now rewrite (find_first _ _ _ _ Hb Hc).
  - intros columns H. apply find_statement_col_default.
    now apply find_none.
  - exact process_data_reports.
  - intros columns exact [E|E]; unfold Spec.resolve_statement_field;
      fold exact; rewrite E.
    + destruct (find names_statement columns) eqn:F.
      * unfold find_statement_col. now rewrite F.
      * now apply find_statement_col_default.
    + destruct (find names_statement columns) eqn:F.
      * unfold find_statement_col. now rewrite F.
      * now apply find_statement_col_default.
  - intros before col after Hb Hc.
    apply find_first.
    + eapply Forall_impl; [|exact Hb].
      intros c Hne; simpl in Hne. now apply String.eqb_neq.
    + now apply String.eqb_eq.
  - intros columns H. apply find_none.
    eapply Forall_impl; [|exact H].
    intros c Hne; simpl in Hne. now apply String.eqb_neq.
Qed.

Lemma statement_column_resolution_witness :
  find_statement_col (["id"] ++ "Ad Text" :: ["Statement"]) = Ok "Ad Text"
  /\ find_statement_col ["id"; "body"; "date"] = Ok "body"
  /\ find_statement_col ["id"; "STATEMENT"; "notes"]
     = Spec.resolve_statement_field ["id"; "STATEMENT"; "notes"]
  /\ Codex._detect_statement_column (["id"] ++ "STATEMENT" :: ["notes"])
     = Some "STATEMENT".
Proof.
  destruct statement_column_resolution as (H1 & H2 & _ & H4 & H5 & _).
  repeat apply conj.
  - apply H1; [repeat constructor | reflexivity].
  - apply (H2 ["id"; "body"; "date"]). repeat constructor.
  - apply H4. right. reflexivity.
  - apply H5; [repeat constructor; discriminate | reflexivity].
Defined.

(** ** Column names *)

Lemma chars_app (a b : string) :
  list_ascii_of_string (a ++ b) =
  list_ascii_of_string a ++ list_ascii_of_string b.
Proof. induction a; simpl; congruence. Qed.

Lemma chars_inj (a b : string) :
  list_ascii_of_string a = list_ascii_of_string b -> a = b.
Proof.
  intros H. rewrite <- (string_of_list_ascii_of_string a),
              <- (string_of_list_ascii_of_string b). now rewrite H.
Qed.

(** The characters of [t ++ suffix], last first. *)
Lemma rev_chars_app (t suffix : string) :
  rev (list_ascii_of_string (t ++ suffix)) =
  rev (list_ascii_of_string suffix) ++ rev (list_ascii_of_string t).
Proof. now rewrite chars_app, rev_app_distr. Qed.

Lemma append_suffix_inj (t t' suffix : string) :
  (t ++ suffix = t' ++ suffix)%string -> t = t'.
Proof.
  intros H. apply (f_equal (fun s => rev (list_ascii_of_string s))) in H.
  rewrite !rev_chars_app in H. apply app_inv_head in H.
  apply chars_inj. rewrite <- (rev_involutive (list_ascii_of_string t)),
                     <- (rev_involutive (list_ascii_of_string t')).
  now rewrite H.
Qed.

(** Two names that end differently are different names. *)
Ltac suffix_clash H :=
  apply (f_equal (fun s => rev (list_ascii_of_string s))) in H;
  repeat rewrite rev_chars_app in H; simpl in H; discriminate H.

Lemma present_is_not_count (t t' : string) :
  (t ++ "_present" <> t' ++ "_count")%string.
Proof. intros H; suffix_clash H. Qed.

Lemma present_is_not_matches (t t' : string) :
  (t ++ "_present" <> t' ++ "_matches")%string.
Proof. intros H; suffix_clash H. Qed.

Lemma count_is_not_matches (t t' : string) :
  (t ++ "_count" <> t' ++ "_matches")%string.
Proof. intros H; suffix_clash H. Qed.

Lemma derived_is_not_classification (t n : string) :
  In n (derived_names t) -> n <> "classification".
Proof.
  intros [<-|[<-|[<-|[]]]] H;
    change "classification" with ("" ++ "classification")%string in H;
    suffix_clash H.
Qed.

(** The derived names of two tactics meet only when the tactics are the
    same. *)
Lemma derived_names_disjoint (t t' n : string) :
  In n (derived_names t) -> In n (derived_names t') -> t = t'.
Proof.
  intros [<-|[<-|[<-|[]]]] [H|[H|[H|[]]]];
    try (now apply append_suffix_inj in H);
    exfalso;
    first [ now apply present_is_not_count in H
          | now apply present_is_not_matches in H
          | now apply count_is_not_matches in H
          | symmetry in H; now apply present_is_not_count in H
          | symmetry in H; now apply present_is_not_matches in H
          | symmetry in H; now apply count_is_not_matches in H ].
Qed.

Lemma derived_names_NoDup (t : string) : NoDup (derived_names t).
Proof.
  unfold derived_names.
  repeat apply NoDup_cons; try apply NoDup_nil; simpl;
    intros H; repeat destruct H as [H|H]; try contradiction; symmetry in H.
  - now apply present_is_not_count in H.
  - now apply present_is_not_matches in H.
  - now apply count_is_not_matches in H.
Qed.

Lemma all_derived_names_NoDup (tactics : list string) :
  NoDup tactics -> NoDup (flat_map derived_names tactics).
Proof.
  induction 1 as [|t l Ht _ IH]; [apply NoDup_nil|].
  change (flat_map derived_names (t :: l))
    with (derived_names t ++ flat_map derived_names l).
  apply NoDup_app; [apply derived_names_NoDup | exact IH |].
  intros n Hn Hl. apply in_flat_map in Hl as (t' & Ht' & Hn').
  rewrite (derived_names_disjoint _ _ _ Hn Hn') in Ht. contradiction.
Qed.

(** ** [process_data] *)

Lemma map_result_results (f : results -> value) (xs : list results) :
  map_result
    (fun c => match c with
              | CResults x => Ok (CVal (f x))
              | CVal _ => Raise AttributeError
              end)
    (map CResults xs)
  = Ok (map (fun x => CVal (f x)) xs).
Proof. induction xs as [|x xs IH]; simpl; [|rewrite IH]; reflexivity. Qed.

Lemma apply_classification_ok df xs (f : results -> value) :
  classification_is df xs ->
  apply_classification df f = Ok (map (fun x => CVal (f x)) xs).
Proof.
  unfold classification_is, apply_classification, df_get.
  intros ->; simpl. apply map_result_results.
Qed.

Lemma classification_is_set df xs name series :
  name <> "classification" ->
  classification_is df xs ->
  classification_is (df_set df name series) xs.
Proof.
  unfold classification_is; simpl; intros Hne H.
  rewrite dict_get_set_other; [exact H | congruence].
Qed.

Lemma extract_tactic_ok df xs tactic :
  classification_is df xs ->
  extract_tactic df tactic = Ok (set_columns df (derived_columns xs tactic))
  /\ classification_is (set_columns df (derived_columns xs tactic)) xs.
Proof.
  intros H.
  assert (H1 := classification_is_set df xs (tactic ++ "_present")
                  (map (fun x => CVal (VBool (get_present x tactic))) xs)
                  (derived_is_not_classification tactic _
                     (or_introl eq_refl)) H).
  assert (H2 := classification_is_set _ xs (tactic ++ "_count")
                  (map (fun x => CVal (VInt (get_count x tactic))) xs)
                  (derived_is_not_classification tactic _
                     (or_intror (or_introl eq_refl))) H1).
  assert (H3 := classification_is_set _ xs (tactic ++ "_matches")
                  (map (fun x => CVal (VStr (join ", "
                                               (get_matches x tactic)))) xs)
                  (derived_is_not_classification tactic _
                     (or_intror (or_intror (or_introl eq_refl)))) H2).
  split; [|exact H3].
  unfold extract_tactic.
  rewrite (apply_classification_ok _ _ _ H); simpl.
  rewrite (apply_classification_ok _ _ _ H1); simpl.
  rewrite (apply_classification_ok _ _ _ H2); simpl.
  reflexivity.
Qed.

Lemma for_each_extract_ok tactics : forall df xs,
  classification_is df xs ->
  for_each extract_tactic tactics df
  = Ok (set_columns df (flat_map (derived_columns xs) tactics)).
Proof.
  induction tactics as [|t ts IH]; intros df xs H; [reflexivity|].
  destruct (extract_tactic_ok df xs t H) as [E H'].
  change (for_each extract_tactic (t :: ts) df)
    with (bind (extract_tactic df t) (for_each extract_tactic ts)).
  rewrite E; unfold bind. rewrite (IH _ _ H').
  change (flat_map (derived_columns xs) (t :: ts))
    with (derived_columns xs t ++ flat_map (derived_columns xs) ts).
  unfold set_columns. now rewrite fold_left_app.
Qed.

(** What [process_data] returns once the statement column is known: the
    cells of the file, the [classification] column, and the derived
    columns assigned tactic by tactic. *)
Lemma process_data_ok (df : Frame value) (dicts : dictionaries)
  (col : string) (statements : list value) :
  find_statement_col (columns df) = Ok col ->
  df_get df col = Ok statements ->
  let xs := map (fun v => classify_statement v dicts) statements in
  process_data df dicts =
  Ok (set_columns
        (df_set (frame_of_input df) "classification" (map CResults xs))
        (flat_map (derived_columns xs) (dict_keys dicts)),
      col).
Proof.
  intros Hc Hs xs. unfold process_data.
  rewrite Hc; unfold bind at 1. rewrite Hs; unfold bind at 1.
  replace (map (fun x => CResults (classify_statement x dicts)) statements)
    with (map CResults xs) by (unfold xs; now rewrite map_map).
  rewrite (for_each_extract_ok _ _ xs); [reflexivity|].
  unfold classification_is; simpl. apply dict_get_set_same.
Qed.

Lemma find_some_In {A} (p : A -> bool) (l : list A) (a : A) :
  find p l = Some a -> In a l.
Proof. intros H; now apply find_some in H. Qed.

Lemma find_statement_col_In (columns : list string) (col : string) :
  find_statement_col columns = Ok col -> In col columns.
Proof.
  unfold find_statement_col.
  destruct (find names_statement columns) eqn:F.
  - intros [= <-]. now apply find_some_In in F.
  - unfold index.
    destruct (1 <? len columns);
      [destruct (nth_error columns 1) eqn:E
      |destruct (nth_error columns 0) eqn:E];
      intros [= <-]; now apply nth_error_In in E.
Qed.

Lemma find_statement_col_total (columns : list string) :
  columns <> [] -> exists col, find_statement_col columns = Ok col.
Proof.
  intros Hne. destruct (find names_statement columns) eqn:F.
  - unfold find_statement_col; rewrite F; eauto.
  - rewrite (find_statement_col_default _ F).
    destruct columns as [|a [|b l]]; [contradiction | eauto | eauto].
Qed.

Lemma df_get_In {C} (df : Frame C) (name : string) :
  In name (columns df) -> exists series, df_get df name = Ok series.
Proof.
  unfold df_get, columns. intros H.
  destruct (dict_get (cols df) name) eqn:E; [eauto|].
  exfalso. revert H E. generalize (cols df).
  induction d as [|[k v] d IH]; simpl; [tauto|].
  destruct (String.eqb_spec k name); [discriminate|].
  intros [?|?]; [contradiction | now apply IH].
Qed.

(** [process_data] fails on a frame without columns, and on no other. *)
Lemma process_data_total (df : Frame value) (dicts : dictionaries) :
  columns df <> [] ->
  exists out col, process_data df dicts = Ok (out, col)
                  /\ In col (columns df).
Proof.
  intros Hne.
  destruct (find_statement_col_total _ Hne) as [col Hc].
  assert (Hin := find_statement_col_In _ _ Hc).
  destruct (df_get_In df col Hin) as [statements Hs].
  eexists _, col. split; [|exact Hin].
  exact (process_data_ok df dicts col statements Hc Hs).
Qed.

(** Assigning columns under names that are new and pairwise distinct
    appends them, in order. *)
Lemma set_columns_fresh (cs : dict (list cell)) : forall df,
  NoDup (columns df ++ dict_keys cs) ->
  set_columns df cs = mkFrame (nrows df) (cols df ++ cs).
Proof.
  induction cs as [|[n s] cs IH]; intros [k d] Hnd; simpl in *.
  - now rewrite app_nil_r.
  - unfold set_columns in *; simpl. unfold df_set at 2; simpl.
    rewrite IH; simpl.
    + rewrite dict_set_fresh; [now rewrite <- app_assoc|].
      apply NoDup_remove_2 in Hnd.
      intros Hin; apply Hnd, in_or_app; now left.
    + unfold columns in *; simpl in *.
      rewrite dict_set_fresh.
      * rewrite dict_keys_app; simpl. now rewrite <- app_assoc.
      * apply NoDup_remove_2 in Hnd.
        intros Hin; apply Hnd, in_or_app; now left.
Qed.

Lemma derived_columns_keys xs tactics :
  dict_keys (flat_map (derived_columns xs) tactics) =
  flat_map derived_names tactics.
Proof.
  induction tactics as [|t ts IH]; [reflexivity|].
  change (flat_map (derived_columns xs) (t :: ts))
    with (derived_columns xs t ++ flat_map (derived_columns xs) ts).
  rewrite dict_keys_app, IH. reflexivity.
Qed.

Lemma frame_of_input_columns (df : Frame value) :
  columns (frame_of_input df) = columns df.
Proof.
  unfold columns, frame_of_input, dict_keys; simpl.
  rewrite map_map; reflexivity.
Qed.

Lemma filter_all {A} (p : A -> bool) (l : list A) :
  Forall (fun a => p a = true) l -> filter p l = l.
Proof. induction 1 as [|a l Ha _ IH]; simpl; [|rewrite Ha, IH]; auto. Qed.

Lemma filter_keys {V} (p : string -> bool) (d : dict V) :
  filter p (dict_keys d) = dict_keys (filter (fun c => p (fst c)) d).
Proof.
  induction d as [|[k v] d IH]; simpl; [reflexivity|].
  destruct (p k); simpl; now rewrite IH.
Qed.

(** Selecting, by name, entries of a frame whose names are distinct gives
    those entries back. *)
Lemma df_select_entries {C} (df : Frame C) (l : dict (list C)) :
  NoDup (columns df) ->
  Forall (fun c => In c (cols df)) l ->
  df_select df (dict_keys l) = Ok (mkFrame (nrows df) l).
Proof.
  intros Hnd Hl. unfold df_select.
  assert (E : map_result (fun n => s <- df_get df n ;; Ok (n, s))
                         (dict_keys l) = Ok l).
  { induction Hl as [|[n s] l Hc _ IH]; simpl; [reflexivity|].
    unfold df_get at 1. rewrite (dict_get_In _ _ _ Hnd Hc); simpl.
    now rewrite IH. }
  now rewrite E.
Qed.

Lemma is_shown_iff (col : string) :
  is_shown col = true <-> col <> "classification".
Proof.
  unfold is_shown; simpl. rewrite orb_false_r.
  destruct (String.eqb_spec col "classification"); simpl;
    split; congruence.
Qed.

Lemma output_names_NoDup (df : Frame value) (dicts : dictionaries) :
  NoDup (dict_keys dicts) ->
  no_name_clash df dicts ->
  NoDup ((columns df ++ ["classification"])
         ++ flat_map derived_names (dict_keys dicts)).
Proof.
  intros Hd (Hc & Hcl & Hfresh).
  apply NoDup_app.
  - apply NoDup_app; [exact Hc | nodup |].
    intros a Ha [<-|[]]. contradiction.
  - now apply all_derived_names_NoDup.
  - intros a Ha Hder. apply in_flat_map in Hder as (t & Ht & Hn).
    apply in_app_or in Ha as [Ha|[<-|[]]].
    + exact (Hfresh t a Ht Hn Ha).
    + now apply (derived_is_not_classification t "classification" Hn).
Qed.

Lemma process_data_fresh (df : Frame value) (dicts : dictionaries)
  (col : string) (statements : list value) :
  NoDup (dict_keys dicts) ->
  no_name_clash df dicts ->
  find_statement_col (columns df) = Ok col ->
  df_get df col = Ok statements ->
  let xs := map (fun v => classify_statement v dicts) statements in
  process_data df dicts =
  Ok (mkFrame (nrows df)
        (cols (frame_of_input df)
         ++ ("classification", map CResults xs)
         :: flat_map (derived_columns xs) (dict_keys dicts)),
      col).
Proof.
  intros Hd Hclash Hc Hs xs.
  rewrite (process_data_ok df dicts col statements Hc Hs). fold xs.
  assert (Hnd := output_names_NoDup df dicts Hd Hclash).
  assert (Hset : dict_set (cols (frame_of_input df)) "classification"
                   (map CResults xs)
                 = cols (frame_of_input df)
                   ++ [("classification", map CResults xs)]).
  { apply dict_set_fresh.
    change (dict_keys (cols (frame_of_input df)))
      with (columns (frame_of_input df)).
    rewrite frame_of_input_columns. apply Hclash. }
  rewrite set_columns_fresh.
  - unfold df_set; cbn [cols nrows]. rewrite Hset, <- app_assoc.
    reflexivity.
  - unfold columns at 1, df_set; cbn [cols nrows].
    rewrite Hset, dict_keys_app.
    change (dict_keys (cols (frame_of_input df)))
      with (columns (frame_of_input df)).
    rewrite frame_of_input_columns, derived_columns_keys. exact Hnd.
Qed.

Lemma shown_entries (input derived : dict (list cell)) (series : list cell) :
  ~ In "classification" (dict_keys input) ->
  (forall n, In n (dict_keys derived) -> n <> "classification") ->
  filter (fun c => is_shown (fst c))
         (input ++ ("classification", series) :: derived)
  = input ++ derived.
Proof.
  intros Hi Hd. rewrite filter_app. simpl.
  rewrite !filter_all; [reflexivity | |].
  - apply Forall_forall. intros [n s] Hin. apply is_shown_iff.
    apply Hd. now apply (in_map fst) in Hin.
  - apply Forall_forall. intros [n s] Hin. apply is_shown_iff.
    intros E; simpl in E; subst n. apply Hi.
    now apply (in_map fst) in Hin.
Qed.

(** C9, as the specification has it, fails: [process_data] also adds a
    column named [classification], which holds the dictionaries returned
    for the rows; and an input column that bears one of the names it
    writes is overwritten. *)
Lemma classification_column_is_added :
  (exists out,
      process_data (mkFrame 1 [("Statement", [VStr "Hurry"])])
                   [("u", ["hurry"])]
      = Ok (out, "Statement")
      /\ columns out
         = ["Statement"; "classification"; "u_present"; "u_count";
            "u_matches"]
      /\ columns out
         <> Spec.output_columns ["Statement"] [("u", ["hurry"])])
  /\ (exists out,
         process_data (mkFrame 1 [("Statement", [VStr "Hurry"]);
                                  ("u_count", [VStr "seven"])])
                      [("u", ["hurry"])]
         = Ok (out, "Statement")
         /\ df_get out "u_count" = Ok [CVal (VInt 1)]).
Proof.
  split; eexists; repeat split; try reflexivity.
  simpl. discriminate.
Qed.

(** C9, amended. When the names of the input columns are distinct and
    none of them is [classification] or one of the derived names, the
    frame that [process_data] returns keeps the input columns, in order
    and with their cells unchanged, then holds the [classification]
    column, then, tactic by tactic in dictionary order, the columns
    [_present], [_count] and [_matches] of the tactic and no other
    column. The frame that the results tab shows and exports leaves
    [classification] out: it has the input columns and exactly the three
    derived columns of each tactic. *)
Theorem process_data_output_columns
  (df : Frame value) (dicts : dictionaries) (out : Frame cell)
  (col : string) :
  NoDup (dict_keys dicts) ->
  no_name_clash df dicts ->
  process_data df dicts = Ok (out, col) ->
  exists statements,
    df_get df col = Ok statements /\
    let xs := map (fun v => classify_statement v dicts) statements in
    cols out
    = cols (frame_of_input df)
      ++ ("classification", map CResults xs)
      :: flat_map (derived_columns xs) (dict_keys dicts)
    /\ nrows out = nrows df
    /\ columns out
       = columns df
         ++ "classification" :: flat_map derived_names (dict_keys dicts)
    /\ (forall name series,
           In (name, series) (cols df) ->
           df_get out name = Ok (map CVal series))
    /\ display_cols out = Spec.output_columns (columns df) dicts
    /\ exported out
       = Ok (mkFrame (nrows df)
               (cols (frame_of_input df)
                ++ flat_map (derived_columns xs) (dict_keys dicts))).
Proof.
  intros Hd Hclash Hp.
  assert (Hc := process_data_reports _ _ _ _ Hp).
  destruct (df_get_In df col (find_statement_col_In _ _ Hc))
    as [statements Hs].
  exists statements. split; [exact Hs|]. intros xs.
  rewrite (process_data_fresh df dicts col statements Hd Hclash Hc Hs)
    in Hp.
  fold xs in Hp.
  assert (Hout : out = mkFrame (nrows df)
                         (cols (frame_of_input df)
                          ++ ("classification", map CResults xs)
                          :: flat_map (derived_columns xs)
                               (dict_keys dicts)))
    by congruence.
  clear Hp; subst out.
  assert (Hnames :
    columns (mkFrame (nrows df)
               (cols (frame_of_input df)
                ++ ("classification", map CResults xs)
                :: flat_map (derived_columns xs) (dict_keys dicts)))
    = columns df
      ++ "classification" :: flat_map derived_names (dict_keys dicts)).
  { unfold columns at 1; cbn [cols]. rewrite dict_keys_app.
    change (dict_keys (cols (frame_of_input df)))
      with (columns (frame_of_input df)).
    rewrite frame_of_input_columns. simpl.
    now rewrite derived_columns_keys. }
  assert (Hnd := output_names_NoDup df dicts Hd Hclash).
  rewrite <- app_assoc in Hnd; simpl in Hnd. rewrite <- Hnames in Hnd.
  unfold columns in Hnd; cbn [cols] in Hnd.
  assert (Hshown :
    filter (fun c => is_shown (fst c))
      (cols (frame_of_input df)
       ++ ("classification", map CResults xs)
       :: flat_map (derived_columns xs) (dict_keys dicts))
    = cols (frame_of_input df)
      ++ flat_map (derived_columns xs) (dict_keys dicts)).
  { apply shown_entries.
    - change (dict_keys (cols (frame_of_input df)))
        with (columns (frame_of_input df)).
      rewrite frame_of_input_columns. apply Hclash.
    - intros n Hn. rewrite derived_columns_keys in Hn.
      apply in_flat_map in Hn as (t & _ & Hn).
      exact (derived_is_not_classification t n Hn). }
  split; [reflexivity|]. split; [reflexivity|]. split; [exact Hnames|].
  split; [|split].
  - intros name series Hin.
    assert (E := dict_get_In _ name (map CVal series) Hnd).
    unfold df_get; cbn [cols]. rewrite E; [reflexivity|].
    apply in_or_app; left. unfold frame_of_input; simpl.
    apply (in_map (fun c => (fst c, map CVal (snd c)))) in Hin.
    exact Hin.
  - unfold display_cols, columns; cbn [cols].
    rewrite filter_keys, Hshown, dict_keys_app, derived_columns_keys.
    change (dict_keys (cols (frame_of_input df)))
      with (columns (frame_of_input df)).
    now rewrite frame_of_input_columns.
  - unfold exported, display_cols, columns at 1; cbn [cols].
    rewrite filter_keys, Hshown.
    rewrite df_select_entries; [reflexivity | exact Hnd |].
    apply Forall_forall. intros c Hin; cbn [cols].
    apply in_app_or in Hin as [Hin|Hin]; apply in_or_app;
      [now left | right; now right].
Qed.

Lemma process_data_output_columns_witness :
  exists out,
    process_data
      (mkFrame 2 [("id", [VInt 1; VInt 2]);
                  ("Statement", [VStr "Hurry! VIP"; VNaN])])
      [("u", ["hurry"]); ("e", ["vip"])]
    = Ok (out, "Statement")
    /\ columns out
       = ["id"; "Statement"; "classification";
          "u_present"; "u_count"; "u_matches";
          "e_present"; "e_count"; "e_matches"]
    /\ display_cols out
       = ["id"; "Statement";
          "u_present"; "u_count"; "u_matches";
          "e_present"; "e_count"; "e_matches"].
Proof.
  eexists. split; [reflexivity|].
  assert (Hd : NoDup (dict_keys (V := list string)
                        [("u", ["hurry"]); ("e", ["vip"])])) by nodup.
  assert (Hclash :
    no_name_clash
      (mkFrame 2 [("id", [VInt 1; VInt 2]);
                  ("Statement", [VStr "Hurry! VIP"; VNaN])])
      [("u", ["hurry"]); ("e", ["vip"])]).
  { split; [nodup|]. split; [simpl; intuition discriminate|].
    intros tactic name [<-|[<-|[]]] [<-|[<-|[<-|[]]]];
      simpl; intuition discriminate. }
  destruct (process_data_output_columns _ _ _ _ Hd Hclash eq_refl)
    as (statements & _ & _ & _ & Hnames & _ & Hshown & _).
  split; [exact Hnames | exact Hshown].
Defined.

(** ** The tactic breakdown *)

Lemma series_sum_flags (flags : list bool) :
  series_sum (flag_cells flags) = Ok (present_count flags).
Proof.
  unfold series_sum, present_count, len.
  assert (G : forall acc,
    for_each (fun acc c => n <- cell_number c ;; Ok (acc + n))
             (flag_cells flags) acc
    = Ok (acc + Z.of_nat (length (filter (fun b => b) flags)))).
  { induction flags as [|b l IH]; intros acc; simpl.
    - now rewrite Z.add_0_r.
    - rewrite IH. destruct b; simpl length; f_equal; lia. }
  now rewrite G.
Qed.


(** Scenario 3: one row in four is flagged, which makes 25 percent. *)
Example one_row_in_four :
  exists q,
    percentage (mkFrame 4 [("urgency_marketing_present",
                            flag_cells [false; true; false; false])])
               "urgency_marketing" = Ok q
    /\ (q == 25)%Q.
Proof. eexists; split; reflexivity. Qed.

(** C6. Where the frame has no row the results tab divides by
    [len(df) = 0]: the percentage is not 0, the division raises. That is
    so for every frame without rows in which the flag column of the
    tactic is found, and for the frame that [process_data] returns for a
    file that has a header and no row, under the default dictionaries. *)
Theorem percentage_of_empty_dataset :
  (forall (df : Frame cell) (tactic : string),
      nrows df = 0%nat ->
      df_get df (tactic ++ "_present") = Ok [] ->
      percentage df tactic = Raise ZeroDivisionError)
  /\ (exists out,
         process_data (mkFrame 0 [("Statement", [])]) default_dictionaries
         = Ok (out, "Statement")
         /\ nrows out = 0%nat
         /\ forall tactic,
              In tactic (dict_keys default_dictionaries) ->
              percentage out tactic = Raise ZeroDivisionError
              /\ percentage out tactic <> Ok 0%Q).
Proof.
  split.
  - intros df tactic Hn Hg. unfold percentage, total_present.
    rewrite Hg, Hn. reflexivity.
  - eexists. split; [reflexivity|]. split; [reflexivity|].
    intros tactic [<-|[<-|[]]]; split; (reflexivity || discriminate).
Qed.

Lemma percentage_of_empty_dataset_witness :
  percentage (mkFrame 0 [("Statement", []);
                         ("urgency_marketing_present", [])])
             "urgency_marketing"
  = Raise ZeroDivisionError.
Proof.
  apply (proj1 percentage_of_empty_dataset); reflexivity.
Defined.

(** ** The dictionary import *)





(** ** A frame without a statement column *)

Lemma existsb_eqb_false (name : string) (l : list string) :
  ~ In name l -> existsb (String.eqb name) l = false.
Proof.
  induction l as [|a l IH]; simpl; intros H; [reflexivity|].
  destruct (String.eqb_spec name a) as [->|_]; [tauto|].
  apply IH; tauto.
Qed.

(** C8. When the statement column cannot be resolved the run fails as a
    whole and leaves no classified frame: [main] of [streamlit_app.py]
    shows its error and stops when no column is named [Statement]; the
    run of [codex_project_dictionary.py] shows its error and keeps the
    session as it was when [_detect_statement_column] finds nothing;
    [process_data], whose positional default resolves every frame that
    has a column, fails only on a frame without columns, where the
    exception leaves the session of [classify_data] as it was. *)
Theorem unresolved_statement_column_fails :
  (forall (df : Frame value) (dicts : dictionaries),
      ~ In "Statement" (columns df) ->
      (exists msg, App.main df dicts = App.ErrorShown msg)
      /\ forall out, App.main df dicts <> App.Classified out)
  /\ (forall (df : Frame value) (keywords : dictionaries)
             (st : Codex.session),
         Codex._detect_statement_column (columns df) = None ->
         exists msg,
           Codex.run_classification df keywords st
           = (st, Codex.SidebarError msg))
  /\ (forall (df : Frame value) (dicts : dictionaries) (st : session),
         find_statement_col (columns df) = Raise IndexError ->
         process_data df dicts = Raise IndexError
         /\ classify_data df dicts st = (st, Some IndexError))
  /\ (forall (df : Frame value) (dicts : dictionaries),
         (exists e, process_data df dicts = Raise e) <-> columns df = []).
Proof.
  repeat apply conj.
  - intros df dicts H. unfold App.main.
    rewrite (existsb_eqb_false _ _ H); simpl.
    split; [eauto | discriminate].
  - intros df keywords st H. unfold Codex.run_classification.
    rewrite H. eauto.
  - intros df dicts st H.
    assert (E : process_data df dicts = Raise IndexError).
    { unfold process_data. now rewrite H. }
    split; [exact E|]. unfold classify_data. now rewrite E.
  - intros df dicts. split.
    + intros [e He]. destruct (columns df) eqn:Ec; [reflexivity|].
      destruct (process_data_total df dicts) as (out & col & E & _).
      * rewrite Ec; discriminate.
      * rewrite E in He; discriminate.
    + intros Hc. exists IndexError. unfold process_data.
      now rewrite Hc.
Qed.

Lemma unresolved_statement_column_fails_witness :
  (exists msg,
      App.main (mkFrame 1 [("id", [VInt 1]); ("body", [VStr "Hurry"])])
               default_dictionaries
      = App.ErrorShown msg)
  /\ (exists msg,
         Codex.run_classification
           (mkFrame 1 [("id", [VInt 1]); ("body", [VStr "Hurry"])])
           default_dictionaries (Codex.mkSession None "Statement")
         = (Codex.mkSession None "Statement", Codex.SidebarError msg))
  /\ classify_data (mkFrame 0 []) default_dictionaries
       (mkSession (json_of_dictionaries default_dictionaries) None None)
     = (mkSession (json_of_dictionaries default_dictionaries) None None,
        Some IndexError).
Proof.
  destruct unresolved_statement_column_fails as (H1 & H2 & H3 & _).
  repeat apply conj.
  - apply H1. simpl. intuition discriminate.
  - apply H2. reflexivity.
  - apply H3. reflexivity.
Defined.

(* ================================================================== *)
(** * Further properties *)
(* ================================================================== *)

(** ** The dictionary tab *)

Section StoreFacts.
Context {V : Type}.
Implicit Types (d : dict V) (k : string) (v : V).

Lemma key_in_iff k d : key_in k d = true <-> In k (dict_keys d).
Proof.
  unfold key_in. rewrite existsb_exists. split.
  - intros (x & Hx & E). apply String.eqb_eq in E. now subst.
  - intros H. exists k. split; [exact H | apply String.eqb_refl].
Qed.

Lemma key_in_false k d : key_in k d = false <-> ~ In k (dict_keys d).
Proof.
  rewrite <- key_in_iff. destruct (key_in k d); split; congruence.
Qed.

Lemma dict_get_key d k v : dict_get d k = Some v -> In k (dict_keys d).
Proof.
  intros H. apply dict_get_Some_In in H. now apply (in_map fst) in H.
Qed.

Lemma dict_keys_set_present d k v :
  In k (dict_keys d) -> dict_keys (dict_set d k v) = dict_keys d.
Proof.
  intros H. rewrite dict_keys_set.
  apply key_in_iff in H. unfold key_in in H. now rewrite H.
Qed.

(** Storing what is already there changes nothing. *)
Lemma dict_set_same d k v : dict_get d k = Some v -> dict_set d k v = d.
Proof.
  induction d as [|[k' v'] d IH]; simpl; [discriminate|].
  destruct (String.eqb_spec k' k) as [->|_].
  - now intros [= ->].
  - intros H. now rewrite IH.
Qed.

Lemma dict_set_set d k v v' :
  dict_set (dict_set d k v) k v' = dict_set d k v'.
Proof.
  induction d as [|[k0 v0] d IH]; simpl.
  - now rewrite String.eqb_refl.
  - destruct (String.eqb_spec k0 k) as [->|Hne]; simpl.
    + now rewrite String.eqb_refl.
    + destruct (String.eqb_spec k0 k); [contradiction|]. now rewrite IH.
Qed.

Lemma dict_remove_fresh d k : ~ In k (dict_keys d) -> dict_remove d k = d.
Proof.
  induction d as [|[k' v'] d IH]; simpl; intros H; [reflexivity|].
  destruct (String.eqb_spec k' k) as [->|_]; [tauto|].
  rewrite IH; tauto.
Qed.

Lemma dict_remove_app_last d k v :
  ~ In k (dict_keys d) -> dict_remove (d ++ [(k, v)]) k = d.
Proof.
  induction d as [|[k' v'] d IH]; simpl; intros H.
  - now rewrite String.eqb_refl.
  - destruct (String.eqb_spec k' k) as [->|_]; [tauto|].
    rewrite IH; tauto.
Qed.

Lemma dict_remove_keys d k :
  NoDup (dict_keys d) ->
  dict_keys (dict_remove d k) = List.remove string_dec k (dict_keys d).
Proof.
  induction d as [|[k' v'] d IH]; simpl; intros Hnd; [reflexivity|].
  inversion Hnd as [|? ? Hk Hd]; subst.
  destruct (String.eqb_spec k' k) as [->|Hne].
  - destruct (string_dec k k); [|contradiction].
    symmetry. now apply notin_remove.
  - destruct (string_dec k k'); [congruence|]. simpl. now rewrite IH.
Qed.

Lemma dict_get_remove_same d k :
  NoDup (dict_keys d) -> dict_get (dict_remove d k) k = None.
Proof.
  intros Hnd. apply dict_get_None.
  rewrite (dict_remove_keys _ _ Hnd). apply remove_In.
Qed.

Lemma dict_get_remove_other d k k' :
  k' <> k -> dict_get (dict_remove d k) k' = dict_get d k'.
Proof.
  intros Hne. induction d as [|[k0 v0] d IH]; simpl; [reflexivity|].
  destruct (String.eqb_spec k0 k) as [->|_]; simpl.
  - destruct (String.eqb_spec k k'); [congruence | reflexivity].
  - now rewrite IH.
Qed.

Lemma dict_remove_NoDup d k :
  NoDup (dict_keys d) -> NoDup (dict_keys (dict_remove d k)).
Proof.
  intros Hnd. rewrite (dict_remove_keys _ _ Hnd).
  clear - Hnd. induction (dict_keys d) as [|a l IH]; simpl; [constructor|].
  inversion Hnd; subst.
  destruct (string_dec k a); [now apply IH|].
  constructor; [|now apply IH].
  intros Hin. apply in_remove in Hin. tauto.
Qed.

Lemma dict_set_NoDup d k v :
  NoDup (dict_keys d) -> NoDup (dict_keys (dict_set d k v)).
Proof.
  intros Hnd. rewrite dict_keys_set.
  destruct (existsb (String.eqb k) (dict_keys d)) eqn:E; [exact Hnd|].
  apply NoDup_app; [exact Hnd | nodup |].
  intros a Ha [<-|[]].
  assert (key_in k d = true) by now apply key_in_iff.
  unfold key_in in *; congruence.
Qed.

End StoreFacts.

(** The [Add Tactic] button keeps the names of the tactics distinct and
    keeps every entry of the store; the store changes only for a name
    that is new and not empty, which then comes last with no keyword;
    the error is shown exactly for a name already there. *)
Theorem add_tactic_extends (new_tactic : string) (d : dictionaries) :
  NoDup (dict_keys d) ->
  NoDup (dict_keys (fst (add_tactic new_tactic d)))
  /\ (forall k kws,
         dict_get d k = Some kws ->
         dict_get (fst (add_tactic new_tactic d)) k = Some kws)
  /\ (new_tactic <> "" -> ~ In new_tactic (dict_keys d) ->
      fst (add_tactic new_tactic d) = d ++ [(new_tactic, [])])
  /\ (new_tactic = "" \/ In new_tactic (dict_keys d) ->
      fst (add_tactic new_tactic d) = d)
  /\ (snd (add_tactic new_tactic d) = ShowError "Tactic already exists!"
      <-> In new_tactic (dict_keys d)).
Proof.
  intros Hnd. unfold add_tactic.
  destruct (String.eqb_spec new_tactic "") as [E|E];
    destruct (key_in new_tactic d) eqn:K; simpl.
  - apply key_in_iff in K.
    repeat split; auto; try contradiction; try tauto.
  - apply key_in_false in K.
    repeat split; auto; try contradiction; try tauto; discriminate.
  - apply key_in_iff in K.
    repeat split; auto; try contradiction; try tauto.
  - apply key_in_false in K.
    repeat split; try tauto; try discriminate.
    + now apply dict_set_NoDup.
    + intros k kws H. rewrite dict_get_set_other; [exact H|].
      intros ->. apply K. now apply dict_get_key in H.
    + intros _ _. now apply dict_set_fresh.
Qed.

Lemma add_tactic_extends_witness :
  fst (add_tactic "scarcity_marketing" default_dictionaries)
  = default_dictionaries ++ [("scarcity_marketing", [])].
Proof.
  assert (Hnd : NoDup (dict_keys default_dictionaries)) by nodup.
  destruct (add_tactic_extends "scarcity_marketing" default_dictionaries
              Hnd) as (_ & _ & H & _).
  apply H; [discriminate | simpl; intuition discriminate].
Defined.

Lemma lookup_Ok {V} (d : dict V) (k : string) (v : V) :
  lookup d k = Ok v <-> dict_get d k = Some v.
Proof.
  unfold lookup. destruct (dict_get d k); split; congruence.
Qed.

Lemma existsb_eqb_In (x : string) (l : list string) :
  existsb (String.eqb x) l = true <-> In x l.
Proof.
  rewrite existsb_exists. split.
  - intros (y & Hy & E). apply String.eqb_eq in E. now subst.
  - intros H. exists x. split; [exact H | apply String.eqb_refl].
Qed.

(** The [Add] button of a tactic never makes a keyword list hold a
    keyword twice, never touches another tactic nor the order of the
    tactics, and leaves a keyword that is not empty in the list of its
    tactic; the list grows, by that keyword put last, only when the
    keyword is not empty and not yet there (spelled the same). It fails,
    with [KeyError], only for a keyword that is not empty and a tactic
    that is not in the store. *)
Theorem add_keyword_keeps_lists_distinct
  (tactic new_keyword : string) (d : dictionaries) :
  (forall d',
      add_keyword tactic new_keyword d = Ok d' ->
      dict_keys d' = dict_keys d
      /\ (forall t, t <> tactic -> dict_get d' t = dict_get d t)
      /\ (forall keywords,
             dict_get d tactic = Some keywords ->
             exists keywords',
               dict_get d' tactic = Some keywords'
               /\ (NoDup keywords -> NoDup keywords')
               /\ (new_keyword <> "" -> In new_keyword keywords')
               /\ (keywords' = keywords
                   \/ (keywords' = keywords ++ [new_keyword]
                       /\ new_keyword <> ""
                       /\ ~ In new_keyword keywords))))
  /\ ((exists e, add_keyword tactic new_keyword d = Raise e)
      <-> new_keyword <> "" /\ ~ In tactic (dict_keys d))
  /\ (forall e, add_keyword tactic new_keyword d = Raise e -> e = KeyError).
Proof.
  unfold add_keyword.
  destruct (String.eqb_spec new_keyword "") as [E|E].
  { split; [|split].
    - intros d' [= <-]. split; [reflexivity|]. split; [reflexivity|].
      intros keywords Hk. exists keywords.
      split; [exact Hk|]. split; [tauto|]. split; [contradiction|].
      now left.
    - split; [intros [e He]; discriminate | tauto].
    - discriminate. }
  unfold lookup. destruct (dict_get d tactic) as [kws|] eqn:G; simpl.
  2:{ split; [discriminate|]. split; [|congruence].
      split; [|eauto]. intros _. split; [exact E|].
      intros Hin. clear - G Hin.
      induction d as [|[k v] d IH]; simpl in *; [tauto|].
      destruct (String.eqb_spec k tactic); [discriminate|].
      destruct Hin; [contradiction | now apply IH]. }
  assert (Hkey : In tactic (dict_keys d)) by now apply dict_get_key in G.
  destruct (existsb (String.eqb new_keyword) kws) eqn:X.
  - apply existsb_eqb_In in X. split; [|split].
    + intros d' [= <-]. split; [reflexivity|]. split; [reflexivity|].
      intros keywords [= <-].
      exists kws. split; [exact G|]. split; [tauto|].
      split; [tauto | now left].
    + split; [intros [e He]; discriminate | tauto].
    + discriminate.
  - assert (Hn : ~ In new_keyword kws).
    { intros Hin. apply existsb_eqb_In in Hin. congruence. }
    split; [|split].
    + intros d' [= <-].
      split; [now apply dict_keys_set_present|].
      split; [intros t Ht; now apply dict_get_set_other|].
      intros keywords [= <-].
      exists (kws ++ [new_keyword]).
      split; [apply dict_get_set_same|]. split; [|split].
      * intros Hnd. apply NoDup_app; [exact Hnd | nodup |].
        intros a Ha [<-|[]]. contradiction.
      * intros _. apply in_or_app. right. now left.
      * right. repeat split; assumption.
    + split; [intros [e He]; discriminate | tauto].
    + discriminate.
Qed.

Lemma add_keyword_keeps_lists_distinct_witness :
  dict_keys [("urgency_marketing", ["hurry"; "act now"; "flash sale"]);
             ("exclusive_marketing", ["vip"])]
  = dict_keys [("urgency_marketing", ["hurry"; "act now"]);
               ("exclusive_marketing", ["vip"])].
Proof.
  apply (proj1 (add_keyword_keeps_lists_distinct
                  "urgency_marketing" "flash sale"
                  [("urgency_marketing", ["hurry"; "act now"]);
                   ("exclusive_marketing", ["vip"])])).
  reflexivity.
Defined.

(** [l.remove(x)] takes out the first occurrence of a member. *)
Lemma list_remove_first (x : string) (l : list string) :
  In x l ->
  exists before after,
    l = before ++ x :: after /\ ~ In x before /\
    list_remove x l = before ++ after.
Proof.
  induction l as [|y l IH]; simpl; [tauto|].
  destruct (String.eqb_spec y x) as [->|Hne].
  - intros _. exists [], l. repeat split. tauto.
  - intros [E|Hin]; [contradiction|].
    destruct (IH Hin) as (b & a & -> & Hb & E).
    exists (y :: b), a. simpl. rewrite E. repeat split.
    intros [?|?]; [contradiction | tauto].
Qed.

Lemma list_remove_absent (x : string) (l : list string) :
  ~ In x l -> list_remove x l = l.
Proof.
  induction l as [|y l IH]; simpl; intros H; [reflexivity|].
  destruct (String.eqb_spec y x); [tauto|]. rewrite IH; tauto.
Qed.

Lemma list_remove_last (x : string) (l : list string) :
  ~ In x l -> list_remove x (l ++ [x]) = l.
Proof.
  induction l as [|y l IH]; simpl; intros H.
  - now rewrite String.eqb_refl.
  - destruct (String.eqb_spec y x); [tauto|]. rewrite IH; tauto.
Qed.

Lemma nth_error_split_NoDup (l : list string) (i : nat) (x : string)
  (before after : list string) :
  NoDup l -> nth_error l i = Some x -> l = before ++ x :: after ->
  before = firstn i l /\ after = skipn (S i) l.
Proof.
  intros Hnd Hn ->.
  assert (Hi : i = length before).
  { destruct (Nat.lt_total i (length before)) as [Hlt|[E|Hgt]];
      [exfalso | exact E | exfalso].
    - rewrite nth_error_app1 in Hn by exact Hlt.
      apply nth_error_In in Hn.
      apply NoDup_remove_2 in Hnd. apply Hnd, in_or_app. now left.
    - rewrite nth_error_app2 in Hn by lia.
      destruct (i - length before)%nat eqn:D; [lia|]. simpl in Hn.
      apply nth_error_In in Hn.
      apply NoDup_remove_2 in Hnd. apply Hnd, in_or_app. now right. }
  subst i. clear. split; induction before as [|b l IH]; simpl;
    try reflexivity; [now f_equal | exact IH].
Qed.

(** The delete button of a keyword removes one entry of the list of its
    tactic, the first one spelled as the keyword shown at the position
    clicked, and nothing else in the store. In a list that holds no
    keyword twice that is the entry clicked, and the keyword is gone. *)
Theorem delete_keyword_removes_first
  (tactic : string) (i : nat) (d : dictionaries)
  (keywords : list string) (keyword : string) :
  dict_get d tactic = Some keywords ->
  nth_error keywords i = Some keyword ->
  exists d' before after,
    delete_keyword tactic i d = Ok d'
    /\ dict_keys d' = dict_keys d
    /\ (forall t, t <> tactic -> dict_get d' t = dict_get d t)
    /\ keywords = before ++ keyword :: after
    /\ ~ In keyword before
    /\ dict_get d' tactic = Some (before ++ after)
    /\ (NoDup keywords ->
        before = firstn i keywords /\ after = skipn (S i) keywords
        /\ ~ In keyword (before ++ after)
        /\ NoDup (before ++ after)).
Proof.
  intros Hg Hn.
  destruct (list_remove_first keyword keywords (nth_error_In _ _ Hn))
    as (before & after & Hk & Hb & Hr).
  exists (dict_set d tactic (before ++ after)), before, after.
  split.
  { unfold delete_keyword, lookup, index. rewrite Hg; simpl.
    rewrite Hn; simpl. now rewrite Hr. }
  split; [apply dict_keys_set_present; now apply dict_get_key in Hg|].
  split; [intros t Ht; now apply dict_get_set_other|].
  split; [exact Hk|]. split; [exact Hb|].
  split; [apply dict_get_set_same|].
  intros Hnd.
  destruct (nth_error_split_NoDup _ _ _ _ _ Hnd Hn Hk) as [E1 E2].
  split; [exact E1|]. split; [exact E2|].
  rewrite Hk in Hnd. split.
  - now apply NoDup_remove_2 in Hnd.
  - now apply NoDup_remove_1 in Hnd.
Qed.

Lemma delete_keyword_removes_first_witness :
  exists d',
    delete_keyword "u" 3 [("u", ["a"; "b"; "c"; "b"])] = Ok d'
    /\ dict_get d' "u" = Some (["a"] ++ ["c"; "b"]).
Proof.
  destruct (delete_keyword_removes_first "u" 3
              [("u", ["a"; "b"; "c"; "b"])] ["a"; "b"; "c"; "b"] "b"
              eq_refl eq_refl)
    as (d' & before & after & Hd & _ & _ & Hk & Hb & Hg & _).
  exists d'. split; [exact Hd|].
  injection Hd as <-. reflexivity.
Defined.

(** Adding a keyword that is new to its tactic and deleting it again, at
    the last position where it was put, gives the store back. *)
Theorem add_then_delete_keyword
  (tactic new_keyword : string) (d : dictionaries)
  (keywords : list string) :
  dict_get d tactic = Some keywords ->
  new_keyword <> "" ->
  ~ In new_keyword keywords ->
  (d' <- add_keyword tactic new_keyword d ;;
   delete_keyword tactic (length keywords) d') = Ok d.
Proof.
  intros Hg Hne Hn.
  unfold add_keyword, lookup.
  destruct (String.eqb_spec new_keyword ""); [contradiction|].
  rewrite Hg; simpl.
  destruct (existsb (String.eqb new_keyword) keywords) eqn:X.
  { apply existsb_eqb_In in X. contradiction. }
  simpl. unfold delete_keyword, lookup, index.
  rewrite dict_get_set_same; simpl.
  rewrite nth_error_app2, Nat.sub_diag by lia. simpl.
  rewrite (list_remove_last _ _ Hn), dict_set_set.
  now rewrite (dict_set_same _ _ _ Hg).
Qed.

Lemma add_then_delete_keyword_witness :
  (d' <- add_keyword "exclusive_marketing" "by invitation"
           default_dictionaries ;;
   delete_keyword "exclusive_marketing" 15 d') = Ok default_dictionaries.
Proof.
  apply (add_then_delete_keyword "exclusive_marketing" "by invitation"
           default_dictionaries
           ["exclusive"; "exclusively"; "exclusive offer"; "exclusive deal";
            "members only"; "vip"; "special access"; "invitation only";
            "premium"; "privileged"; "limited access"; "select customers";
            "insider"; "private sale"; "early access"]).
  - reflexivity.
  - discriminate.
  - simpl. intuition discriminate.
Defined.

(** The [Delete tactic] button removes the tactic, keeps the other
    tactics, their keywords and their order, and fails with [KeyError]
    exactly for a tactic that is not in the store. *)
Theorem delete_tactic_removes (tactic : string) (d : dictionaries) :
  NoDup (dict_keys d) ->
  (In tactic (dict_keys d) ->
   exists d',
     delete_tactic tactic d = Ok d'
     /\ dict_get d' tactic = None
     /\ (forall t, t <> tactic -> dict_get d' t = dict_get d t)
     /\ dict_keys d' = List.remove string_dec tactic (dict_keys d)
     /\ NoDup (dict_keys d'))
  /\ (~ In tactic (dict_keys d) ->
      delete_tactic tactic d = Raise KeyError).
Proof.
  intros Hnd. unfold delete_tactic. split; intros H.
  - apply key_in_iff in H. rewrite H.
    exists (dict_remove d tactic). split; [reflexivity|].
    split; [now apply dict_get_remove_same|].
    split; [intros t Ht; now apply dict_get_remove_other|].
    split; [now apply dict_remove_keys | now apply dict_remove_NoDup].
  - apply key_in_false in H. now rewrite H.
Qed.

Lemma delete_tactic_removes_witness :
  exists d',
    delete_tactic "urgency_marketing" default_dictionaries = Ok d'
    /\ dict_get d' "urgency_marketing" = None.
Proof.
  assert (Hnd : NoDup (dict_keys default_dictionaries)) by nodup.
  destruct (proj1 (delete_tactic_removes "urgency_marketing"
                     default_dictionaries Hnd))
    as (d' & Hd & Hg & _).
  - simpl. left. reflexivity.
  - exists d'. split; assumption.
Defined.

(** Adding a tactic under a new name and deleting it again gives the
    store back. *)
Theorem add_then_delete_tactic (new_tactic : string) (d : dictionaries) :
  new_tactic <> "" ->
  ~ In new_tactic (dict_keys d) ->
  delete_tactic new_tactic (fst (add_tactic new_tactic d)) = Ok d.
Proof.
  intros Hne Hn. unfold add_tactic.
  destruct (String.eqb_spec new_tactic ""); [contradiction|].
  assert (K := proj2 (key_in_false new_tactic d) Hn). rewrite K. simpl.
  rewrite (dict_set_fresh _ _ _ Hn). unfold delete_tactic.
  assert (K' : key_in new_tactic (d ++ [(new_tactic, [])]) = true).
  { apply key_in_iff. rewrite dict_keys_app. apply in_or_app.
    right. now left. }
  rewrite K'. now rewrite dict_remove_app_last.
Qed.

Lemma add_then_delete_tactic_witness :
  delete_tactic "scarcity_marketing"
    (fst (add_tactic "scarcity_marketing" default_dictionaries))
  = Ok default_dictionaries.
Proof.
  apply add_then_delete_tactic;
    [discriminate | simpl; intuition discriminate].
Defined.

(** ** Classification and the edits of the store *)

Lemma dict_get_map {V W} (f : V -> W) (d : dict V) (k : string) :
  dict_get (map (fun kv => (fst kv, f (snd kv))) d) k =
  option_map f (dict_get d k).
Proof.
  induction d as [|[k' v] d IH]; simpl; [reflexivity|].
  destruct (String.eqb k' k); [reflexivity | exact IH].
Qed.

Lemma dict_remove_map {V W} (f : V -> W) (d : dict V) (k : string) :
  dict_remove (map (fun kv => (fst kv, f (snd kv))) d) k =
  map (fun kv => (fst kv, f (snd kv))) (dict_remove d k).
Proof.
  induction d as [|[k' v] d IH]; simpl; [reflexivity|].
  destruct (String.eqb k' k); simpl; [reflexivity | now rewrite IH].
Qed.

(** What [classify_statement] holds for one tactic. *)
Lemma classify_get (text : value) (d : dictionaries) (tactic : string) :
  NoDup (dict_keys d) ->
  dict_get (classify_statement text d) tactic =
  if classified text
  then option_map (match_result (lower (str text))) (dict_get d tactic)
  else None.
Proof.
  intros Hnd. destruct (classified text) eqn:Hc.
  - rewrite (classify_statement_map _ _ Hnd Hc). apply dict_get_map.
  - now rewrite (classify_statement_skipped _ _ Hc).
Qed.

Lemma get_matches_classify (text : value) (d : dictionaries)
  (tactic : string) :
  NoDup (dict_keys d) ->
  get_matches (classify_statement text d) tactic =
  match dict_get d tactic with
  | Some keywords =>
      if classified text then matching (lower (str text)) keywords else []
  | None => []
  end.
Proof.
  intros Hnd. unfold get_matches. rewrite (classify_get _ _ _ Hnd).
  destruct (classified text), (dict_get d tactic); reflexivity.
Qed.

Lemma get_count_matches (text : value) (d : dictionaries) (tactic : string) :
  get_count (classify_statement text d) tactic =
  len (get_matches (classify_statement text d) tactic).
Proof.
  unfold get_count, get_matches.
  destruct (dict_get (classify_statement text d) tactic) as [r|] eqn:E;
    [|reflexivity].
  apply dict_get_Some_In, classify_statement_entry in E
    as (_ & kws & _ & ->).
  reflexivity.
Qed.

Lemma get_present_matches (text : value) (d : dictionaries)
  (tactic : string) :
  get_present (classify_statement text d) tactic =
  (0 <? len (get_matches (classify_statement text d) tactic)).
Proof.
  unfold get_present, get_matches.
  destruct (dict_get (classify_statement text d) tactic) as [r|] eqn:E;
    [|reflexivity].
  apply dict_get_Some_In, classify_statement_entry in E
    as (_ & kws & _ & ->).
  reflexivity.
Qed.

Lemma matching_app (tl : string) (a b : list string) :
  matching tl (a ++ b) = matching tl a ++ matching tl b.
Proof. apply filter_app. Qed.

Lemma add_tactic_fresh (new_tactic : string) (d : dictionaries) :
  new_tactic <> "" -> ~ In new_tactic (dict_keys d) ->
  fst (add_tactic new_tactic d) = d ++ [(new_tactic, [])].
Proof.
  intros Hne Hn. unfold add_tactic.
  destruct (String.eqb_spec new_tactic ""); [contradiction|].
  rewrite (proj2 (key_in_false new_tactic d) Hn). simpl.
  now apply dict_set_fresh.
Qed.

Lemma add_keyword_frame (tactic new_keyword : string) (d d' : dictionaries) :
  add_keyword tactic new_keyword d = Ok d' ->
  dict_keys d' = dict_keys d
  /\ forall t, t <> tactic -> dict_get d' t = dict_get d t.
Proof.
  unfold add_keyword, lookup.
  destruct (String.eqb new_keyword ""); [now intros [= <-]|].
  destruct (dict_get d tactic) as [kws|] eqn:G; simpl; [|discriminate].
  destruct (existsb (String.eqb new_keyword) kws); intros [= <-];
    [now split|].
  split; [apply dict_keys_set_present; now apply dict_get_key in G|].
  intros t Ht. now apply dict_get_set_other.
Qed.

(** A tactic just added has no keyword and is found in no statement:
    the results of the tactics that were there stay as they were, and
    the new tactic comes last, absent, for every statement classified. *)
Theorem added_tactic_matches_nothing
  (new_tactic : string) (d : dictionaries) (text : value) :
  NoDup (dict_keys d) ->
  new_tactic <> "" ->
  ~ In new_tactic (dict_keys d) ->
  classify_statement text (fst (add_tactic new_tactic d))
  = classify_statement text d
    ++ (if classified text
        then [(new_tactic, {| present := false; count := 0; matches := [] |})]
        else [])
  /\ get_present (classify_statement text (fst (add_tactic new_tactic d)))
                 new_tactic = false.
Proof.
  intros Hnd Hne Hn.
  rewrite (add_tactic_fresh new_tactic d Hne Hn).
  assert (Hnd' : NoDup (dict_keys (d ++ [(new_tactic, @nil string)]))).
  { rewrite <- (dict_set_fresh d new_tactic [] Hn).
    now apply dict_set_NoDup. }
  assert (Hc : classify_statement text (d ++ [(new_tactic, [])])
               = classify_statement text d
                 ++ (if classified text
                     then [(new_tactic,
                            {| present := false; count := 0;
                               matches := [] |})]
                     else [])).
  { destruct (classified text) eqn:Hc.
    - rewrite !classify_statement_map by assumption.
      now rewrite map_app.
    - now rewrite !classify_statement_skipped by assumption. }
  split; [exact Hc|].
  rewrite get_present_matches, (get_matches_classify _ _ _ Hnd').
  rewrite (dict_get_In _ new_tactic [] Hnd').
  - now destruct (classified text).
  - apply in_or_app. right. now left.
Qed.

Lemma added_tactic_matches_nothing_witness :
  get_present
    (classify_statement (VStr "Only 3 left in stock")
       (fst (add_tactic "scarcity_marketing" default_dictionaries)))
    "scarcity_marketing" = false.
Proof.
  apply (added_tactic_matches_nothing "scarcity_marketing"
           default_dictionaries (VStr "Only 3 left in stock")).
  - nodup.
  - discriminate.
  - simpl. intuition discriminate.
Defined.

(** Deleting a tactic takes its entry out of the result of every
    statement and leaves the entries of the other tactics as they were. *)
Theorem deleted_tactic_leaves_results
  (tactic : string) (d d' : dictionaries) (text : value) :
  NoDup (dict_keys d) ->
  delete_tactic tactic d = Ok d' ->
  classify_statement text d'
  = dict_remove (classify_statement text d) tactic
  /\ get_present (classify_statement text d') tactic = false
  /\ (forall t, t <> tactic ->
                dict_get (classify_statement text d') t
                = dict_get (classify_statement text d) t).
Proof.
  intros Hnd Hd. unfold delete_tactic in Hd.
  destruct (key_in tactic d); [|discriminate]. injection Hd as <-.
  assert (Hnd' := dict_remove_NoDup d tactic Hnd).
  split; [|split].
  - destruct (classified text) eqn:Hc.
    + rewrite !classify_statement_map by assumption.
      now rewrite dict_remove_map.
    + now rewrite !classify_statement_skipped by assumption.
  - unfold get_present. rewrite (classify_get _ _ _ Hnd').
    rewrite (dict_get_remove_same _ _ Hnd).
    now destruct (classified text).
  - intros t Ht. rewrite !classify_get by assumption.
    now rewrite dict_get_remove_other.
Qed.

Lemma deleted_tactic_leaves_results_witness :
  get_present
    (classify_statement (VStr "Hurry, VIP sale")
       [("exclusive_marketing", ["vip"])])
    "urgency_marketing" = false.
Proof.
  apply (deleted_tactic_leaves_results "urgency_marketing"
           [("urgency_marketing", ["hurry"]);
            ("exclusive_marketing", ["vip"])]
           [("exclusive_marketing", ["vip"])]
           (VStr "Hurry, VIP sale")).
  - nodup.
  - reflexivity.
Defined.

(** Adding a keyword changes the matches of a statement for the tactic of
    the keyword alone, and there by at most the keyword itself, put last
    among the matches: it is added exactly when the store took it (not
    empty, not yet in the list) and the statement is classified and
    holds its lower-cased form; this whatever [str.lower] does to the
    text. *)
Theorem added_keyword_adds_one_match
  (str_lower : string -> string)
  (tactic new_keyword : string) (d d' : dictionaries)
  (keywords : list string) (text : value) :
  NoDup (dict_keys d) ->
  dict_get d tactic = Some keywords ->
  add_keyword tactic new_keyword d = Ok d' ->
  get_matches (classify_statement_with str_lower text d') tactic
  = get_matches (classify_statement_with str_lower text d) tactic
    ++ (if (negb (String.eqb new_keyword "")
            && negb (existsb (String.eqb new_keyword) keywords)
            && classified text
            && contains (str_lower new_keyword) (str_lower (str text)))%bool
        then [new_keyword] else [])
  /\ (forall t, t <> tactic ->
                get_matches (classify_statement_with str_lower text d') t
                = get_matches (classify_statement_with str_lower text d) t)
  /\ get_count (classify_statement_with str_lower text d) tactic
     <= get_count (classify_statement_with str_lower text d') tactic
     <= get_count (classify_statement_with str_lower text d) tactic + 1.
Proof.
  intros Hnd Hg Ha.
  assert (Hnd' : NoDup (dict_keys d')).
  { destruct (add_keyword_frame _ _ _ _ Ha) as (-> & _). exact Hnd. }
  assert (Hm : get_matches (classify_statement_with str_lower text d') tactic
  = get_matches (classify_statement_with str_lower text d) tactic
    ++ (if (negb (String.eqb new_keyword "")
            && negb (existsb (String.eqb new_keyword) keywords)
            && classified text
            && contains (str_lower new_keyword) (str_lower (str text)))%bool
        then [new_keyword] else [])).
  { rewrite !get_matches_classify_with by assumption. rewrite Hg.
    unfold add_keyword, lookup in Ha. rewrite Hg in Ha.
    destruct (String.eqb new_keyword ""); simpl in *.
    { injection Ha as <-. rewrite Hg. now rewrite app_nil_r. }
    destruct (existsb (String.eqb new_keyword) keywords); simpl in *.
    { injection Ha as <-. rewrite Hg. now rewrite app_nil_r. }
    injection Ha as <-. rewrite dict_get_set_same.
    destruct (classified text); simpl; [|reflexivity].
    unfold matching_with. rewrite filter_app. simpl.
    now destruct (contains (str_lower new_keyword) (str_lower (str text))). }
  split; [exact Hm|]. split.
  - intros t Ht. rewrite !get_matches_classify_with by assumption.
    destruct (add_keyword_frame _ _ _ _ Ha) as (_ & Ho).
    now rewrite (Ho t Ht).
  - rewrite !get_count_matches_with, Hm. unfold len.
    rewrite length_app.
    destruct (_ && _)%bool; simpl length; lia.
Qed.

Lemma added_keyword_adds_one_match_witness :
  get_matches
    (classify_statement_with lower (VStr "Flash sale: hurry!")
       [("urgency_marketing", ["hurry"; "flash sale"])])
    "urgency_marketing"
  = get_matches
      (classify_statement_with lower (VStr "Flash sale: hurry!")
         [("urgency_marketing", ["hurry"])])
      "urgency_marketing"
    ++ ["flash sale"].
Proof.
  apply (added_keyword_adds_one_match lower
           "urgency_marketing" "flash sale"
           [("urgency_marketing", ["hurry"])]
           [("urgency_marketing", ["hurry"; "flash sale"])]
           ["hurry"] (VStr "Flash sale: hurry!")).
  - nodup.
  - reflexivity.
  - reflexivity.
Defined.

(** ** Case and length of the statement *)

Lemma lower_app (a b : string) :
  lower (a ++ b) = (lower a ++ lower b)%string.
Proof. induction a; simpl; congruence. Qed.

Lemma lower_char_idem (c : ascii) : lower_char (lower_char c) = lower_char c.
Proof.
  destruct c as [[|] [|] [|] [|] [|] [|] [|] [|]]; reflexivity.
Qed.

Lemma lower_idem (s : string) : lower (lower s) = lower s.
Proof.
  induction s as [|c s IH]; simpl; [reflexivity|].
  now rewrite lower_char_idem, IH.
Qed.

Lemma lower_empty (s : string) : lower s = "" <-> s = "".
Proof. destruct s; simpl; split; congruence. Qed.

Lemma string_app_assoc (a b c : string) :
  ((a ++ b) ++ c = a ++ b ++ c)%string.
Proof. induction a; simpl; congruence. Qed.

Lemma contains_app (n pre s post : string) :
  contains n s = true -> contains n (pre ++ s ++ post) = true.
Proof.
  intros H. apply contains_iff in H as (p & q & ->).
  apply contains_iff. exists (pre ++ p)%string, (q ++ post)%string.
  now rewrite !string_app_assoc.
Qed.

Lemma contains_empty (s : string) : contains "" s = true.
Proof. now apply startswith_contains. Qed.

Lemma filter_length_le {A} (p q : A -> bool) (l : list A) :
  (forall a, p a = true -> q a = true) ->
  (length (filter p l) <= length (filter q l))%nat.
Proof.
  intros H. induction l as [|a l IH]; simpl; [lia|].
  destruct (p a) eqn:P.
  - rewrite (H a P). simpl. lia.
  - destruct (q a); simpl; lia.
Qed.



(** Nor does it see the case of the keywords, but for the spelling it
    reports: with every keyword lower-cased the same tactics are present
    with the same counts, and the matches are the lower-cased forms of
    the matches. *)
Theorem classification_ignores_keyword_case
  (text : value) (d : dictionaries) (tactic : string) :
  NoDup (dict_keys d) ->
  let lowered := map (fun kv => (fst kv, map lower (snd kv))) d in
  get_matches (classify_statement text lowered) tactic
  = map lower (get_matches (classify_statement text d) tactic)
  /\ get_count (classify_statement text lowered) tactic
     = get_count (classify_statement text d) tactic
  /\ get_present (classify_statement text lowered) tactic
     = get_present (classify_statement text d) tactic.
Proof.
  intros Hnd lowered.
  assert (Hnd' : NoDup (dict_keys lowered)).
  { unfold lowered, dict_keys. now rewrite map_map. }
  assert (Hm : get_matches (classify_statement text lowered) tactic
               = map lower (get_matches (classify_statement text d) tactic)).
  { rewrite !get_matches_classify by assumption.
    unfold lowered. rewrite dict_get_map.
    destruct (dict_get d tactic) as [kws|]; simpl; [|reflexivity].
    destruct (classified text); [|reflexivity].
    unfold matching. induction kws as [|k kws IH]; simpl; [reflexivity|].
    rewrite lower_idem.
    destruct (contains (lower k) (lower (str text))); simpl;
      now rewrite IH. }
  split; [exact Hm|].
  rewrite !get_present_matches, !get_count_matches, Hm.
  unfold len. now rewrite length_map.
Qed.

Lemma classification_ignores_keyword_case_witness :
  get_matches
    (classify_statement (VStr "vip lounge access")
       [("exclusive_marketing", ["vip"; "members only"])])
    "exclusive_marketing"
  = map lower
      (get_matches
         (classify_statement (VStr "vip lounge access")
            [("exclusive_marketing", ["VIP"; "Members Only"])])
         "exclusive_marketing").
Proof.
  apply (classification_ignores_keyword_case (VStr "vip lounge access")
           [("exclusive_marketing", ["VIP"; "Members Only"])]
           "exclusive_marketing").
  nodup.
Defined.

Lemma is_ascii_app (a b : string) :
  is_ascii (a ++ b)%string = (is_ascii a && is_ascii b)%bool.
Proof.
  induction a as [|c a IH]; simpl; [reflexivity|].
  now rewrite IH, andb_assoc.
Qed.

(** ASCII text put before or after an ASCII statement loses no match:
    every keyword matched in the statement is matched in the longer
    text, so counts do not go down and a tactic present stays present;
    this for every case mapping that does to ASCII text what [str.lower]
    does. *)
Theorem longer_statement_keeps_matches
  (str_lower : string -> string)
  (s pre post : string) (d : dictionaries) (tactic : string) :
  agrees_on_ascii str_lower ->
  NoDup (dict_keys d) ->
  s <> "" ->
  is_ascii pre = true -> is_ascii s = true -> is_ascii post = true ->
  let short := classify_statement_with str_lower (VStr s) d in
  let long :=
    classify_statement_with str_lower (VStr (pre ++ s ++ post)%string) d in
  (forall keyword,
      In keyword (get_matches short tactic) ->
      In keyword (get_matches long tactic))
  /\ get_count short tactic <= get_count long tactic
  /\ (get_present short tactic = true -> get_present long tactic = true).
Proof.
  intros Hlow Hnd Hs Apre As Apost short long.
  assert (Hl : (pre ++ s ++ post)%string <> "").
  { intros E. apply (f_equal String.length) in E.
    rewrite !append_length in E. destruct s; [congruence|].
    simpl in E. lia. }
  assert (Hc : classified (VStr s) = true).
  { unfold classified; simpl. now destruct (String.eqb_spec s ""). }
  assert (Hc' : classified (VStr (pre ++ s ++ post)%string) = true).
  { unfold classified; simpl.
    now destruct (String.eqb_spec (pre ++ s ++ post)%string ""). }
  assert (Along : is_ascii (pre ++ s ++ post)%string = true).
  { now rewrite !is_ascii_app, Apre, As, Apost. }
  assert (Himp : forall kw,
             contains (str_lower kw) (str_lower s) = true ->
             contains (str_lower kw) (str_lower (pre ++ s ++ post)%string) = true).
  { intros kw H. rewrite (Hlow _ Along). rewrite (Hlow _ As) in H.
    rewrite !lower_app. now apply contains_app. }
  assert (Hcount : get_count short tactic <= get_count long tactic).
  { unfold short, long. rewrite !get_count_matches_with.
    rewrite !get_matches_classify_with by assumption.
    rewrite Hc, Hc'. destruct (dict_get d tactic) as [kws|]; [|lia].
    unfold len, matching_with. simpl str.
    apply inj_le, filter_length_le. exact Himp. }
  split; [|split; [exact Hcount|]].
  - intros kw. unfold short, long.
    rewrite !get_matches_classify_with by assumption.
    rewrite Hc, Hc'. destruct (dict_get d tactic) as [kws|]; [|tauto].
    unfold matching_with. rewrite !filter_In. simpl str.
    intros [Hin Hk]. split; [exact Hin | now apply Himp].
  - unfold short, long in *.
    rewrite !get_present_matches_with, <- !get_count_matches_with.
    rewrite !Z.ltb_lt. lia.
Qed.

Lemma longer_statement_keeps_matches_witness :
  get_count (classify_statement_with lower (VStr "Act now")
                                     default_dictionaries)
            "urgency_marketing"
  <= get_count
       (classify_statement_with lower
          (VStr ("Hurry! " ++ "Act now" ++ ", VIPs")) default_dictionaries)
       "urgency_marketing".
Proof.
  apply (longer_statement_keeps_matches lower "Act now" "Hurry! " ", VIPs"
           default_dictionaries "urgency_marketing");
    [exact agrees_on_ascii_lower | nodup | discriminate
    | reflexivity | reflexivity | reflexivity].
Defined.

(** An empty keyword, which the [Add] button refuses but an imported
    dictionary may hold, is found in every statement that is classified
    at all: its tactic is then always present. *)
Theorem empty_keyword_matches_everything
  (text : value) (d : dictionaries) (tactic : string)
  (keywords : list string) :
  NoDup (dict_keys d) ->
  dict_get d tactic = Some keywords ->
  In "" keywords ->
  classified text = true ->
  In "" (get_matches (classify_statement text d) tactic)
  /\ get_present (classify_statement text d) tactic = true
  /\ add_keyword tactic "" d = Ok d.
Proof.
  intros Hnd Hg Hin Hc.
  assert (Hm : In "" (get_matches (classify_statement text d) tactic)).
  { rewrite (get_matches_classify _ _ _ Hnd), Hg, Hc.
    apply filter_In. split; [exact Hin | apply contains_empty]. }
  split; [exact Hm|]. split; [|reflexivity].
  rewrite get_present_matches. apply Z.ltb_lt. unfold len.
  destruct (get_matches (classify_statement text d) tactic);
    [destruct Hm | simpl; lia].
Qed.

Lemma empty_keyword_matches_everything_witness :
  get_present
    (classify_statement (VStr "Plain product description")
       [("urgency_marketing", ["hurry"; ""])])
    "urgency_marketing" = true.
Proof.
  apply (empty_keyword_matches_everything
           (VStr "Plain product description")
           [("urgency_marketing", ["hurry"; ""])]
           "urgency_marketing" ["hurry"; ""]).
  - nodup.
  - reflexivity.
  - simpl. right. left. reflexivity.
  - reflexivity.
Defined.

(** ** The flags of [pages/codex_project_dictionary.py] *)

Section ColumnRuns.
Context {C K W : Type}.
Variable name : K -> string.
Variable series_of : W -> list C.
Hypothesis name_inj : forall a b, name a = name b -> a = b.

Lemma assign_nrows (l : list (K * W)) : forall df : Frame C,
  nrows (fold_left
           (fun df kv => df_set df (name (fst kv)) (series_of (snd kv)))
           l df)
  = nrows df.
Proof.
  induction l as [|a l IH]; intros df; simpl; [reflexivity|].
  now rewrite IH.
Qed.

Lemma assign_other (l : list (K * W)) (n : string) : forall df : Frame C,
  (forall kv, In kv l -> n <> name (fst kv)) ->
  dict_get
    (cols (fold_left
             (fun df kv => df_set df (name (fst kv)) (series_of (snd kv)))
             l df)) n
  = dict_get (cols df) n.
Proof.
  induction l as [|a l IH]; intros df H; simpl; [reflexivity|].
  rewrite IH by (intros kv Hkv; apply H; now right).
  simpl. apply dict_get_set_other.
  apply H. now left.
Qed.

(** In a run of assignments under distinct names the column of each name
    holds what was assigned under it. *)
Lemma assign_get (l : list (K * W)) (k : K) (w : W) : forall df : Frame C,
  NoDup (map fst l) -> In (k, w) l ->
  dict_get
    (cols (fold_left
             (fun df kv => df_set df (name (fst kv)) (series_of (snd kv)))
             l df)) (name k)
  = Some (series_of w).
Proof.
  induction l as [|a l IH]; intros df Hnd Hin; [destruct Hin|].
  simpl in *. inversion Hnd as [|? ? Ha Hl]; subst.
  destruct Hin as [->|Hin].
  - rewrite assign_other.
    + simpl. apply dict_get_set_same.
    + intros kv Hkv E. apply name_inj in E. simpl in *. subst k.
      apply Ha. now apply (in_map fst) in Hkv.
  - now apply IH.
Qed.

End ColumnRuns.

Lemma flag_name_inj (a b : string) : flag_name a = flag_name b -> a = b.
Proof. apply append_suffix_inj. Qed.

Lemma has_match_words (words : list string) (text : string) :
  Codex.has_match (map lower (filter Codex.has_text words)) text =
  if existsb (fun w => Codex.has_text w && contains (lower w) (lower text))%bool
             words
  then 1 else 0.
Proof.
  unfold Codex.has_match.
  assert (E : existsb (fun keyword => contains keyword (lower text))
                      (map lower (filter Codex.has_text words))
              = existsb (fun w => Codex.has_text w
                                  && contains (lower w) (lower text))%bool
                        words).
  { induction words as [|w ws IH]; simpl; [reflexivity|].
    destruct (Codex.has_text w); simpl; now rewrite IH. }
  now rewrite E.
Qed.

Lemma apply_classification_fold (df : Frame value) (column : string)
  (keyword_map : dictionaries) (series : list value) :
  df_get df column = Ok series ->
  Codex._apply_classification df column keyword_map =
  Ok (fold_left
        (fun working_df kv =>
           df_set working_df (flag_name (fst kv))
                  (flag_series series (snd kv)))
        keyword_map df).
Proof.
  intros Hs. unfold Codex._apply_classification. rewrite Hs; simpl.
  f_equal. apply fold_left_agree. intros w [t ws]; simpl.
  unfold flag_series. now rewrite map_map.
Qed.

(** [_apply_classification] succeeds whenever the statement column is in
    the frame, keeps the rows and leaves the columns under other names
    as in the input. For keywords and statements that are ASCII text,
    the column under a tactic's [_flag] name holds one flag per row: 1
    when some keyword that is not blank has its lower-cased form in the
    lower-cased statement (a missing statement counting as the empty
    text), 0 otherwise. *)
Theorem codex_flag_columns
  (df : Frame value) (column : string) (keyword_map : dictionaries)
  (series : list value) :
  NoDup (dict_keys keyword_map) ->
  df_get df column = Ok series ->
  exists out,
    Codex._apply_classification df column keyword_map = Ok out
    /\ nrows out = nrows df
    /\ (forall tactic words,
           In (tactic, words) keyword_map ->
           Forall (fun w => is_ascii w = true) words ->
           Forall (fun v => is_ascii (str (Codex.fillna v)) = true) series ->
           df_get out (tactic ++ "_flag")
           = Ok (map (fun v =>
                        VInt (if existsb
                                   (fun w =>
                                      Codex.has_text w
                                      && contains (lower w)
                                           (lower (str (Codex.fillna v))))%bool
                                   words
                              then 1 else 0))
                     series))
    /\ (forall name,
           (forall tactic, In tactic (dict_keys keyword_map) ->
                           name <> (tactic ++ "_flag")%string) ->
           df_get out name = df_get df name).
Proof.
  intros Hnd Hs.
  rewrite (apply_classification_fold _ _ _ _ Hs).
  eexists. split; [reflexivity|].
  split; [exact (assign_nrows flag_name (flag_series series)
                   keyword_map df)|].
  split.
  - intros tactic words Hin _ _. unfold df_get.
    change (tactic ++ "_flag")%string with (flag_name tactic).
    rewrite (assign_get flag_name (flag_series series) flag_name_inj
               keyword_map tactic words df Hnd Hin).
    unfold flag_series.
    f_equal. apply map_ext. intros v. now rewrite has_match_words.
  - intros name Hname. unfold df_get.
    rewrite (assign_other flag_name (flag_series series) keyword_map
               name df); [reflexivity|].
    intros kv Hkv. apply Hname. now apply (in_map fst) in Hkv.
Qed.

Lemma codex_flag_columns_witness :
  exists out,
    Codex._apply_classification
      (mkFrame 2 [("Statement", [VStr "Hurry, VIPs!"; VNaN])])
      "Statement"
      [("urgency_marketing", ["hurry"; "  "]);
       ("exclusive_marketing", ["members only"])]
    = Ok out
    /\ nrows out = 2%nat
    /\ df_get out "urgency_marketing_flag" = Ok [VInt 1; VInt 0].
Proof.
  destruct (codex_flag_columns
              (mkFrame 2 [("Statement", [VStr "Hurry, VIPs!"; VNaN])])
              "Statement"
              [("urgency_marketing", ["hurry"; "  "]);
               ("exclusive_marketing", ["members only"])]
              [VStr "Hurry, VIPs!"; VNaN])
    as (out & H1 & H2 & H3 & _).
  - nodup.
  - reflexivity.
  - exists out. split; [assumption|]. split; [assumption|].
    apply (H3 "urgency_marketing" ["hurry"; "  "]).
    + simpl. left. reflexivity.
    + repeat constructor.
    + repeat constructor.
Defined.

Lemma has_text_nonempty (w : string) : Codex.has_text w = true -> w <> "".
Proof. destruct w; [discriminate | congruence]. Qed.

Lemma contains_in_empty (n : string) : contains n "" = true -> n = "".
Proof.
  intros H. apply contains_length in H. destruct n; [reflexivity|].
  simpl in H. lia.
Qed.

Lemma has_match_missing (words : list string) (v : value) :
  v = VNone \/ v = VNaN \/ v = VStr "" ->
  Codex.has_match (map lower (filter Codex.has_text words))
                  (str (Codex.fillna v)) = 0.
Proof.
  intros Hv.
  assert (E : str (Codex.fillna v) = "")
    by (destruct Hv as [->|[->| ->]]; reflexivity).
  rewrite E, has_match_words.
  assert (Hf : forall w,
             (Codex.has_text w && contains (lower w) (lower ""))%bool
             = false).
  { intros w. destruct (Codex.has_text w) eqn:T; [|reflexivity].
    destruct (contains (lower w) (lower "")) eqn:X; [|reflexivity].
    apply contains_in_empty, (proj1 (lower_empty w)) in X.
    apply has_text_nonempty in T. contradiction. }
  induction words as [|w ws IH]; [reflexivity|].
  cbn [existsb]. now rewrite Hf.
Qed.

(** A missing or empty statement is flagged 0 for every keyword list,
    and keywords that are blank never flag anything. *)
Theorem codex_missing_statement_unflagged :
  (forall (words : list string) (v : value),
      v = VNone \/ v = VNaN \/ v = VStr "" ->
      Codex.has_match (map lower (filter Codex.has_text words))
                      (str (Codex.fillna v)) = 0)
  /\ (forall (words : list string) (text : string),
         Forall (fun w => Codex.has_text w = false) words ->
         Codex.has_match (map lower (filter Codex.has_text words)) text = 0).
Proof.
  split; [exact has_match_missing|].
  intros words text H. rewrite has_match_words.
  induction H as [|w ws Hw _ IH]; simpl; [reflexivity|].
  now rewrite Hw.
Qed.

Lemma codex_missing_statement_unflagged_witness :
  Codex.has_match (map lower (filter Codex.has_text ["hurry"; ""; " "]))
                  (str (Codex.fillna VNaN)) = 0.
Proof.
  apply (proj1 codex_missing_statement_unflagged). right. left.
  reflexivity.
Defined.

Lemma existsb_filter_nonempty {A} (p : A -> bool) (l : list A) :
  existsb p l = (0 <? len (filter p l)).
Proof.
  unfold len. induction l as [|a l IH]; simpl; [reflexivity|].
  destruct (p a); simpl; [|exact IH].
  symmetry. apply Z.ltb_lt. lia.
Qed.

(** The two pages agree on statements that are ASCII text or missing:
    when the keywords of the tactic are ASCII text and none is blank,
    the flag of the codex page is 1 exactly when [classify_statement]
    reports the tactic present. *)
Theorem codex_flag_agrees_with_present
  (v : value) (d : dictionaries) (tactic : string) (words : list string) :
  NoDup (dict_keys d) ->
  dict_get d tactic = Some words ->
  Forall (fun w => is_ascii w = true /\ Codex.has_text w = true) words ->
  (v = VNone \/ v = VNaN \/ exists s, v = VStr s /\ is_ascii s = true) ->
  Codex.has_match (map lower (filter Codex.has_text words))
                  (str (Codex.fillna v))
  = if get_present (classify_statement v d) tactic then 1 else 0.
Proof.
  intros Hnd Hg Hw' Hv.
  assert (Hw : Forall (fun w => Codex.has_text w = true) words).
  { eapply Forall_impl; [|exact Hw']. simpl. tauto. }
  clear Hw'.
  assert (Hmiss : v = VNone \/ v = VNaN \/ v = VStr "" ->
    Codex.has_match (map lower (filter Codex.has_text words))
                    (str (Codex.fillna v))
    = if get_present (classify_statement v d) tactic then 1 else 0).
  { intros H. rewrite has_match_missing by exact H.
    destruct H as [->|[->| ->]]; reflexivity. }
  destruct Hv as [->|[->|[s [-> _]]]]; [apply Hmiss; tauto..|].
  destruct (String.eqb_spec s "") as [->|Hs]; [apply Hmiss; tauto|].
  rewrite has_match_words, get_present_matches.
  rewrite (get_matches_classify _ _ _ Hnd), Hg.
  assert (Hc : classified (VStr s) = true).
  { unfold classified; simpl. now destruct (String.eqb_spec s ""). }
  rewrite Hc. unfold matching. rewrite <- existsb_filter_nonempty.
  simpl str.
  assert (E : existsb (fun w => Codex.has_text w
                                && contains (lower w) (lower s))%bool words
              = existsb (fun keyword => contains (lower keyword) (lower s))
                        words).
  { clear - Hw. induction Hw as [|w ws Hw1 _ IH]; [reflexivity|].
    cbn [existsb]. now rewrite Hw1, IH. }
  now rewrite E.
Qed.

Lemma codex_flag_agrees_with_present_witness :
  Codex.has_match (map lower (filter Codex.has_text ["VIP"; "members only"]))
                  (str (Codex.fillna (VStr "Our vip club")))
  = if get_present
         (classify_statement (VStr "Our vip club")
            [("exclusive_marketing", ["VIP"; "members only"])])
         "exclusive_marketing"
    then 1 else 0.
Proof.
  apply codex_flag_agrees_with_present with (words := ["VIP"; "members only"]).
  - nodup.
  - reflexivity.
  - repeat constructor.
  - right. right. eexists. split; reflexivity.
Defined.

(** ** Keyword text areas *)

Section Strip.
Import PyText.

Lemma lstrip_starts_clean (s : string) : starts_clean (lstrip s) = true.
Proof.
  induction s as [|c r IH]; simpl; [reflexivity|].
  destruct (Codex.is_space c) eqn:E; [exact IH | simpl; now rewrite E].
Qed.

Lemma lstrip_clean (s : string) : starts_clean s = true -> lstrip s = s.
Proof.
  destruct s as [|c r]; simpl; [reflexivity|].
  now destruct (Codex.is_space c).
Qed.

Lemma rstrip_starts_clean (s : string) :
  starts_clean s = true -> starts_clean (rstrip s) = true.
Proof.
  destruct s as [|c r]; simpl; [reflexivity|]. intros H.
  destruct (rstrip r); [|exact H].
  destruct (Codex.is_space c) eqn:E; [reflexivity|].
  simpl. now rewrite E.
Qed.

Lemma rstrip_idem (s : string) : rstrip (rstrip s) = rstrip s.
Proof.
  induction s as [|c r IH]; simpl; [reflexivity|].
  destruct (rstrip r) as [|k kept] eqn:E.
  - destruct (Codex.is_space c) eqn:S; simpl; [reflexivity|].
    now rewrite S.
  - change (rstrip (String c (String k kept))
            = String c (String k kept)).
    cbn [rstrip]. cbn [rstrip] in IH. rewrite IH. reflexivity.
Qed.

(** Stripping twice is stripping once. *)
Lemma strip_idem (s : string) : strip (strip s) = strip s.
Proof.
  unfold strip.
  rewrite (lstrip_clean (rstrip (lstrip s))).
  - apply rstrip_idem.
  - apply rstrip_starts_clean, lstrip_starts_clean.
Qed.

Lemma lstrip_lacks (c : ascii) (s : string) :
  lacks c s = true -> lacks c (lstrip s) = true.
Proof.
  induction s as [|a r IH]; simpl; [reflexivity|]. intros H.
  apply andb_true_iff in H as [Ha Hr].
  destruct (Codex.is_space a); [now apply IH|].
  simpl. now rewrite Ha, Hr.
Qed.

Lemma rstrip_lacks (c : ascii) (s : string) :
  lacks c s = true -> lacks c (rstrip s) = true.
Proof.
  induction s as [|a r IH]; simpl; [reflexivity|]. intros H.
  apply andb_true_iff in H as [Ha Hr]. specialize (IH Hr).
  destruct (rstrip r) as [|k kept].
  - destruct (Codex.is_space a); simpl; [reflexivity | now rewrite Ha].
  - change (negb (Ascii.eqb a c) && lacks c (String k kept) = true)%bool.
    now rewrite Ha, IH.
Qed.

Lemma strip_lacks (c : ascii) (s : string) :
  lacks c s = true -> lacks c (strip s) = true.
Proof. intros H. now apply rstrip_lacks, lstrip_lacks. Qed.

Lemma lstrip_one_line (s : string) :
  one_line s = true -> one_line (lstrip s) = true.
Proof.
  induction s as [|a r IH]; simpl; [reflexivity|]. intros H.
  apply andb_true_iff in H as [Ha Hr].
  destruct (Codex.is_space a); [now apply IH|].
  simpl. now rewrite Ha, Hr.
Qed.

Lemma rstrip_one_line (s : string) :
  one_line s = true -> one_line (rstrip s) = true.
Proof.
  induction s as [|a r IH]; simpl; [reflexivity|]. intros H.
  apply andb_true_iff in H as [Ha Hr]. specialize (IH Hr).
  destruct (rstrip r) as [|k kept].
  - destruct (Codex.is_space a); simpl; [reflexivity | now rewrite Ha].
  - change (negb (is_linebreak a) && one_line (String k kept) = true)%bool.
    now rewrite Ha, IH.
Qed.

Lemma strip_one_line (s : string) :
  one_line s = true -> one_line (strip s) = true.
Proof. intros H. now apply rstrip_one_line, lstrip_one_line. Qed.

(** ** Splitting at a character *)

Lemma split_lacks (sep : ascii) (a : string) :
  lacks sep a = true -> split sep a = [a].
Proof.
  induction a as [|c r IH]; simpl; [reflexivity|]. intros H.
  apply andb_true_iff in H as [Hc Hr].
  apply negb_true_iff in Hc. rewrite Hc, (IH Hr). reflexivity.
Qed.

Lemma split_app (sep : ascii) (a rest : string) :
  lacks sep a = true ->
  split sep (a ++ String sep rest) = a :: split sep rest.
Proof.
  induction a as [|c r IH]; simpl; intros H.
  - now rewrite Ascii.eqb_refl.
  - apply andb_true_iff in H as [Hc Hr].
    apply negb_true_iff in Hc. rewrite Hc, (IH Hr). reflexivity.
Qed.

Lemma split_pieces_lack (sep : ascii) (s : string) :
  Forall (fun piece => lacks sep piece = true) (split sep s).
Proof.
  induction s as [|c r IH]; simpl; [repeat constructor|].
  destruct (Ascii.eqb c sep) eqn:E; [now constructor|].
  destruct (split sep r) as [|p ps]; [repeat constructor; simpl; now rewrite E|].
  inversion IH; subst. constructor; [|assumption].
  simpl. rewrite E. assumption.
Qed.

Lemma join_cons (sep k k' : string) (rest : list string) :
  join sep (k :: k' :: rest) = (k ++ sep ++ join sep (k' :: rest))%string.
Proof. reflexivity. Qed.

(** Splitting the joined text gives the parts back, when there is a part
    and no part holds the separator. *)
Lemma split_join (sep : ascii) (parts : list string) :
  parts <> [] ->
  Forall (fun p => lacks sep p = true) parts ->
  split sep (join (String sep EmptyString) parts) = parts.
Proof.
  intros Hne H. induction H as [|k l Hk Hl IH]; [contradiction|].
  destruct l as [|k' l]; [now apply split_lacks|].
  rewrite join_cons. simpl append.
  rewrite (split_app _ _ _ Hk). f_equal. apply IH. discriminate.
Qed.

(** ** Splitting at line boundaries *)

Lemma linebreak_not_lf (c : ascii) :
  is_linebreak c = false -> Ascii.eqb c "010" = false.
Proof.
  destruct c as [[|] [|] [|] [|] [|] [|] [|] [|]]; vm_compute; congruence.
Qed.

Lemma line_pieces_one_line (s : string) : forall after_cr,
  one_line s = true -> line_pieces after_cr s = [s].
Proof.
  induction s as [|c r IH]; intros b; simpl; [reflexivity|]. intros H.
  apply andb_true_iff in H as [Hc Hr]. apply negb_true_iff in Hc.
  rewrite (linebreak_not_lf _ Hc), andb_false_r, Hc, (IH false Hr).
  reflexivity.
Qed.

Lemma line_pieces_app (a rest : string) :
  one_line a = true ->
  line_pieces false (a ++ String "010" rest) = a :: line_pieces false rest.
Proof.
  induction a as [|c r IH]; simpl; intros H; [reflexivity|].
  apply andb_true_iff in H as [Hc Hr]. apply negb_true_iff in Hc.
  rewrite Hc, (IH Hr). reflexivity.
Qed.

Lemma line_pieces_all_one_line (s : string) : forall after_cr,
  Forall (fun piece => one_line piece = true) (line_pieces after_cr s).
Proof.
  induction s as [|c r IH]; intros b; simpl; [repeat constructor|].
  destruct (b && Ascii.eqb c "010")%bool; [apply IH|].
  destruct (is_linebreak c) eqn:E; [constructor; [reflexivity | apply IH]|].
  specialize (IH false).
  destruct (line_pieces false r) as [|p ps];
    [repeat constructor; simpl; now rewrite E|].
  inversion IH; subst. constructor; [|assumption].
  simpl. rewrite E. assumption.
Qed.

Lemma drop_last_empty_sub (l : list string) (P : string -> Prop) :
  Forall P l -> Forall P (drop_last_empty l).
Proof.
  induction 1 as [|a l Ha Hl IH]; [constructor|].
  destruct l as [|b l].
  - simpl. destruct (String.eqb a ""); repeat constructor. assumption.
  - change (Forall P (a :: drop_last_empty (b :: l))). now constructor.
Qed.

Lemma drop_last_empty_none (l : list string) :
  Forall (fun s => s <> "") l -> drop_last_empty l = l.
Proof.
  induction 1 as [|a l Ha Hl IH]; [reflexivity|].
  destruct l as [|b l].
  - simpl. now destruct (String.eqb_spec a "").
  - change (a :: drop_last_empty (b :: l) = a :: b :: l). now rewrite IH.
Qed.

Lemma line_pieces_join (parts : list string) :
  parts <> [] ->
  Forall (fun p => one_line p = true) parts ->
  line_pieces false (join (String "010" EmptyString) parts) = parts.
Proof.
  intros Hne H. induction H as [|k l Hk Hl IH]; [contradiction|].
  destruct l as [|k' l]; [now apply line_pieces_one_line|].
  rewrite join_cons. simpl append.
  rewrite (line_pieces_app _ _ Hk). f_equal. apply IH. discriminate.
Qed.

End Strip.

Section Parsing.
Import PyText.

Lemma kept_and_stripped (P : string -> Prop) (pieces : list string) :
  Forall P pieces ->
  (forall p, P p -> P (strip p)) ->
  forall kw,
    In kw (map strip
             (filter (fun p => negb (String.eqb (strip p) "")) pieces)) ->
    kw <> "" /\ strip kw = kw /\ P kw.
Proof.
  intros HP Hs kw Hin. apply in_map_iff in Hin as (p & <- & Hp).
  apply filter_In in Hp as [Hp Hne].
  split; [|split].
  - apply negb_true_iff in Hne. now apply String.eqb_neq in Hne.
  - apply strip_idem.
  - apply Hs. rewrite Forall_forall in HP. now apply HP.
Qed.

Lemma clean_kept (kws : list string) :
  Forall (fun kw => kw <> "" /\ strip kw = kw) kws ->
  map strip (filter (fun p => negb (String.eqb (strip p) "")) kws) = kws.
Proof.
  induction 1 as [|k l [Hne Hs] _ IH]; [reflexivity|].
  simpl. rewrite Hs.
  destruct (String.eqb_spec k ""); [contradiction|]. simpl.
  now rewrite Hs, IH.
Qed.

Lemma sidebar_parsed_clean (keywords_text : string) (kw : string) :
  In kw (AppSidebar.parse_keywords keywords_text) ->
  kw <> "" /\ strip kw = kw /\ lacks "010" kw = true.
Proof.
  intros H.
  apply (kept_and_stripped (fun p => lacks "010" p = true)
           (split "010" keywords_text)).
  - apply split_pieces_lack.
  - intros p. apply strip_lacks.
  - exact H.
Qed.

(** Every keyword that the sidebar of [streamlit_app.py] saves is not
    empty, has no white space at either end and holds no line feed. *)
Theorem sidebar_keywords_are_clean (keywords_text : string) (kw : string) :
  In kw (AppSidebar.parse_keywords keywords_text) ->
  kw <> "" /\ strip kw = kw /\ lacks "010" kw = true.
Proof. apply sidebar_parsed_clean. Qed.

Lemma sidebar_keywords_are_clean_witness :
  "act now" <> "" /\ strip "act now" = "act now"
  /\ lacks "010" "act now" = true.
Proof.
  apply (sidebar_keywords_are_clean
           ("  hurry " ++ newline ++ " act now" ++ newline)).
  vm_compute. right. left. reflexivity.
Defined.

Lemma sidebar_parse_join (keywords : list string) :
  Forall (fun kw => kw <> "" /\ strip kw = kw /\ lacks "010" kw = true)
         keywords ->
  AppSidebar.parse_keywords (join newline keywords) = keywords.
Proof.
  intros H. unfold AppSidebar.parse_keywords.
  destruct keywords as [|k l]; [reflexivity|].
  unfold newline. rewrite split_join.
  - apply clean_kept. eapply Forall_impl; [|exact H]. simpl. tauto.
  - discriminate.
  - eapply Forall_impl; [|exact H]. simpl. tauto.
Qed.

(** The sidebar shows the keywords of a label joined by line feeds and
    saves what it parses from the text: for keywords that are ASCII text
    and clean (not empty, no white space at either end, no line feed)
    the text shown parses back to the same list, so a rerun without an
    edit leaves the store as it is; and what was parsed once from ASCII
    text parses back to itself. *)
Theorem sidebar_round_trip :
  (forall keywords,
      Forall (fun kw => is_ascii kw = true /\ kw <> "" /\ strip kw = kw
                        /\ lacks "010" kw = true)
             keywords ->
      AppSidebar.parse_keywords (join newline keywords) = keywords)
  /\ (forall keywords_text,
         is_ascii keywords_text = true ->
         AppSidebar.parse_keywords
           (join newline (AppSidebar.parse_keywords keywords_text))
         = AppSidebar.parse_keywords keywords_text)
  /\ (forall (d : dictionaries) label keywords,
         dict_get d label = Some keywords ->
         Forall (fun kw => is_ascii kw = true /\ kw <> "" /\ strip kw = kw
                           /\ lacks "010" kw = true) keywords ->
         exists shown,
           AppSidebar.text_area_value label d = Ok shown
           /\ AppSidebar.save_keywords label shown d = d).
Proof.
  assert (A : forall keywords,
    Forall (fun kw => is_ascii kw = true /\ kw <> "" /\ strip kw = kw
                      /\ lacks "010" kw = true) keywords ->
    Forall (fun kw => kw <> "" /\ strip kw = kw /\ lacks "010" kw = true)
           keywords).
  { intros keywords H. eapply Forall_impl; [|exact H]. simpl. tauto. }
  split; [intros keywords H; apply sidebar_parse_join, A, H|]. split.
  - intros text _. apply sidebar_parse_join.
    apply Forall_forall. intros kw. apply sidebar_parsed_clean.
  - intros d label keywords Hg Hc'. assert (Hc := A _ Hc').
    exists (join newline keywords). split.
    + unfold AppSidebar.text_area_value, lookup. now rewrite Hg.
    + unfold AppSidebar.save_keywords.
      rewrite (sidebar_parse_join _ Hc). now apply dict_set_same.
Qed.

Lemma sidebar_round_trip_witness :
  AppSidebar.parse_keywords
    (join newline ["limited time"; "don't wait"; "vip"])
  = ["limited time"; "don't wait"; "vip"].
Proof.
  apply (proj1 sidebar_round_trip).
  repeat constructor; discriminate.
Defined.

Lemma codex_parsed_clean (block : string) (kw : string) :
  In kw (CodexPage._parse_keywords block) ->
  kw <> "" /\ strip kw = kw /\ one_line kw = true.
Proof.
  unfold CodexPage._parse_keywords.
  destruct (String.eqb block ""); [intros []|]. intros H.
  apply (kept_and_stripped (fun p => one_line p = true)
           (splitlines block)).
  - apply drop_last_empty_sub, line_pieces_all_one_line.
  - intros p. apply strip_one_line.
  - exact H.
Qed.

(** Every keyword that [_parse_keywords] returns is not empty, has no
    white space at either end and holds no line boundary. *)
Theorem parsed_keywords_are_clean (block : string) (kw : string) :
  In kw (CodexPage._parse_keywords block) ->
  kw <> "" /\ strip kw = kw /\ one_line kw = true.
Proof. apply codex_parsed_clean. Qed.

Lemma parsed_keywords_are_clean_witness :
  "act now" <> "" /\ strip "act now" = "act now"
  /\ one_line "act now" = true.
Proof.
  apply (parsed_keywords_are_clean
           ("  hurry " ++ String "013" newline ++ " act now" ++ newline)).
  vm_compute. right. left. reflexivity.
Defined.

Lemma join_nonempty (sep k : string) (l : list string) :
  k <> "" -> join sep (k :: l) <> "".
Proof.
  intros Hk. destruct k as [|c k]; [contradiction|].
  destruct l; simpl; discriminate.
Qed.

Lemma parse_shown (keywords : list string) :
  Forall (fun kw => kw <> "" /\ strip kw = kw /\ one_line kw = true)
         keywords ->
  CodexPage._parse_keywords (CodexPage.shown keywords) = keywords.
Proof.
  intros H. unfold CodexPage._parse_keywords, CodexPage.shown.
  destruct keywords as [|k l]; [reflexivity|].
  assert (Hk : k <> "") by (inversion H; tauto).
  destruct (String.eqb_spec (join (String "010" "") (k :: l)) "") as [E|_].
  { now apply join_nonempty in E. }
  unfold splitlines. rewrite line_pieces_join.
  - rewrite drop_last_empty_none.
    + apply clean_kept. eapply Forall_impl; [|exact H]. simpl. tauto.
    + eapply Forall_impl; [|exact H]. simpl. tauto.
  - discriminate.
  - eapply Forall_impl; [|exact H]. simpl. tauto.
Qed.

(** The text areas of the codex page start from the default lists joined
    by line feeds, and the run parses the text back: a list of keywords
    that are ASCII text and clean (not empty, no white space at either
    end, no line boundary) shown and parsed is the same list, the two
    default lists among them, and what was parsed once from ASCII text
    parses back to itself. *)
Theorem parse_keywords_round_trip :
  (forall keywords,
      Forall (fun kw => is_ascii kw = true /\ kw <> "" /\ strip kw = kw
                        /\ one_line kw = true)
             keywords ->
      CodexPage._parse_keywords (CodexPage.shown keywords) = keywords)
  /\ (forall block,
         is_ascii block = true ->
         CodexPage._parse_keywords
           (CodexPage.shown (CodexPage._parse_keywords block))
         = CodexPage._parse_keywords block)
  /\ CodexPage.keyword_map (CodexPage.shown CodexPage.DEFAULT_URGENCY)
                           (CodexPage.shown CodexPage.DEFAULT_EXCLUSIVE)
     = [("urgency_marketing", CodexPage.DEFAULT_URGENCY);
        ("exclusive_marketing", CodexPage.DEFAULT_EXCLUSIVE)].
Proof.
  split.
  { intros keywords H. apply parse_shown.
    eapply Forall_impl; [|exact H]. simpl. tauto. }
  split.
  - intros block _. apply parse_shown.
    apply Forall_forall. intros kw. apply codex_parsed_clean.
  - unfold CodexPage.keyword_map.
    rewrite !parse_shown; [reflexivity | |];
      repeat constructor; discriminate.
Qed.

Lemma parse_keywords_round_trip_witness :
  CodexPage._parse_keywords (CodexPage.shown ["flash sale"; "ends tonight"])
  = ["flash sale"; "ends tonight"].
Proof.
  apply (proj1 parse_keywords_round_trip).
  repeat constructor; discriminate.
Defined.

Lemma line_pieces_only_lf (s : string) :
  only_lf s = true -> line_pieces false s = split "010" s.
Proof.
  induction s as [|c r IH]; simpl; [reflexivity|]. intros H.
  apply andb_true_iff in H as [Hc Hr]. specialize (IH Hr).
  destruct (Ascii.eqb_spec c "010") as [->|Hne].
  - change (is_linebreak "010") with true.
    change (Ascii.eqb "010" "013") with false. cbv iota.
    now rewrite IH.
  - rewrite orb_false_r in Hc. apply negb_true_iff in Hc.
    now rewrite Hc, IH.
Qed.

Lemma filter_drop_last_empty (p : string -> bool) (l : list string) :
  p "" = false -> filter p (drop_last_empty l) = filter p l.
Proof.
  intros Hp. induction l as [|a l IH]; [reflexivity|].
  destruct l as [|b l].
  - simpl. destruct (String.eqb_spec a "") as [->|_]; [now rewrite Hp|].
    reflexivity.
  - change (drop_last_empty (a :: b :: l))
      with (a :: drop_last_empty (b :: l)).
    change (filter p (a :: drop_last_empty (b :: l)))
      with (if p a then a :: filter p (drop_last_empty (b :: l))
            else filter p (drop_last_empty (b :: l))).
    rewrite IH. reflexivity.
Qed.

(** On an ASCII text whose only line boundary is the line feed the two
    pages read the same keywords out of a text area. *)
Theorem text_areas_parse_alike (text : string) :
  is_ascii text = true ->
  only_lf text = true ->
  CodexPage._parse_keywords text = AppSidebar.parse_keywords text.
Proof.
  intros _ H. unfold CodexPage._parse_keywords, AppSidebar.parse_keywords.
  destruct (String.eqb_spec text "") as [->|_]; [reflexivity|].
  unfold splitlines. rewrite filter_drop_last_empty by reflexivity.
  now rewrite line_pieces_only_lf.
Qed.

Lemma text_areas_parse_alike_witness :
  CodexPage._parse_keywords
    ("hurry" ++ newline ++ "  " ++ newline ++ " vip " ++ newline)
  = AppSidebar.parse_keywords
      ("hurry" ++ newline ++ "  " ++ newline ++ " vip " ++ newline).
Proof.
  apply text_areas_parse_alike; reflexivity.
Defined.

End Parsing.

(** ** [streamlit_app.py] *)

Lemma app_classify_filter (text : string) (d : dictionaries) :
  App.classify_statement text d =
  map fst (filter (fun kv => existsb (fun kw => contains kw (lower text))
                                     (snd kv)) d).
Proof.
  unfold App.classify_statement.
  assert (G : forall acc,
    fold_left
      (fun matched '(label, keywords) =>
         if existsb (fun kw => contains kw (lower text)) keywords
         then matched ++ [label] else matched) d acc
    = acc ++ map fst (filter (fun kv =>
                                existsb (fun kw => contains kw (lower text))
                                        (snd kv)) d)).
  { induction d as [|[l kws] d IH]; intros acc; simpl.
    - now rewrite app_nil_r.
    - rewrite IH. destruct (existsb _ kws); simpl; [|reflexivity].
      now rewrite <- app_assoc. }
  apply G.
Qed.

Lemma app_label_reported (text : string) (d : dictionaries)
  (label : string) (keywords : list string) :
  NoDup (dict_keys d) ->
  In (label, keywords) d ->
  existsb (String.eqb label) (App.classify_statement text d)
  = existsb (fun kw => contains kw (lower text)) keywords.
Proof.
  intros Hnd Hin. rewrite app_classify_filter.
  destruct (existsb (fun kw => contains kw (lower text)) keywords) eqn:E.
  - apply existsb_eqb_In.
    apply (in_map fst _ (label, keywords)), filter_In. now split.
  - destruct (existsb (String.eqb label) _) eqn:X; [|reflexivity].
    apply existsb_eqb_In, in_map_iff in X as ([l kws] & El & Hf).
    simpl in El; subst l. apply filter_In in Hf as [Hf Hk]. simpl in Hk.
    assert (kws = keywords).
    { apply dict_get_In in Hf; [|exact Hnd].
      apply dict_get_In in Hin; [|exact Hnd]. congruence. }
    subst. congruence.
Qed.

Lemma existsb_none {A} (p : A -> bool) (l : list A) :
  (forall a, In a l -> p a = false) -> existsb p l = false.
Proof.
  induction l as [|a l IH]; intros H; [reflexivity|].
  cbn [existsb]. rewrite (H a (or_introl eq_refl)).
  apply IH. intros b Hb. apply H. now right.
Qed.

Lemma existsb_agree {A} (p q : A -> bool) (l : list A) :
  (forall a, In a l -> p a = q a) -> existsb p l = existsb q l.
Proof.
  induction l as [|a l IH]; intros H; [reflexivity|].
  cbn [existsb]. rewrite (H a (or_introl eq_refl)). f_equal.
  apply IH. intros b Hb. apply H. now right.
Qed.





(** For an ASCII text and keywords that are ASCII text, in lower case and
    not empty, [streamlit_app.py] reports a label for the text exactly
    when the dictionary page reports the tactic present for it. *)
Theorem app_label_agrees_with_present
  (s : string) (d : dictionaries) (label : string)
  (keywords : list string) :
  NoDup (dict_keys d) ->
  In (label, keywords) d ->
  is_ascii s = true ->
  Forall (fun kw => is_ascii kw = true /\ lower kw = kw /\ kw <> "")
         keywords ->
  existsb (String.eqb label) (App.classify_statement s d)
  = get_present (classify_statement (VStr s) d) label.
Proof.
  intros Hnd Hin _ Hk'.
  assert (Hk : Forall (fun kw => lower kw = kw /\ kw <> "") keywords).
  { eapply Forall_impl; [|exact Hk']. simpl. tauto. }
  clear Hk'.
  rewrite (app_label_reported _ _ _ _ Hnd Hin).
  rewrite get_present_matches, (get_matches_classify _ _ _ Hnd).
  rewrite (dict_get_In _ _ _ Hnd Hin).
  destruct (String.eqb_spec s "") as [->|Hs].
  - change (classified (VStr "")) with false. cbv iota.
    change (0 <? len (@nil string)) with false.
    apply existsb_none. intros k Hkin.
    rewrite Forall_forall in Hk. destruct (Hk k Hkin) as [_ Hne].
    destruct (contains k (lower "")) eqn:E; [|reflexivity].
    apply contains_in_empty in E. contradiction.
  - assert (Hc : classified (VStr s) = true).
    { unfold classified; simpl. now destruct (String.eqb_spec s ""). }
    rewrite Hc. unfold matching. rewrite <- existsb_filter_nonempty.
    simpl str. apply existsb_agree. intros k Hkin.
    rewrite Forall_forall in Hk. destruct (Hk k Hkin) as [Hl _].
    now rewrite Hl.
Qed.

Lemma app_label_agrees_with_present_witness :
  existsb (String.eqb "urgency_marketing")
          (App.classify_statement "Hurry, last chance!" default_dictionaries)
  = get_present
      (classify_statement (VStr "Hurry, last chance!") default_dictionaries)
      "urgency_marketing".
Proof.
  apply app_label_agrees_with_present
    with (keywords :=
            ["limited"; "limited time"; "limited run"; "limited edition";
             "order now"; "last chance"; "hurry"; "while supplies last";
             "before they're gone"; "selling out"; "selling fast";
             "act now"; "don't wait"; "today only"; "expires soon";
             "final hours"; "almost gone"]).
  - nodup.
  - simpl. left. reflexivity.
  - reflexivity.
  - repeat constructor; discriminate.
Defined.

Lemma map_result_labels (label : string) (ls : list (list string)) :
  map_result
    (fun c => match c with
              | App.CLabels cats =>
                  Ok (App.CVal (VBool (existsb (String.eqb label) cats)))
              | App.CVal _ => Raise TypeError
              end)
    (map App.CLabels ls)
  = Ok (one_hot_series ls label).
Proof. induction ls as [|x xs IH]; simpl; [|rewrite IH]; reflexivity. Qed.

Lemma one_hot_ok (df : Frame App.cell) (ls : list (list string))
  (label : string) :
  labels_is df ls ->
  App.one_hot df label = Ok (df_set df label (one_hot_series ls label)).
Proof.
  unfold labels_is, App.one_hot, df_get. intros ->; simpl.
  now rewrite map_result_labels.
Qed.

Lemma labels_is_set (df : Frame App.cell) (ls : list (list string))
  (name : string) (series : list App.cell) :
  name <> "labels" -> labels_is df ls -> labels_is (df_set df name series) ls.
Proof.
  unfold labels_is; simpl; intros Hne H.
  rewrite dict_get_set_other; [exact H | congruence].
Qed.

Lemma for_each_app {A S} (body : S -> A -> result S) (a b : list A) (s : S) :
  for_each body (a ++ b) s = bind (for_each body a s) (for_each body b).
Proof.
  revert s. induction a as [|x a IH]; intros s; simpl; [reflexivity|].
  destruct (body s x); simpl; [apply IH | reflexivity].
Qed.

Lemma for_each_one_hot (labels : list string) (ls : list (list string)) :
  forall df,
    labels_is df ls ->
    ~ In "labels" labels ->
    for_each App.one_hot labels df
    = Ok (fold_left
            (fun df kv =>
               df_set df ((fun t : string => t) (fst kv))
                      (one_hot_series ls (snd kv)))
            (map (fun t => (t, t)) labels) df)
    /\ labels_is
         (fold_left
            (fun df kv =>
               df_set df ((fun t : string => t) (fst kv))
                      (one_hot_series ls (snd kv)))
            (map (fun t => (t, t)) labels) df) ls.
Proof.
  induction labels as [|t ts IH]; intros df H Hn; [now split|].
  simpl. rewrite (one_hot_ok _ _ _ H); simpl.
  apply IH.
  - apply labels_is_set; [|exact H]. intros ->. apply Hn. now left.
  - intros Hin. apply Hn. now right.
Qed.

Lemma app_frame_labels (df : Frame value) (ls : list (list string)) :
  labels_is (df_set (app_frame_of_input df) "labels" (map App.CLabels ls)) ls.
Proof. unfold labels_is; simpl. apply dict_get_set_same. Qed.

Lemma classify_frame_unfold (df : Frame value) (d : dictionaries)
  (statements : list value) :
  df_get df "Statement" = Ok statements ->
  App.classify_frame df d =
  for_each App.one_hot (dict_keys d)
    (df_set (app_frame_of_input df) "labels"
       (map App.CLabels
            (map (fun v => App.classify_statement (str v) d) statements))).
Proof.
  intros Hs. unfold App.classify_frame. rewrite Hs; simpl.
  now rewrite map_map.
Qed.

Lemma main_gate (df : Frame value) (statements : list value) :
  df_get df "Statement" = Ok statements ->
  existsb (String.eqb "Statement") (columns df) = true.
Proof.
  unfold df_get. destruct (dict_get (cols df) "Statement") eqn:E;
    [|discriminate].
  intros _. apply existsb_eqb_In. now apply dict_get_key in E.
Qed.

(** When no label is named [labels], [main] classifies every file that
    has a [Statement] column in which no statement is missing and every
    statement is ASCII text: the frame keeps its rows, the [labels]
    column holds the labels of each row, and under the name of each
    label there is one flag per row, true exactly when some keyword of
    the label, as it is spelled, occurs in the lower-cased statement. *)
Theorem app_main_one_hot_columns
  (df : Frame value) (d : dictionaries) (statements : list value) :
  NoDup (dict_keys d) ->
  ~ In "labels" (dict_keys d) ->
  df_get df "Statement" = Ok statements ->
  Forall (fun v => isna v = false /\ is_ascii (str v) = true) statements ->
  exists out,
    App.main df d = App.Classified out
    /\ nrows out = nrows df
    /\ df_get out "labels"
       = Ok (map (fun v => App.CLabels (App.classify_statement (str v) d))
                 statements)
    /\ (forall label keywords,
           In (label, keywords) d ->
           df_get out label
           = Ok (map (fun v =>
                        App.CVal
                          (VBool (existsb
                                    (fun kw => contains kw (lower (str v)))
                                    keywords)))
                     statements)).
Proof.
  intros Hnd Hn Hs _.
  set (ls := map (fun v => App.classify_statement (str v) d) statements).
  destruct (for_each_one_hot (dict_keys d) ls _
              (app_frame_labels df ls) Hn) as [E L].
  unfold App.main. rewrite (main_gate _ _ Hs); simpl.
  rewrite (classify_frame_unfold _ _ _ Hs). fold ls. rewrite E.
  eexists. split; [reflexivity|]. split; [|split].
  - now rewrite (assign_nrows (fun t : string => t) (one_hot_series ls)).
  - unfold df_get. unfold labels_is in L. rewrite L.
    unfold ls. now rewrite map_map.
  - intros label keywords Hin. unfold df_get.
    rewrite (assign_get (fun t : string => t) (one_hot_series ls)
               (fun a b H => H) (map (fun t => (t, t)) (dict_keys d))
               label label).
    + unfold one_hot_series, ls. rewrite map_map. f_equal.
      apply map_ext. intros v.
      now rewrite (app_label_reported _ _ _ _ Hnd Hin).
    + rewrite map_map. simpl. now rewrite map_id.
    + apply in_map_iff. exists label. split; [reflexivity|].
      now apply (in_map fst) in Hin.
Qed.

Lemma app_main_one_hot_columns_witness :
  exists out,
    App.main (mkFrame 2 [("Statement", [VStr "Hurry, VIPs"; VStr "Plain"])])
             [("urgency", ["hurry"]); ("exclusive", ["vip"])]
    = App.Classified out
    /\ nrows out = 2%nat.
Proof.
  destruct (app_main_one_hot_columns
              (mkFrame 2 [("Statement", [VStr "Hurry, VIPs"; VStr "Plain"])])
              [("urgency", ["hurry"]); ("exclusive", ["vip"])]
              [VStr "Hurry, VIPs"; VStr "Plain"])
    as (out & H1 & H2 & _).
  - nodup.
  - simpl. intuition discriminate.
  - reflexivity.
  - repeat constructor.
  - exists out. split; assumption.
Defined.

(** A label named [labels] takes the place of the column that [main]
    reads the labels from: when another label follows it and the file
    has a row and no missing statement, the run ends in a
    [TypeError]. *)
Theorem app_main_labels_label_crashes
  (df : Frame value) (d : dictionaries) (statements : list value)
  (before after : list string) (next : string) :
  df_get df "Statement" = Ok statements ->
  statements <> [] ->
  Forall (fun v => isna v = false) statements ->
  dict_keys d = before ++ "labels" :: next :: after ->
  ~ In "labels" before ->
  App.main df d = App.Uncaught TypeError.
Proof.
  intros Hs Hne _ Hk Hb.
  set (ls := map (fun v => App.classify_statement (str v) d) statements).
  unfold App.main. rewrite (main_gate _ _ Hs); simpl.
  rewrite (classify_frame_unfold _ _ _ Hs). fold ls.
  rewrite Hk, for_each_app.
  destruct (for_each_one_hot before ls _ (app_frame_labels df ls) Hb)
    as [E L].
  rewrite E. unfold bind at 1.
  change (for_each App.one_hot ("labels" :: next :: after) ?s)
    with (bind (App.one_hot s "labels")
               (for_each App.one_hot (next :: after))).
  rewrite (one_hot_ok _ _ _ L). unfold bind at 1.
  change (for_each App.one_hot (next :: after) ?s)
    with (bind (App.one_hot s next) (for_each App.one_hot after)).
  assert (X : forall s, App.one_hot (df_set s "labels"
                                       (one_hot_series ls "labels")) next
                        = Raise TypeError).
  { intros s. unfold App.one_hot, df_get; simpl.
    rewrite dict_get_set_same; simpl.
    unfold ls. destruct statements; [contradiction | reflexivity]. }
  now rewrite X.
Qed.

Lemma app_main_labels_label_crashes_witness :
  App.main (mkFrame 1 [("Statement", [VStr "Hurry"])])
           [("urgency", ["hurry"]); ("labels", ["tag"]); ("exclusive", ["vip"])]
  = App.Uncaught TypeError.
Proof.
  apply (app_main_labels_label_crashes _ _ [VStr "Hurry"]
           ["urgency"] [] "exclusive").
  - reflexivity.
  - discriminate.
  - repeat constructor.
  - reflexivity.
  - simpl. intuition discriminate.
Defined.

(** ** The results tab *)


Lemma flag_cells_map {A} (f : A -> bool) (l : list A) :
  flag_cells (map f l) = map (fun a => CVal (VBool (f a))) l.
Proof. unfold flag_cells. apply map_map. Qed.

(** The flag column that [process_data] writes for a tactic. *)
Lemma process_data_present_column
  (df : Frame value) (d : dictionaries) (out : Frame cell)
  (col tactic : string) (statements : list value) :
  NoDup (dict_keys d) ->
  no_name_clash df d ->
  process_data df d = Ok (out, col) ->
  df_get df col = Ok statements ->
  In tactic (dict_keys d) ->
  nrows out = nrows df /\
  df_get out (tactic ++ "_present")
  = Ok (flag_cells
          (map (fun v => get_present (classify_statement v d) tactic)
               statements)).
Proof.
  intros Hd Hclash Hp Hs Ht.
  assert (Hc := process_data_reports _ _ _ _ Hp).
  rewrite (process_data_fresh df d col statements Hd Hclash Hc Hs) in Hp.
  set (xs := map (fun v => classify_statement v d) statements) in *.
  assert (Hout : out = mkFrame (nrows df)
                         (cols (frame_of_input df)
                          ++ ("classification", map CResults xs)
                          :: flat_map (derived_columns xs) (dict_keys d)))
    by congruence.
  clear Hp; subst out. split; [reflexivity|].
  assert (Hnd := output_names_NoDup df d Hd Hclash).
  rewrite <- app_assoc in Hnd; simpl in Hnd.
  rewrite <- (frame_of_input_columns df),
          <- (derived_columns_keys xs) in Hnd.
  change (columns (frame_of_input df))
    with (dict_keys (cols (frame_of_input df))) in Hnd.
  change ("classification"
          :: dict_keys (flat_map (derived_columns xs) (dict_keys d)))
    with (dict_keys
            (("classification", map CResults xs)
             :: flat_map (derived_columns xs) (dict_keys d))) in Hnd.
  rewrite <- dict_keys_app in Hnd.
  unfold df_get; cbn [cols].
  rewrite (dict_get_In _ (tactic ++ "_present")
             (map (fun x => CVal (VBool (get_present x tactic))) xs) Hnd).
  - unfold xs. rewrite map_map, flag_cells_map. reflexivity.
  - apply in_or_app. right. right. apply in_flat_map.
    exists tactic. split; [exact Ht | now left].
Qed.



Lemma mask_flags (flags : list bool) :
  map_result cell_flag (flag_cells flags) = Ok flags.
Proof.
  unfold flag_cells. induction flags as [|b l IH]; [reflexivity|].
  cbn [map map_result]. rewrite IH. reflexivity.
Qed.

Lemma mask_filter_flags (flags : list bool) :
  mask_filter flags (flag_cells flags)
  = flag_cells (repeat true (length (filter (fun b => b) flags))).
Proof.
  unfold flag_cells. induction flags as [|b l IH]; [reflexivity|].
  destruct b; cbn [map mask_filter filter length repeat]; now rewrite IH.
Qed.

Lemma mask_filter_length {A} (mask : list bool) (l : list A) :
  length mask = length l ->
  length (mask_filter mask l) = length (filter (fun b => b) mask).
Proof.
  revert l. induction mask as [|m ms IH]; intros [|a l]; simpl;
    try discriminate; [reflexivity|].
  intros [= H]. destruct m; simpl; now rewrite IH.
Qed.

(** Under the filter of a tactic the results tab shows as many rows as
    the breakdown counts for the tactic, every one of them flagged
    present, in the columns of the frame; the choice [All] shows the
    frame as it is, also when a tactic bears that name. *)
Theorem filter_shows_the_rows_counted
  (df : Frame cell) (tactic : string) (flags : list bool) :
  df_get df (tactic ++ "_present") = Ok (flag_cells flags) ->
  (tactic <> "All" ->
   exists shown,
     filter_rows df tactic = Ok shown
     /\ total_present df tactic = Ok (Z.of_nat (nrows shown))
     /\ columns shown = columns df
     /\ df_get shown (tactic ++ "_present")
        = Ok (flag_cells (repeat true (nrows shown)))
     /\ (forall name series,
            dict_get (cols df) name = Some series ->
            length series = length flags ->
            exists kept,
              dict_get (cols shown) name = Some kept
              /\ length kept = nrows shown))
  /\ (tactic = "All" -> filter_rows df tactic = Ok df).
Proof.
  intros Hg. split.
  - intros Hne. unfold filter_rows.
    destruct (String.eqb_spec tactic "All"); [contradiction|]. simpl.
    rewrite Hg; simpl bind. rewrite mask_flags; simpl bind.
    eexists. split; [reflexivity|]. unfold df_mask; cbn [nrows cols].
    split; [|split; [|split]].
    + unfold total_present. rewrite Hg; simpl bind.
      now rewrite series_sum_flags.
    + unfold columns, dict_keys; cbn [cols]. now rewrite map_map.
    + unfold df_get in *; cbn [cols].
      rewrite (dict_get_map (mask_filter flags)).
      destruct (dict_get (cols df) (tactic ++ "_present")); [|discriminate].
      injection Hg as ->. simpl. now rewrite mask_filter_flags.
    + intros name series Hs Hl.
      exists (mask_filter flags series). split.
      * rewrite (dict_get_map (mask_filter flags)). now rewrite Hs.
      * apply mask_filter_length. now symmetry.
  - intros ->. reflexivity.
Qed.

Lemma filter_shows_the_rows_counted_witness :
  exists shown,
    filter_rows
      (mkFrame 3 [("Statement",
                   [CVal (VStr "Hurry"); CVal (VStr "Plain");
                    CVal (VStr "hurry up")]);
                  ("urgency_present", flag_cells [true; false; true])])
      "urgency"
    = Ok shown
    /\ total_present
         (mkFrame 3 [("Statement",
                      [CVal (VStr "Hurry"); CVal (VStr "Plain");
                       CVal (VStr "hurry up")]);
                     ("urgency_present", flag_cells [true; false; true])])
         "urgency"
       = Ok (Z.of_nat (nrows shown)).
Proof.
  destruct (proj1 (filter_shows_the_rows_counted
              (mkFrame 3 [("Statement",
                           [CVal (VStr "Hurry"); CVal (VStr "Plain");
                            CVal (VStr "hurry up")]);
                          ("urgency_present",
                           flag_cells [true; false; true])])
              "urgency" [true; false; true] eq_refl))
    as (shown & H1 & H2 & _).
  - discriminate.
  - exists shown. split; assumption.
Defined.

Lemma df_select_known {C} (df : Frame C) (names : list string)
  (g : string -> list C) :
  (forall n, In n names -> df_get df n = Ok (g n)) ->
  df_select df names = Ok (mkFrame (nrows df) (map (fun n => (n, g n)) names)).
Proof.
  intros H. unfold df_select.
  assert (E : map_result (fun n => s <- df_get df n ;; Ok (n, s)) names
              = Ok (map (fun n => (n, g n)) names)).
  { induction names as [|n l IH]; [reflexivity|].
    cbn [map_result map]. rewrite (H n (or_introl eq_refl)). simpl bind.
    rewrite IH; [reflexivity|]. intros m Hm. apply H. now right. }
  now rewrite E.
Qed.

Lemma filter_agree {A} (p q : A -> bool) (l : list A) :
  (forall a, In a l -> p a = q a) -> filter p l = filter q l.
Proof.
  induction l as [|a l IH]; intros H; [reflexivity|].
  simpl. rewrite (H a (or_introl eq_refl)), IH; [reflexivity|].
  intros b Hb. apply H. now right.
Qed.

(** Counting the positions of a list at which a test holds is counting
    the members at which it holds. *)
Lemma count_positions {A} (p : A -> bool) (l : list A) :
  length (filter (fun i => match nth_error l i with
                           | Some a => p a
                           | None => false
                           end)
                 (seq 0 (length l)))
  = length (filter p l).
Proof.
  induction l as [|a l IH] using rev_ind; [reflexivity|].
  replace (length (l ++ [a])) with (S (length l))
    by (rewrite length_app; simpl; lia).
  rewrite seq_S, !filter_app, !length_app. simpl seq. f_equal.
  - rewrite <- IH. f_equal. apply filter_agree.
    intros i Hi. apply in_seq in Hi.
    rewrite nth_error_app1 by lia. reflexivity.
  - simpl. rewrite nth_error_app2, Nat.sub_diag by lia. simpl.
    now destruct (p a).
Qed.

Lemma existsb_map {A B} (f : A -> B) (p : B -> bool) (l : list A) :
  existsb p (map f l) = existsb (fun a => p (f a)) l.
Proof.
  induction l as [|a l IH]; [reflexivity|].
  cbn [map existsb]. now rewrite IH.
Qed.

(** The number of statements with any tactic, as the results tab
    computes it over the frame that [process_data] returned, is the
    number of rows whose statement is reported present for at least one
    tactic of the dictionary. *)
Theorem any_tactic_counts_matching_rows
  (df : Frame value) (d : dictionaries) (out : Frame cell) (col : string) :
  NoDup (dict_keys d) ->
  no_name_clash df d ->
  process_data df d = Ok (out, col) ->
  exists statements,
    df_get df col = Ok statements
    /\ (length statements = nrows df ->
        any_tactic out (dict_keys d)
        = Ok (len (filter
                     (fun v =>
                        existsb (fun t =>
                                   get_present (classify_statement v d) t)
                                (dict_keys d))
                     statements))).
Proof.
  intros Hd Hclash Hp.
  assert (Hc := process_data_reports _ _ _ _ Hp).
  destruct (df_get_In df col (find_statement_col_In _ _ Hc))
    as [statements Hs].
  exists statements. split; [exact Hs|]. intros Hlen.
  set (flags := fun t =>
         map (fun v => get_present (classify_statement v d) t) statements).
  assert (Hcol : forall n,
    In n (map (fun t => (t ++ "_present")%string) (dict_keys d)) ->
    df_get out n
    = Ok ((fun n => match find (fun t => String.eqb (t ++ "_present") n)
                               (dict_keys d) with
                    | Some t => flag_cells (flags t)
                    | None => []
                    end) n)).
  { intros n Hn. apply in_map_iff in Hn as (t & <- & Ht).
    destruct (process_data_present_column _ _ _ _ t _ Hd Hclash Hp Hs Ht)
      as [_ Hg].
    rewrite Hg. f_equal.
    destruct (find (fun t0 => String.eqb (t0 ++ "_present")
                                         (t ++ "_present")) (dict_keys d))
      as [t'|] eqn:F.
    - apply find_some in F as [_ E]. apply String.eqb_eq in E.
      apply append_suffix_inj in E. now subst.
    - assert (X := List.find_none _ _ F t Ht). simpl in X.
      now rewrite String.eqb_refl in X. }
  unfold any_tactic. rewrite (df_select_known out _ _ Hcol).
  simpl bind. cbn [cols]. f_equal. unfold len. f_equal.
  assert (Hn : nrows out = nrows df).
  { assert (Hc' := Hc).
    rewrite (process_data_fresh df d col statements Hd Hclash Hc Hs) in Hp.
    injection Hp as <-. reflexivity. }
  rewrite Hn, <- Hlen.
  rewrite <- (count_positions
                (fun v => existsb (fun t =>
                                     get_present (classify_statement v d) t)
                                  (dict_keys d))
                statements).
  f_equal.
  apply filter_agree. intros i _.
  unfold row_any. rewrite !map_map. cbn [snd].
  rewrite existsb_map.
  destruct (nth_error statements i) as [v|] eqn:Ei.
  - apply existsb_agree. intros t Ht.
    destruct (find (fun t0 => String.eqb (t0 ++ "_present")
                                         (t ++ "_present")) (dict_keys d))
      as [t'|] eqn:F.
    + apply find_some in F as [_ E]. apply String.eqb_eq in E.
      apply append_suffix_inj in E. subst t'.
      unfold flag_cells, flags. rewrite map_map.
      rewrite nth_error_map, Ei. simpl.
      now destruct (get_present (classify_statement v d) t).
    + assert (X := List.find_none _ _ F t Ht). simpl in X.
      now rewrite String.eqb_refl in X.
  - apply existsb_none. intros t Ht.
    destruct (find _ (dict_keys d)); [|now destruct i].
    unfold flag_cells, flags. rewrite map_map.
    now rewrite nth_error_map, Ei.
Qed.

Lemma any_tactic_counts_matching_rows_witness :
  exists out,
    process_data
      (mkFrame 3 [("Statement",
                   [VStr "Hurry, VIPs!"; VStr "Plain"; VStr "members only"])])
      [("urgency", ["hurry"]); ("exclusive", ["vip"; "members only"])]
    = Ok (out, "Statement")
    /\ any_tactic out ["urgency"; "exclusive"] = Ok 2.
Proof.
  eexists. split; [reflexivity|].
  assert (Hd : NoDup (dict_keys (V := list string)
                        [("urgency", ["hurry"]);
                         ("exclusive", ["vip"; "members only"])]))
    by nodup.
  assert (Hclash :
    no_name_clash
      (mkFrame 3 [("Statement",
                   [VStr "Hurry, VIPs!"; VStr "Plain";
                    VStr "members only"])])
      [("urgency", ["hurry"]); ("exclusive", ["vip"; "members only"])]).
  { split; [nodup|]. split; [simpl; intuition discriminate|].
    intros tactic name [<-|[<-|[]]] [<-|[<-|[<-|[]]]];
      simpl; intuition discriminate. }
  destruct (any_tactic_counts_matching_rows _ _ _ _ Hd Hclash eq_refl)
    as (statements & Hs & Ht).
  injection Hs as <-. exact (Ht eq_refl).
Defined.

(** ** The runs as a whole *)

Lemma find_exists {A} (p : A -> bool) (l : list A) (a : A) :
  In a l -> p a = true -> exists b, find p l = Some b.
Proof.
  intros Hin Hp. destruct (find p l) eqn:F; [eauto|].
  rewrite (List.find_none _ _ F a Hin) in Hp. discriminate.
Qed.

(** The run of the codex page never ends in an exception: it either
    reports that no column is named [statement] (in any case) and keeps
    the session, or classifies under the first column so named, which is
    a column of the file, and stores the frame and the name. *)
Theorem codex_run_never_raises
  (input_df : Frame value) (keywords : dictionaries) (st : Codex.session) :
  (forall e,
      snd (Codex.run_classification input_df keywords st)
      <> Codex.Uncaught e)
  /\ (Codex._detect_statement_column (columns input_df) = None ->
      fst (Codex.run_classification input_df keywords st) = st)
  /\ (forall col,
         Codex._detect_statement_column (columns input_df) = Some col ->
         lower col = "statement" /\ In col (columns input_df) /\
         exists classified msg,
           Codex.run_classification input_df keywords st
           = (Codex.mkSession (Some classified) col, Codex.Success msg)
           /\ nrows classified = nrows input_df).
Proof.
  assert (K : forall col,
    Codex._detect_statement_column (columns input_df) = Some col ->
    lower col = "statement" /\ In col (columns input_df) /\
    exists classified msg,
      Codex.run_classification input_df keywords st
      = (Codex.mkSession (Some classified) col, Codex.Success msg)
      /\ nrows classified = nrows input_df).
  { intros col Hd. unfold Codex._detect_statement_column in Hd.
    assert (Hf := Hd). apply find_some in Hf as [Hin Hl].
    apply String.eqb_eq in Hl.
    split; [exact Hl|]. split; [exact Hin|].
    destruct (df_get_In input_df col Hin) as [series Hs].
    unfold Codex.run_classification, Codex._detect_statement_column.
    rewrite Hd, (apply_classification_fold _ _ keywords _ Hs).
    eexists _, _. split; [reflexivity|].
    exact (assign_nrows flag_name (flag_series series) keywords input_df). }
  split; [|split; [|exact K]].
  - intros e.
    destruct (Codex._detect_statement_column (columns input_df))
      as [col|] eqn:Hd.
    + destruct (K col eq_refl) as (_ & _ & c & m & -> & _). discriminate.
    + unfold Codex.run_classification. rewrite Hd. discriminate.
  - intros Hd. unfold Codex.run_classification. now rewrite Hd.
Qed.

Lemma codex_run_never_raises_witness :
  lower "STATEMENT" = "statement"
  /\ In "STATEMENT" (columns (mkFrame 1 [("id", [VInt 1]);
                                         ("STATEMENT", [VStr "Hurry"])])).
Proof.
  destruct (proj2 (proj2 (codex_run_never_raises
                            (mkFrame 1 [("id", [VInt 1]);
                                        ("STATEMENT", [VStr "Hurry"])])
                            default_dictionaries
                            (Codex.mkSession None "Statement")))
                  "STATEMENT" eq_refl)
    as (H1 & H2 & _).
  split; assumption.
Defined.

(** The three pages are stricter one than the other about the statement
    column: a file that [streamlit_app.py] accepts (a column named
    [Statement], spelled so) is accepted by the codex page, and a file
    that the codex page accepts is resolved by name, not by position, in
    [process_data]; the columns chosen need not be the same. *)
Theorem statement_column_variants (columns : list string) :
  (In "Statement" columns ->
   exists col, Codex._detect_statement_column columns = Some col)
  /\ (forall col,
         Codex._detect_statement_column columns = Some col ->
         exists col',
           find_statement_col columns = Ok col'
           /\ names_statement col' = true
           /\ In col' columns).
Proof.
  split.
  - intros H. unfold Codex._detect_statement_column.
    now apply (find_exists _ _ "Statement").
  - intros col Hd. unfold Codex._detect_statement_column in Hd.
    apply find_some in Hd as [Hin Hl]. apply String.eqb_eq in Hl.
    assert (Hn : names_statement col = true).
    { unfold names_statement. now rewrite Hl. }
    destruct (find_exists names_statement _ _ Hin Hn) as [col' F].
    exists col'. unfold find_statement_col. rewrite F.
    apply find_some in F as [Hin' Hn']. now repeat split.
Qed.

Lemma statement_column_variants_witness :
  exists col,
    Codex._detect_statement_column ["Ad text"; "STATEMENT"; "Statement"]
    = Some col.
Proof.
  apply (proj1 (statement_column_variants
                  ["Ad text"; "STATEMENT"; "Statement"])).
  simpl. right. right. left. reflexivity.
Defined.
